(** * llm-spend: cost attribution for LLM API calls

    A shallow embedding of the core of the [llm_spend] package
    ([pricing.py], [store.py], [tracker.py]) and the properties of its
    specification.

    Conventions of the embedding.
    - Python [int] is [Z]; Python [float] is the primitive IEEE 754
      binary64 type [float], so that costs are computed with the very
      rounding the interpreter performs.
    - Python [str] is [string], read as a sequence of code points below 256.
    - An operation that may raise returns an [outcome]; stateful code
      threads a [World] (the call log and the wall clock) explicitly.
    - The [calls] table is a relational table: a list of rows in insertion
      order together with the autoincrement counter.  The engine refuses
      what SQLite refuses of an [INSERT] into this schema: an integer
      outside 64 bits, a NaN in a [REAL NOT NULL] column, a row once the
      counter is exhausted.  Failures of the environment (I/O, locking) are
      outside the model. *)

From Stdlib Require Import ZArith Bool List String Ascii Floats Lia.
From Stdlib Require Import DecimalString.
From Stdlib Require Import Permutation Sorted.
Import ListNotations.

#[local] Set Warnings "-register-all,-inexact-float".
Local Open Scope string_scope.
Local Open Scope Z_scope.

(* ================================================================== *)
(** * Python values, exceptions and outcomes *)
(* ================================================================== *)

Module Py.

(** An exception instance: its class name and its message. *)
Record exn : Type := mk_exn { exn_class : string; exn_msg : string }.

Definition TypeError (msg : string) : exn := mk_exn "TypeError" msg.
Definition ValueError (msg : string) : exn := mk_exn "ValueError" msg.
Definition KeyError (msg : string) : exn := mk_exn "KeyError" msg.
Definition OverflowError (msg : string) : exn := mk_exn "OverflowError" msg.
Definition ZeroDivisionError (msg : string) : exn :=
  mk_exn "ZeroDivisionError" msg.

(** The result of evaluating an expression: a value or a raised exception. *)
Inductive outcome (A : Type) : Type :=
| Return (a : A)
| Raise (e : exn).
Arguments Return {A} a.
Arguments Raise {A} e.

Definition bind {A B : Type} (m : outcome A) (k : A -> outcome B)
  : outcome B :=
  match m with
  | Return a => k a
  | Raise e => Raise e
  end.

(** The dynamically typed values the instrumented code inspects:
    [None], booleans, integers, strings, dictionaries with string keys
    (in insertion order) and plain attribute objects such as
    [types.SimpleNamespace] or an SDK response. *)
Inductive pyval : Type :=
| PyNone
| PyBool (b : bool)
| PyInt (n : Z)
| PyStr (s : string)
| PyDict (items : list (string * pyval))
| PyObj (attrs : list (string * pyval)).

(** Lookup in an insertion-ordered mapping with string keys. *)
Fixpoint assoc {V : Type} (d : list (string * V)) (k : string) : option V :=
  match d with
  | [] => None
  | (k', v) :: d' => if String.eqb k' k then Some v else assoc d' k
  end.

(** [d[k]]: raises [KeyError] on a missing key. *)
Definition subscript {V : Type} (d : list (string * V)) (k : string)
  : outcome V :=
  match assoc d k with
  | Some v => Return v
  | None => Raise (KeyError k)
  end.

(** [k in d] for a mapping. *)
Definition has_key {V : Type} (d : list (string * V)) (k : string) : bool :=
  match assoc d k with Some _ => true | None => false end.

(** [getattr(v, name, default)].  Only attribute objects carry the
    attributes the package probes ([usage], [model] and the token
    fields); the built-in types have none of them. *)
Definition getattr (v : pyval) (name : string) (default : pyval) : pyval :=
  match v with
  | PyObj attrs =>
      match assoc attrs name with Some x => x | None => default end
  | _ => default
  end.

(** [d.get(k, default)] on a dictionary. *)
Definition dict_get (d : list (string * pyval)) (k : string)
           (default : pyval) : pyval :=
  match assoc d k with Some x => x | None => default end.

Definition is_none (v : pyval) : bool :=
  match v with PyNone => true | _ => false end.

(** Truth value testing, as used by [if x], [not x] and [x or y]. *)
Definition truthy (v : pyval) : bool :=
  match v with
  | PyNone => false
  | PyBool b => b
  | PyInt n => negb (n =? 0)
  | PyStr s => negb (String.eqb s EmptyString)
  | PyDict items => match items with [] => false | _ => true end
  | PyObj _ => true
  end.

(** [x or y]. *)
Definition py_or (x y : pyval) : pyval := if truthy x then x else y.

(** ** The cap on conversions between integers and text

    The interpreter refuses to write an integer of more than 4300 decimal
    digits as text, and to read one from text
    ([sys.get_int_max_str_digits()], at its default). *)

Definition MAX_STR_DIGITS : Z := 4300.

Definition str_of_int (n : Z) : string := NilZero.string_of_int (Z.to_int n).

Definition set_int_max_str_digits : string :=
  "; use sys.set_int_max_str_digits() to increase the limit".

(** [str(n)] and [repr(n)] for an integer. *)
Definition int_to_str (n : Z) : outcome string :=
  if 10 ^ MAX_STR_DIGITS <=? Z.abs n
  then Raise (ValueError
                ("Exceeds the limit (4300 digits) for integer string conversion"
                 ++ set_int_max_str_digits))
  else Return (str_of_int n).

(** ** Text of strings: [repr] *)

Definition dquote : ascii := ascii_of_N 34.
Definition squote : ascii := ascii_of_N 39.
Definition backslash : ascii := ascii_of_N 92.

Definition str1 (c : ascii) : string := String c EmptyString.

Definition hex_digit (n : N) : ascii :=
  if (n <? 10)%N then ascii_of_N (48 + n) else ascii_of_N (87 + n).

Definition hex2 (n : N) : string :=
  String (hex_digit (n / 16)) (str1 (hex_digit (n mod 16))).

Fixpoint flat_map_str (f : ascii -> string) (s : string) : string :=
  match s with
  | EmptyString => EmptyString
  | String c s' => f c ++ flat_map_str f s'
  end.

Fixpoint has_char (c : ascii) (s : string) : bool :=
  match s with
  | EmptyString => false
  | String c' s' => Ascii.eqb c c' || has_char c s'
  end.

(** [str.isprintable] on one code point below 256. *)
Definition is_printable (n : N) : bool :=
  (((32 <=? n) && (n <=? 126))
   || ((161 <=? n) && (n <=? 255) && negb (n =? 173)))%N.

(** [repr(s)] for a string: single quotes unless the text holds a single
    quote and no double quote. *)
Definition repr_char (quote c : ascii) : string :=
  let n := N_of_ascii c in
  if Ascii.eqb c backslash || Ascii.eqb c quote
  then String backslash (str1 c)
  else if (n =? 9)%N then String backslash "t"
  else if (n =? 10)%N then String backslash "n"
  else if (n =? 13)%N then String backslash "r"
  else if is_printable n then str1 c
  else String backslash ("x" ++ hex2 n).

Definition repr_str (s : string) : string :=
  let quote :=
    if has_char squote s && negb (has_char dquote s) then dquote
    else squote in
  String quote (flat_map_str (repr_char quote) s ++ str1 quote).

(** The first [n] characters of a text. *)
Fixpoint take (n : nat) (s : string) : string :=
  match n, s with
  | S n', String c s' => String c (take n' s')
  | _, _ => EmptyString
  end.

(** ** [int(str)]: optional surrounding whitespace, an optional sign,
    decimal digits with single underscores between them.  The cap on the
    number of digits is checked on the leading run of digits and
    underscores, before anything that follows the run is looked at. *)

(** The blanks [int] skips: the C white space, and the two further blanks
    below 256 that are not ASCII (NEL and the no-break space). *)
Definition is_space (c : ascii) : bool :=
  let n := N_of_ascii c in
  (((9 <=? n) && (n <=? 13)) || (n =? 32) || (n =? 133) || (n =? 160))%N.

Definition digit_of (c : ascii) : option Z :=
  let n := Z.of_N (N_of_ascii c) in
  if (48 <=? n) && (n <=? 57) then Some (n - 48) else None.

Definition is_digit (c : ascii) : bool :=
  match digit_of c with Some _ => true | None => false end.

Fixpoint lstrip (s : list ascii) : list ascii :=
  match s with
  | c :: s' => if is_space c then lstrip s' else s
  | [] => []
  end.

Definition strip (s : list ascii) : list ascii :=
  rev (lstrip (rev (lstrip s))).

(** [digits acc after_digit s]: [after_digit] tells whether the previous
    character was a digit, the only place where an underscore or the
    end of the literal is allowed. *)
Fixpoint digits (acc : Z) (after_digit : bool) (s : list ascii)
  : option Z :=
  match s with
  | [] => if after_digit then Some acc else None
  | c :: s' =>
      match digit_of c with
      | Some d => digits (10 * acc + d) true s'
      | None =>
          if Ascii.eqb c "_" && after_digit then digits acc false s'
          else None
      end
  end.

(** The leading run of digits and underscores. *)
Fixpoint literal_run (s : list ascii) : list ascii :=
  match s with
  | c :: s' =>
      if is_digit c || Ascii.eqb c "_" then c :: literal_run s' else []
  | [] => []
  end.

Definition unsigned (s : list ascii) : list ascii :=
  match s with
  | c :: s' => if Ascii.eqb c "-" || Ascii.eqb c "+" then s' else s
  | [] => []
  end.

(** The number of digits of the literal, when its leading run is well
    formed; the cap applies to it. *)
Definition literal_digits (s : string) : option Z :=
  let run := literal_run (unsigned (strip (list_ascii_of_string s))) in
  match digits 0 false run with
  | Some _ => Some (Z.of_nat (List.length (filter is_digit run)))
  | None => None
  end.

Definition int_of_str (s : string) : option Z :=
  match strip (list_ascii_of_string s) with
  | c :: s' =>
      if Ascii.eqb c "-" then option_map Z.opp (digits 0 false s')
      else if Ascii.eqb c "+" then digits 0 false s'
      else digits 0 false (c :: s')
  | [] => None
  end.

Definition invalid_literal (s : string) : exn :=
  ValueError ("invalid literal for int() with base 10: "
              ++ take 200 (repr_str s)).

Definition too_many_digits (n : Z) : exn :=
  ValueError ("Exceeds the limit (4300 digits) for integer string conversion"
              ++ ": value has " ++ str_of_int n ++ " digits"
              ++ set_int_max_str_digits).

Definition not_a_number (type_name : string) : exn :=
  TypeError ("int() argument must be a string, a bytes-like object or a "
             ++ "real number, not '" ++ type_name ++ "'").

(** [int(v)]. *)
Definition py_int (v : pyval) : outcome Z :=
  match v with
  | PyInt n => Return n
  | PyBool b => Return (if b then 1 else 0)
  | PyStr s =>
      match literal_digits s with
      | Some n =>
          if MAX_STR_DIGITS <? n then Raise (too_many_digits n)
          else match int_of_str s with
               | Some n => Return n
               | None => Raise (invalid_literal s)
               end
      | None => Raise (invalid_literal s)
      end
  | PyNone => Raise (not_a_number "NoneType")
  | PyDict _ => Raise (not_a_number "dict")
  | PyObj _ => Raise (not_a_number "types.SimpleNamespace")
  end.

(** ** True division of integers

    [a / b] on integers is the exact quotient rounded once to the nearest
    double (ties to even).  Below 2^53 both operands are doubles and the
    quotient is the IEEE division; beyond, the quotient of the integers is
    rounded directly, and a quotient outside the double range raises. *)

Definition float_of_int (z : Z) : float :=
  SF2Prim (binary_normalize prec emax z 0 false).

Definition int_as_spec_float (z : Z) : spec_float :=
  match z with
  | Z0 => S754_zero false
  | Zpos m => S754_finite false m 0
  | Zneg m => S754_finite true m 0
  end.

Definition fits_mantissa (z : Z) : bool := Z.abs z <? 2 ^ 53.

Definition int_truediv (a b : Z) : outcome float :=
  if b =? 0 then Raise (ZeroDivisionError "division by zero")
  else if fits_mantissa a && fits_mantissa b
  then Return (float_of_int a / float_of_int b)%float
  else
    match SFdiv prec emax (int_as_spec_float a) (int_as_spec_float b) with
    | S754_infinity _ =>
        Raise (OverflowError "integer division result too large for a float")
    | q => Return (SF2Prim q)
    end.

(** ** Stable sorting

    [sorted_by before xs] sorts [xs] so that [x] comes no later than [y]
    whenever [before x y]; elements that compare equal keep their order.
    It stands for Python's [sorted] and for SQL's [ORDER BY]. *)

Fixpoint insert_by {A : Type} (before : A -> A -> bool) (x : A)
         (l : list A) : list A :=
  match l with
  | [] => [x]
  | y :: l' => if before x y then x :: l else y :: insert_by before x l'
  end.

Definition sorted_by {A : Type} (before : A -> A -> bool) (l : list A)
  : list A :=
  fold_right (insert_by before) [] l.

(** ** Text of values: [str], [repr] and [json.dumps] *)

(** [repr(v)]; an attribute object prints as a [types.SimpleNamespace].
    The text of an integer inside the value is under the cap as well. *)
Fixpoint py_repr (v : pyval) : outcome string :=
  match v with
  | PyNone => Return "None"
  | PyBool b => Return (if b then "True" else "False")
  | PyInt n => int_to_str n
  | PyStr s => Return (repr_str s)
  | PyDict items =>
      let fix members (items : list (string * pyval))
        : outcome (list string) :=
        match items with
        | [] => Return []
        | (k, x) :: items' =>
            match py_repr x with
            | Raise e => Raise e
            | Return sx =>
                match members items' with
                | Raise e => Raise e
                | Return rest => Return ((repr_str k ++ ": " ++ sx) :: rest)
                end
            end
        end in
      match members items with
      | Raise e => Raise e
      | Return parts => Return ("{" ++ String.concat ", " parts ++ "}")
      end
  | PyObj attrs =>
      let fix members (attrs : list (string * pyval))
        : outcome (list string) :=
        match attrs with
        | [] => Return []
        | (k, x) :: attrs' =>
            match py_repr x with
            | Raise e => Raise e
            | Return sx =>
                match members attrs' with
                | Raise e => Raise e
                | Return rest => Return ((k ++ "=" ++ sx) :: rest)
                end
            end
        end in
      match members attrs with
      | Raise e => Raise e
      | Return parts =>
          Return ("namespace(" ++ String.concat ", " parts ++ ")")
      end
  end.

(** [str(v)]. *)
Definition py_str (v : pyval) : outcome string :=
  match v with
  | PyStr s => Return s
  | _ => py_repr v
  end.

(** A JSON string literal as [json.dumps] writes it (ASCII only). *)
Definition json_char (c : ascii) : string :=
  let n := N_of_ascii c in
  if Ascii.eqb c dquote || Ascii.eqb c backslash
  then String backslash (str1 c)
  else if (n =? 10)%N then String backslash "n"
  else if (n =? 13)%N then String backslash "r"
  else if (n =? 9)%N then String backslash "t"
  else if (n =? 8)%N then String backslash "b"
  else if (n =? 12)%N then String backslash "f"
  else if ((32 <=? n) && (n <=? 126))%N then str1 c
  else String backslash ("u00" ++ hex2 n).

Definition json_str (s : string) : string :=
  String dquote (flat_map_str json_char s ++ str1 dquote).

(** [json.dumps(v)] with the default options.  An attribute object is not
    serialisable: the encoder raises [TypeError]; an integer is written by
    [int.__repr__], under the cap.  The encoder stops at the first value it
    cannot write. *)
Fixpoint json_dumps (v : pyval) : outcome string :=
  match v with
  | PyNone => Return "null"
  | PyBool b => Return (if b then "true" else "false")
  | PyInt n => int_to_str n
  | PyStr s => Return (json_str s)
  | PyDict items =>
      let fix members (items : list (string * pyval))
        : outcome (list string) :=
        match items with
        | [] => Return []
        | (k, x) :: items' =>
            match json_dumps x with
            | Raise e => Raise e
            | Return sx =>
                match members items' with
                | Raise e => Raise e
                | Return rest => Return ((json_str k ++ ": " ++ sx) :: rest)
                end
            end
        end in
      match members items with
      | Raise e => Raise e
      | Return parts => Return ("{" ++ String.concat ", " parts ++ "}")
      end
  | PyObj _ =>
      Raise (TypeError "Object of type SimpleNamespace is not JSON serializable")
  end.

End Py.

Export Py.

Declare Scope py_scope.
Notation "x <- m ;; k" := (Py.bind m (fun x => k))
  (at level 61, m at next level, right associativity) : py_scope.
Local Open Scope py_scope.

(* ================================================================== *)
(** * pricing.py *)
(* ================================================================== *)

Module Pricing.

(** One entry of the table: USD per million input and output tokens. *)
Record price : Type := mk_price { input : float; output : float }.

Definition PRICING : list (string * price) :=
  [ ("claude-3-5-sonnet-20241022", mk_price 3.00 15.00);
    ("claude-3-5-haiku-20241022", mk_price 0.80 4.00);
    ("claude-opus-4", mk_price 15.00 75.00);
    ("claude-sonnet-4", mk_price 3.00 15.00);
    ("gpt-4o", mk_price 2.50 10.00);
    ("gpt-4o-mini", mk_price 0.15 0.60);
    ("gpt-4-turbo", mk_price 10.00 30.00);
    ("o1", mk_price 15.00 60.00);
    ("o1-mini", mk_price 3.00 12.00);
    ("gemini-1.5-pro", mk_price 1.25 5.00);
    ("gemini-1.5-flash", mk_price 0.075 0.30);
    ("gemini-2.0-flash", mk_price 0.10 0.40) ]%float.

Definition keys {V : Type} (d : list (string * V)) : list string :=
  map fst d.

(** [sorted(xs, key=len, reverse=True)]: longest first; names of equal
    length keep their order in [xs]. *)
Definition longer_first (x y : string) : bool :=
  (String.length y <=? String.length x)%nat.

Definition _SORTED_MODELS : list string :=
  Eval vm_compute in sorted_by longer_first (keys PRICING).

(** [needle in hay] on strings. *)
Fixpoint str_contains (needle hay : string) : bool :=
  String.prefix needle hay
  || match hay with
     | EmptyString => false
     | String _ hay' => str_contains needle hay'
     end.

Definition get_model_pricing (model : string) : outcome (option price) :=
  if has_key PRICING model
  then p <- subscript PRICING model ;; Return (Some p)
  else
    match find (fun known_model => str_contains known_model model)
               _SORTED_MODELS with
    | Some known_model =>
        p <- subscript PRICING known_model ;; Return (Some p)
    | None =>
        match find (fun known_model => str_contains model known_model)
                   _SORTED_MODELS with
        | Some known_model =>
            p <- subscript PRICING known_model ;; Return (Some p)
        | None => Return None
        end
    end.

Definition calculate_cost (model : string) (input_tokens output_tokens : Z)
  : outcome float :=
  pricing <- get_model_pricing model ;;
  match pricing with
  | None => Return 0%float
  | Some p =>
      i <- int_truediv input_tokens 1000000 ;;
      let input_cost := (i * input p)%float in
      o <- int_truediv output_tokens 1000000 ;;
      let output_cost := (o * output p)%float in
      Return (input_cost + output_cost)%float
  end.

(** [str.lower()] on code points below 256. *)
Definition lower_char (c : ascii) : ascii :=
  let n := N_of_ascii c in
  if (((65 <=? n) && (n <=? 90))
      || ((192 <=? n) && (n <=? 222) && negb (n =? 215)))%N
  then ascii_of_N (n + 32) else c.

Fixpoint lower (s : string) : string :=
  match s with
  | EmptyString => EmptyString
  | String c s' => String (lower_char c) (lower s')
  end.

Definition startswith (s p : string) : bool := String.prefix p s.

Definition detect_provider (model : string) : string :=
  let model_lower := lower model in
  if startswith model_lower "claude" then "anthropic"
  else if startswith model_lower "gpt-"
          || startswith model_lower "o1"
          || startswith model_lower "o3" then "openai"
  else if startswith model_lower "gemini" then "google"
  else "unknown".

End Pricing.

Export Pricing.

(* ================================================================== *)
(** * store.py *)
(* ================================================================== *)

Module Store.

(** An instant of UTC time, in microseconds since the epoch.  The table
    keeps [datetime.isoformat()] text and compares it as text; for UTC
    instants that text is ordered as the instants are, so the model keeps
    the instant itself. *)
Definition instant : Type := Z.

Definition MICROSECONDS_PER_DAY : Z := 86400000000.

(** One row of the [calls] table, columns in schema order. *)
Record call : Type := mk_call {
  id : Z;
  timestamp : instant;
  provider : string;
  model : string;
  label : option string;
  file : option string;
  function : option string;
  input_tokens : Z;
  output_tokens : Z;
  cost_usd : float;
  duration_ms : float;
  metadata_json : option string
}.

(** The database behind a [SpendStore]: the rows in insertion order and
    the last identifier handed out by AUTOINCREMENT. *)
Record SpendStore : Type := mk_store {
  calls : list call;
  last_rowid : Z
}.

(** A fresh database, as left by [_init_db]. *)
Definition empty : SpendStore := mk_store [] 0.

(** ** The engine behind [conn.execute]

    What the [sqlite3] module and SQLite do with the parameters of the
    [INSERT] of [log_call], in the order in which they do it. *)

Definition IntegrityError (msg : string) : exn :=
  mk_exn "IntegrityError" msg.
Definition OperationalError (msg : string) : exn :=
  mk_exn "OperationalError" msg.

(** An INTEGER holds a signed 64-bit value; binding a larger Python [int]
    raises. *)
Definition INT64_MIN : Z := - 2 ^ 63.
Definition INT64_MAX : Z := 2 ^ 63 - 1.

Definition bind_int (n : Z) : outcome Z :=
  if (INT64_MIN <=? n) && (n <=? INT64_MAX) then Return n
  else Raise (OverflowError
                "Python int too large to convert to SQLite INTEGER").

(** A Python [float] bound to a REAL column: NaN is bound as NULL.  A
    value without fractional part is kept as an integer and read back as
    REAL, which changes nothing but the sign of a negative zero. *)
Definition read_back (x : float) : float :=
  if (x =? 0)%float then 0%float else x.

Definition bind_real (x : float) : option float :=
  if is_nan x then None else Some (read_back x).

(** [NOT NULL] on a column. *)
Definition not_null (column : string) (x : option float) : outcome float :=
  match x with
  | Some v => Return v
  | None =>
      Raise (IntegrityError ("NOT NULL constraint failed: calls." ++ column))
  end.

(** [INTEGER PRIMARY KEY AUTOINCREMENT]: one more than the largest
    identifier ever handed out, and no row once that was the largest
    INTEGER. *)
Definition new_rowid (self : SpendStore) : outcome Z :=
  if last_rowid self <? INT64_MAX then Return (last_rowid self + 1)
  else Raise (OperationalError "database or disk is full").

(** [INSERT INTO calls (...) VALUES (?, ..., ?)] and [commit]: the
    parameters are bound, the row is given its identifier, the constraints
    of the columns are checked in the order of the schema, and the row is
    written.  When any step raises, the transaction is rolled back. *)
Definition insert (self : SpendStore) (timestamp : instant)
           (provider model : string) (label file function : option string)
           (input_tokens output_tokens : Z) (cost_usd duration_ms : float)
           (metadata_json : option string)
  : outcome (Z * SpendStore) :=
  input_tokens <- bind_int input_tokens ;;
  output_tokens <- bind_int output_tokens ;;
  rowid <- new_rowid self ;;
  cost_usd <- not_null "cost_usd" (bind_real cost_usd) ;;
  duration_ms <- not_null "duration_ms" (bind_real duration_ms) ;;
  Return (rowid,
          mk_store
            (calls self ++
             [mk_call rowid timestamp provider model label file function
                      input_tokens output_tokens cost_usd duration_ms
                      metadata_json])
            rowid).

(** ** Write

    [log_call] returns the new row identifier and the table after the
    insertion; when it raises, the table is the one it was given. *)

Definition log_call (self : SpendStore) (now : instant)
           (provider model : string) (label file function : option string)
           (input_tokens output_tokens : Z) (cost_usd duration_ms : float)
           (metadata : option (list (string * pyval)))
  : outcome (Z * SpendStore) :=
  let timestamp := now in
  metadata_json <-
    match metadata with
    | Some ((_ :: _) as d) => s <- json_dumps (PyDict d) ;; Return (Some s)
    | Some [] | None => Return None
    end ;;
  insert self timestamp provider model label file function
         input_tokens output_tokens cost_usd duration_ms metadata_json.

(** ** Read helpers *)

(** [now - timedelta(days=days)]; the bounds of [datetime] (years 1 to
    9999) are not modelled. *)
Definition _cutoff (now : instant) (days : Z) : instant :=
  now - days * MICROSECONDS_PER_DAY.

(** [WHERE timestamp >= ?] *)
Definition since (cutoff : instant) (c : call) : bool :=
  cutoff <=? timestamp c.

(** [WHERE timestamp < ?] *)
Definition before (cutoff : instant) (c : call) : bool :=
  timestamp c <? cutoff.

(** [COALESCE(x, d)] on a nullable text column. *)
Definition coalesce (x : option string) (d : string) : string :=
  match x with Some s => s | None => d end.

(** A REAL result that is not a number reads back as NULL. *)
Definition coalesce_real (x d : float) : float :=
  if is_nan x then d else x.

(** [ORDER BY x DESC] on REAL values: larger first, NULL last. *)
Definition real_desc (a b : float) : bool :=
  match PrimFloat.compare a b with
  | FGt | FEq => true
  | FLt => false
  | FNotComparable => is_nan b
  end.

Definition sum_int (l : list Z) : Z := fold_right Z.add 0 l.

Definition count {A : Type} (l : list A) : Z := Z.of_nat (List.length l).

(** The distinct values of a list, in order of first occurrence. *)
Fixpoint distinct {G : Type} (eqb : G -> G -> bool) (l : list G)
  : list G :=
  match l with
  | [] => []
  | g :: l' => g :: filter (fun h => negb (eqb h g)) (distinct eqb l')
  end.

Definition opt_eqb (a b : option string) : bool :=
  match a, b with
  | Some x, Some y => String.eqb x y
  | None, None => true
  | _, _ => false
  end.

Definition pair_eqb {A B : Type} (ea : A -> A -> bool)
           (eb : B -> B -> bool) (x y : A * B) : bool :=
  ea (fst x) (fst y) && eb (snd x) (snd y).

(** One row of an aggregation: the displayed grouping key and the sums. *)
Record aggregate (K : Type) : Type := mk_aggregate {
  key : K;
  agg_calls : Z;
  agg_input_tokens : Z;
  agg_output_tokens : Z;
  agg_cost_usd : float
}.
Arguments mk_aggregate {K}.
Arguments key {K}.
Arguments agg_calls {K}.
Arguments agg_input_tokens {K}.
Arguments agg_output_tokens {K}.
Arguments agg_cost_usd {K}.

Record totals : Type := mk_totals {
  total_cost : float;
  total_input : Z;
  total_output : Z;
  total_calls : Z
}.

Section Queries.

(** [SUM] over a REAL column is the storage engine's floating-point
    summation; the queries do not depend on how it rounds. *)
Variable sql_sum_real : list float -> float.

(** [SELECT COUNT( * ), SUM(input_tokens), SUM(output_tokens),
    SUM(cost_usd)] over one group. *)
Definition summarise {K : Type} (k : K) (rows : list call)
  : aggregate K :=
  mk_aggregate k (count rows)
               (sum_int (map input_tokens rows))
               (sum_int (map output_tokens rows))
               (sql_sum_real (map cost_usd rows)).

(** [SELECT display(g), COUNT( * ), SUM(..) FROM calls
    WHERE timestamp >= cutoff GROUP BY g ORDER BY cost_usd DESC],
    where [g] is the tuple of grouping columns [col] and [display] the
    [COALESCE]d columns that are selected.  [GROUP BY] names the columns
    of the table, so that NULL is a group of its own, and [ORDER BY] names
    the selected sum.  The order of rows of equal cost is left open by the
    query; here they come in order of first occurrence of their group. *)
Definition grouped {G K : Type} (eqb : G -> G -> bool) (col : call -> G)
           (display : G -> K) (self : SpendStore) (cutoff : instant)
  : list (aggregate K) :=
  let rows := filter (since cutoff) (calls self) in
  sorted_by (fun a b => real_desc (agg_cost_usd a) (agg_cost_usd b))
    (map (fun g =>
            summarise (display g)
                      (filter (fun c => eqb (col c) g) rows))
         (distinct eqb (map col rows))).

Definition get_total (self : SpendStore) (now : instant) (days : Z)
  : totals :=
  let cutoff := _cutoff now days in
  let rows := filter (since cutoff) (calls self) in
  mk_totals
    (match rows with
     | [] => 0%float
     | _ => coalesce_real (sql_sum_real (map cost_usd rows)) 0%float
     end)
    (sum_int (map input_tokens rows))
    (sum_int (map output_tokens rows))
    (count rows).

Definition get_by_file (self : SpendStore) (now : instant) (days : Z)
  : list (aggregate string) :=
  let cutoff := _cutoff now days in
  grouped opt_eqb file (fun g => coalesce g "(unknown)") self cutoff.

Definition get_by_function (self : SpendStore) (now : instant) (days : Z)
  : list (aggregate (string * string)) :=
  let cutoff := _cutoff now days in
  grouped (pair_eqb opt_eqb opt_eqb)
          (fun c => (function c, file c))
          (fun g => (coalesce (fst g) "(unknown)",
                     coalesce (snd g) "(unknown)"))
          self cutoff.

Definition get_by_label (self : SpendStore) (now : instant) (days : Z)
  : list (aggregate string) :=
  let cutoff := _cutoff now days in
  grouped opt_eqb label (fun g => coalesce g "(unlabeled)") self cutoff.

Definition get_by_model (self : SpendStore) (now : instant) (days : Z)
  : list (aggregate (string * string)) :=
  let cutoff := _cutoff now days in
  grouped (pair_eqb String.eqb String.eqb)
          (fun c => (model c, provider c))
          (fun g => g) self cutoff.

End Queries.

(** [SELECT * FROM calls WHERE timestamp >= ? ORDER BY timestamp DESC] *)
Definition get_all_calls (self : SpendStore) (now : instant) (days : Z)
  : list call :=
  let cutoff := _cutoff now days in
  sorted_by (fun a b => timestamp b <=? timestamp a)
            (filter (since cutoff) (calls self)).

(** ** Management *)

Definition clear (self : SpendStore) (now : instant) (days : option Z)
  : Z * SpendStore :=
  match days with
  | None => (count (calls self), mk_store [] (last_rowid self))
  | Some days =>
      let cutoff := _cutoff now days in
      (count (filter (before cutoff) (calls self)),
       mk_store (filter (fun c => negb (before cutoff c)) (calls self))
                (last_rowid self))
  end.

(** ** Export

    A value as a row hands it to the writers, and the written files kept
    as the rows they hold (the writers' rendering of numbers is theirs). *)
Inductive sql_value : Type :=
| SqlNull
| SqlInteger (n : Z)
| SqlReal (x : float)
| SqlText (s : string)
| SqlIsoTime (t : instant).

Definition nullable (x : option string) : sql_value :=
  match x with Some s => SqlText s | None => SqlNull end.

(** [dict(r)] for a row of [SELECT *]. *)
Definition row_dict (c : call) : list (string * sql_value) :=
  [ ("id", SqlInteger (id c));
    ("timestamp", SqlIsoTime (timestamp c));
    ("provider", SqlText (provider c));
    ("model", SqlText (model c));
    ("label", nullable (label c));
    ("file", nullable (file c));
    ("function", nullable (function c));
    ("input_tokens", SqlInteger (input_tokens c));
    ("output_tokens", SqlInteger (output_tokens c));
    ("cost_usd", SqlReal (cost_usd c));
    ("duration_ms", SqlReal (duration_ms c));
    ("metadata_json", nullable (metadata_json c)) ].

Inductive document : Type :=
| Csv (header : list string) (data : list (list sql_value))
| Json (objects : list (list (string * sql_value))).

(** The files written so far, by path; the latest write comes first. *)
Definition files : Type := list (string * document).

Definition TEN_YEARS : Z := 365 * 10.

Definition export_csv (self : SpendStore) (now : instant) (path : string)
           (fs : files) : Z * files :=
  let rows := map row_dict (get_all_calls self now TEN_YEARS) in
  match rows with
  | [] => (0, fs)
  | first :: _ =>
      let fieldnames := map fst first in
      (count rows, (path, Csv fieldnames (map (map snd) rows)) :: fs)
  end.

Definition export_json (self : SpendStore) (now : instant) (path : string)
           (fs : files) : Z * files :=
  let rows := map row_dict (get_all_calls self now TEN_YEARS) in
  (count rows, (path, Json rows) :: fs).

End Store.

(* ================================================================== *)
(** * tracker.py *)
(* ================================================================== *)

Module Tracker.

(** What the instrumentation reads and writes besides its arguments: the
    module-level store, the UTC clock read by the store and the reading
    of [time.time()], in seconds. *)
Record World : Type := mk_world {
  _store : Store.SpendStore;
  utcnow : Store.instant;
  time : float
}.

(** [_get_store()]: the module-level store, created on first use; the
    database it opens is the one of the world. *)
Definition _get_store (w : World) : Store.SpendStore := _store w.

(** The world after a write to the store. *)
Definition set_store (w : World) (s : Store.SpendStore) : World :=
  mk_world s (utcnow w) (time w).

(** An entry of [inspect.stack()]. *)
Record FrameInfo : Type := mk_frame { filename : string; function : string }.

(** ** Response object helpers *)

Definition _extract_tokens (response : pyval) : outcome (Z * Z) :=
  if is_none response then Return (0, 0)
  else
    let usage := getattr response "usage" PyNone in
    if negb (is_none usage) then
      let prompt := getattr usage "prompt_tokens" PyNone in
      let completion := getattr usage "completion_tokens" PyNone in
      if negb (is_none prompt) && negb (is_none completion) then
        p <- py_int prompt ;; c <- py_int completion ;; Return (p, c)
      else
        let inp := getattr usage "input_tokens" PyNone in
        let out := getattr usage "output_tokens" PyNone in
        if negb (is_none inp) && negb (is_none out) then
          i <- py_int inp ;; o <- py_int out ;; Return (i, o)
        else
          let inp := py_or (getattr usage "input_tokens" PyNone)
                           (getattr usage "prompt_tokens" (PyInt 0)) in
          let out := py_or (getattr usage "output_tokens" PyNone)
                           (getattr usage "completion_tokens" (PyInt 0)) in
          i <- py_int inp ;; o <- py_int out ;; Return (i, o)
    else
      match response with
      | PyDict d =>
          match dict_get d "usage" (PyDict []) with
          | PyDict usage_dict =>
              let inp := py_or (dict_get usage_dict "input_tokens" PyNone)
                               (dict_get usage_dict "prompt_tokens" (PyInt 0)) in
              let out := py_or (dict_get usage_dict "output_tokens" PyNone)
                               (dict_get usage_dict "completion_tokens"
                                         (PyInt 0)) in
              i <- py_int inp ;; o <- py_int out ;; Return (i, o)
          | _ => Return (0, 0)
          end
      | _ => Return (0, 0)
      end.

Definition _extract_model (response : pyval) : outcome pyval :=
  if is_none response then Return PyNone
  else
    let model := getattr response "model" PyNone in
    if truthy model then text <- py_str model ;; Return (PyStr text)
    else
      match response with
      | PyDict d => Return (dict_get d "model" PyNone)
      | _ => Return PyNone
      end.

(** [x or y] where [x] is an optional string. *)
Definition or_else (x : option string) (y : string) : string :=
  match x with
  | Some s => if String.eqb s EmptyString then y else s
  | None => y
  end.

Definition given (x : option string) : bool :=
  match x with
  | Some s => negb (String.eqb s EmptyString)
  | None => false
  end.

(** ** Decorator *)

(** A callable: its [__name__] and its effect on the world. *)
Record callable (A : Type) : Type := mk_callable {
  __name__ : string;
  __call__ : A -> World -> outcome pyval * World
}.
Arguments mk_callable {A}.
Arguments __name__ {A}.
Arguments __call__ {A}.

(** [track(model, label, provider)(func)], called with [args] from the
    frame [caller], which is [inspect.stack()[1]] inside the wrapper. *)
Definition track {A : Type} (model : string) (label provider : option string)
           (func : callable A) (caller : FrameInfo) (args : A) (w : World)
  : outcome pyval * World :=
  let caller_file := filename caller in
  let caller_function := function caller in
  let start := time w in
  match __call__ func args w with
  | (Raise e, w1) => (Raise e, w1)
  | (Return result, w1) =>
      let duration_ms := ((time w1 - start) * 1000)%float in
      let logged :=
        tokens <- _extract_tokens result ;;
        let '(input_tokens, output_tokens) := tokens in
        extracted <- _extract_model result ;;
        let detected_model := py_or extracted (PyStr model) in
        detected_provider <-
          (if given provider then Return (or_else provider EmptyString)
           else match detected_model with
                | PyStr m => Return (detect_provider m)
                | _ => Raise (mk_exn "AttributeError"
                                     "object has no attribute 'lower'")
                end) ;;
        model_name <-
          match detected_model with
          | PyStr m => Return m
          | _ => Raise (TypeError "argument of this type is not iterable")
          end ;;
        cost <- calculate_cost model_name input_tokens output_tokens ;;
        Store.log_call (_get_store w1) (utcnow w1)
                       detected_provider model_name
                       (Some (or_else label (__name__ func)))
                       (Some caller_file) (Some caller_function)
                       input_tokens output_tokens cost duration_ms None in
      match logged with
      | Raise e => (Raise e, w1)
      | Return (_, store') => (Return result, set_store w1 store')
      end
  end.

(** ** Context manager *)

Module SpendContext.
(** Holds mutable token counts for the [spending] context manager. *)
Record t : Type := mk { input_tokens : Z; output_tokens : Z }.
Definition __init__ : t := mk 0 0.
End SpendContext.

(** [with spending(model, label, provider) as s: body].  The body receives
    the holder and leaves it as it last assigned it; it ends normally or
    with an exception.  [frame] is [inspect.stack()[1]] inside the
    generator. *)
Definition spending {A : Type} (model : string)
           (label provider : option string) (frame : FrameInfo)
           (body : SpendContext.t -> World ->
                   outcome A * SpendContext.t * World)
           (w : World) : outcome A * World :=
  let ctx := SpendContext.__init__ in
  let caller_file := filename frame in
  let caller_function := function frame in
  let start := time w in
  let '(result, ctx, w1) := body ctx w in
  (* finally: *)
  let duration_ms := ((time w1 - start) * 1000)%float in
  let detected_provider := or_else provider (detect_provider model) in
  let logged :=
    cost <- calculate_cost model (SpendContext.input_tokens ctx)
                           (SpendContext.output_tokens ctx) ;;
    Store.log_call (_get_store w1) (utcnow w1) detected_provider model label
                   (Some caller_file) (Some caller_function)
                   (SpendContext.input_tokens ctx)
                   (SpendContext.output_tokens ctx)
                   cost duration_ms None in
  match logged with
  | Raise e => (Raise e, w1)
  | Return (_, store') => (result, set_store w1 store')
  end.

End Tracker.

(* ================================================================== *)
(** * Properties *)
(* ================================================================== *)

(** ** Stable sorting *)

Section SortedBy.

Context {A : Type}.
Variable before : A -> A -> bool.

Lemma insert_by_perm (x : A) (l : list A) :
  Permutation (insert_by before x l) (x :: l).
Proof.
  induction l as [|y l IH]; simpl.
  - apply Permutation_refl.
  - destruct (before x y).
    + apply Permutation_refl.
    + eapply Permutation_trans.
      * apply perm_skip. exact IH.
      * apply perm_swap.
Qed.

Lemma sorted_by_perm (l : list A) : Permutation (sorted_by before l) l.
Proof.
  induction l as [|x l IH]; simpl.
  - apply perm_nil.
  - eapply Permutation_trans.
    + apply insert_by_perm.
    + apply perm_skip. exact IH.
Qed.

Lemma sorted_by_In (l : list A) (x : A) :
  In x (sorted_by before l) <-> In x l.
Proof.
  split; apply Permutation_in.
  - apply sorted_by_perm.
  - apply Permutation_sym, sorted_by_perm.
Qed.

Hypothesis before_total :
  forall x y, before x y = false -> before y x = true.
Hypothesis before_trans :
  forall x y z, before x y = true -> before y z = true -> before x z = true.

Lemma insert_by_sorted (x : A) (l : list A) :
  StronglySorted (fun a b => before a b = true) l ->
  StronglySorted (fun a b => before a b = true) (insert_by before x l).
Proof.
  induction 1 as [|y l Hs IH Hy]; simpl.
  - constructor; constructor.
  - destruct (before x y) eqn:Hxy.
    + constructor.
      * constructor; assumption.
      * constructor; [exact Hxy|].
        rewrite Forall_forall in Hy |- *.
        intros z Hz. eapply before_trans; [exact Hxy | apply Hy, Hz].
    + constructor; [exact IH|].
      rewrite Forall_forall in Hy |- *.
      intros z Hz.
      apply (Permutation_in _ (insert_by_perm x l)) in Hz.
      destruct Hz as [<-|Hz].
      * apply before_total, Hxy.
      * apply Hy, Hz.
Qed.

Lemma sorted_by_sorted (l : list A) :
  StronglySorted (fun a b => before a b = true) (sorted_by before l).
Proof.
  induction l as [|x l IH]; simpl.
  - constructor.
  - apply insert_by_sorted, IH.
Qed.

(** The first element of a sorted list comes before every other one. *)
Lemma sorted_by_head (l : list A) (x : A) (rest : list A) :
  sorted_by before l = x :: rest ->
  forall y, In y l -> y = x \/ before x y = true.
Proof.
  intros E y Hy.
  apply sorted_by_In in Hy. rewrite E in Hy.
  pose proof (sorted_by_sorted l) as Hs. rewrite E in Hs.
  inversion Hs as [|? ? _ Hall]; subst.
  destruct Hy as [->|Hy]; [left; reflexivity | right].
  rewrite Forall_forall in Hall. apply Hall, Hy.
Qed.

(** In a list sorted by [before], the first element that satisfies a
    test comes before every other element that satisfies it. *)
Lemma find_sorted_first (P : A -> bool) (l : list A) (x : A) :
  StronglySorted (fun a b => before a b = true) l ->
  find P l = Some x ->
  forall y, In y l -> P y = true -> y = x \/ before x y = true.
Proof.
  induction 1 as [|z l Hs IH Hz]; simpl; intros Hf y Hy Py.
  - contradiction.
  - destruct (P z) eqn:Pz.
    + injection Hf as <-.
      destruct Hy as [->|Hy]; [left; reflexivity | right].
      rewrite Forall_forall in Hz. apply Hz, Hy.
    + destruct Hy as [->|Hy]; [congruence|].
      apply IH; assumption.
Qed.

End SortedBy.

(** ** Strings *)

Lemma prefix_spec (p s : string) :
  String.prefix p s = true <-> exists post, s = (p ++ post)%string.
Proof.
  revert s. induction p as [|c p IH]; intros s; simpl.
  - split; [intros _; exists s; reflexivity | intros _; destruct s; reflexivity].
  - destruct s as [|d s]; simpl.
    + split; [discriminate | intros [post H]; discriminate H].
    + destruct (Ascii.ascii_dec c d) as [->|Hcd].
      * rewrite IH. split; intros [post H]; exists post.
        -- rewrite H. reflexivity.
        -- injection H as H. exact H.
      * split; [discriminate|].
        intros [post H]. injection H as H1 _. congruence.
Qed.

Lemma str_contains_nil (needle : string) :
  str_contains needle EmptyString = String.prefix needle EmptyString.
Proof. simpl. apply orb_false_r. Qed.

Lemma str_contains_cons (needle : string) (c : ascii) (hay : string) :
  str_contains needle (String c hay)
  = String.prefix needle (String c hay) || str_contains needle hay.
Proof. reflexivity. Qed.

(** [str_contains] is the substring relation. *)
Lemma str_contains_spec (needle hay : string) :
  str_contains needle hay = true <->
  exists pre post, hay = (pre ++ needle ++ post)%string.
Proof.
  induction hay as [|c hay IH].
  - rewrite str_contains_nil, prefix_spec. split.
    + intros [post H]. exists EmptyString, post. exact H.
    + intros [pre [post H]]. destruct pre as [|d pre]; [|discriminate H].
      exists post. exact H.
  - rewrite str_contains_cons, orb_true_iff, prefix_spec, IH. split.
    + intros [[post H]|[pre [post H]]].
      * exists EmptyString, post. exact H.
      * exists (String c pre), post. simpl. rewrite H. reflexivity.
    + intros [pre [post H]]. destruct pre as [|d pre]; simpl in H.
      * left. exists post. exact H.
      * right. injection H as _ H. exists pre, post. exact H.
Qed.

(** ** pricing.py *)

Lemma sorted_models_def :
  _SORTED_MODELS = sorted_by longer_first (keys PRICING).
Proof. reflexivity. Qed.

Lemma longer_first_total (x y : string) :
  longer_first x y = false -> longer_first y x = true.
Proof.
  unfold longer_first. rewrite Nat.leb_gt, Nat.leb_le. intros H.
  apply Nat.lt_le_incl, H.
Qed.

Lemma longer_first_trans (x y z : string) :
  longer_first x y = true -> longer_first y z = true ->
  longer_first x z = true.
Proof.
  unfold longer_first. rewrite !Nat.leb_le. intros H1 H2.
  eapply Nat.le_trans; eassumption.
Qed.

Lemma sorted_models_sorted :
  StronglySorted (fun a b => longer_first a b = true) _SORTED_MODELS.
Proof.
  rewrite sorted_models_def.
  apply sorted_by_sorted; [exact longer_first_total | exact longer_first_trans].
Qed.

Lemma sorted_models_In (k : string) :
  In k _SORTED_MODELS <-> In k (keys PRICING).
Proof. rewrite sorted_models_def. apply sorted_by_In. Qed.

Lemma assoc_In {V : Type} (d : list (string * V)) (k : string) (v : V) :
  assoc d k = Some v -> In (k, v) d.
Proof.
  induction d as [|[k' v'] d IH]; simpl; [discriminate|].
  destruct (String.eqb k' k) eqn:E.
  - apply String.eqb_eq in E. intros H. injection H as <-. left. congruence.
  - intros H. right. apply IH, H.
Qed.

Lemma assoc_None {V : Type} (d : list (string * V)) (k : string) :
  assoc d k = None <-> ~ In k (keys d).
Proof.
  induction d as [|[k' v'] d IH]; simpl.
  - split; [intros _ H; exact H | reflexivity].
  - destruct (String.eqb k' k) eqn:E.
    + apply String.eqb_eq in E. split; [discriminate|].
      intros H. exfalso. apply H. left. exact E.
    + apply String.eqb_neq in E. rewrite IH. split.
      * intros H [H1|H1]; [apply E, H1 | apply H, H1].
      * intros H H1. apply H. right. exact H1.
Qed.

Lemma assoc_key {V : Type} (d : list (string * V)) (k : string) :
  In k (keys d) -> exists v, assoc d k = Some v.
Proof.
  intros H. destruct (assoc d k) as [v|] eqn:E.
  - exists v. reflexivity.
  - apply assoc_None in E. contradiction.
Qed.

(** The steps of [get_model_pricing], one lemma per branch. *)

Lemma get_model_pricing_exact (m : string) (p : price) :
  assoc PRICING m = Some p -> get_model_pricing m = Return (Some p).
Proof.
  intros H. unfold get_model_pricing, has_key, subscript. rewrite H.
  reflexivity.
Qed.

Lemma get_model_pricing_inner (m k : string) :
  assoc PRICING m = None ->
  find (fun known_model => str_contains known_model m) _SORTED_MODELS
  = Some k ->
  exists p, assoc PRICING k = Some p /\
            get_model_pricing m = Return (Some p).
Proof.
  intros Hm Hf.
  destruct (find_some _ _ Hf) as [Hin _].
  apply sorted_models_In, assoc_key in Hin. destruct Hin as [p Hp].
  exists p. split; [exact Hp|].
  unfold get_model_pricing, has_key, subscript. rewrite Hm, Hf, Hp.
  reflexivity.
Qed.

Lemma get_model_pricing_outer (m k : string) :
  assoc PRICING m = None ->
  find (fun known_model => str_contains known_model m) _SORTED_MODELS
  = None ->
  find (fun known_model => str_contains m known_model) _SORTED_MODELS
  = Some k ->
  exists p, assoc PRICING k = Some p /\
            get_model_pricing m = Return (Some p).
Proof.
  intros Hm Hf1 Hf2.
  destruct (find_some _ _ Hf2) as [Hin _].
  apply sorted_models_In, assoc_key in Hin. destruct Hin as [p Hp].
  exists p. split; [exact Hp|].
  unfold get_model_pricing, has_key, subscript. rewrite Hm, Hf1, Hf2, Hp.
  reflexivity.
Qed.

Lemma get_model_pricing_absent (m : string) :
  assoc PRICING m = None ->
  find (fun known_model => str_contains known_model m) _SORTED_MODELS
  = None ->
  find (fun known_model => str_contains m known_model) _SORTED_MODELS
  = None ->
  get_model_pricing m = Return None.
Proof.
  intros Hm Hf1 Hf2.
  unfold get_model_pricing, has_key. rewrite Hm, Hf1, Hf2. reflexivity.
Qed.

(** Resolution never raises, and a price it returns is a table entry. *)
Lemma get_model_pricing_total (m : string) :
  get_model_pricing m = Return None \/
  exists k p, In (k, p) PRICING /\ get_model_pricing m = Return (Some p).
Proof.
  destruct (assoc PRICING m) as [p|] eqn:Hm.
  - right. exists m, p. split; [apply assoc_In, Hm|].
    apply get_model_pricing_exact, Hm.
  - destruct (find (fun k => str_contains k m) _SORTED_MODELS) as [k|] eqn:Hf1.
    + right. destruct (get_model_pricing_inner m k Hm Hf1) as [p [Hp H]].
      exists k, p. split; [apply assoc_In, Hp | exact H].
    + destruct (find (fun k => str_contains m k) _SORTED_MODELS)
        as [k|] eqn:Hf2.
      * right.
        destruct (get_model_pricing_outer m k Hm Hf1 Hf2) as [p [Hp H]].
        exists k, p. split; [apply assoc_In, Hp | exact H].
      * left. apply get_model_pricing_absent; assumption.
Qed.

Lemma find_longest (P : string -> bool) (k : string) :
  find P _SORTED_MODELS = Some k ->
  In k (keys PRICING) /\ P k = true /\
  forall k', In k' (keys PRICING) -> P k' = true ->
             (String.length k' <= String.length k)%nat.
Proof.
  intros Hf. destruct (find_some _ _ Hf) as [Hin Pk].
  split; [apply sorted_models_In, Hin|]. split; [exact Pk|].
  intros k' Hk' Pk'.
  apply sorted_models_In in Hk'.
  destruct (find_sorted_first longer_first P _SORTED_MODELS k
              sorted_models_sorted Hf k' Hk' Pk') as [->|H].
  - apply Nat.le_refl.
  - apply Nat.leb_le, H.
Qed.

Lemma find_exists {A : Type} (P : A -> bool) (l : list A) (x : A) :
  In x l -> P x = true -> exists y, find P l = Some y.
Proof.
  intros Hin Px. destruct (find P l) as [y|] eqn:E.
  - exists y. reflexivity.
  - rewrite (find_none _ _ E x Hin) in Px. discriminate Px.
Qed.

Lemma find_absent {A : Type} (P : A -> bool) (l : list A) :
  (forall x, In x l -> P x = false) -> find P l = None.
Proof.
  intros H. destruct (find P l) as [y|] eqn:E; [|reflexivity].
  destruct (find_some _ _ E) as [Hin Py]. rewrite (H y Hin) in Py.
  discriminate Py.
Qed.

(** [a] occurs in [b] as a contiguous run of characters. *)
Definition substring (a b : string) : Prop :=
  exists pre post, b = (pre ++ a ++ post)%string.

Lemma not_substring (a b : string) :
  ~ substring a b <-> str_contains a b = false.
Proof.
  unfold substring. rewrite <- str_contains_spec.
  destruct (str_contains a b); split; congruence.
Qed.

(** C4. Resolution follows the priority order: a known identifier resolves
    to its own entry; otherwise the longest known identifier contained in
    the name wins; otherwise the longest known identifier that contains the
    name wins; a name matching nothing resolves to absent, without raising.
    In particular ["gpt-4o-mini-2024-07-18"] resolves to the
    ["gpt-4o-mini"] entry, not the ["gpt-4o"] one, and
    ["no-such-model-xyz"] to absent. *)
Theorem C4_resolution_priority :
  (forall k p, In (k, p) PRICING -> get_model_pricing k = Return (Some p))
  /\ (forall m k,
        ~ In m (keys PRICING) ->
        In k (keys PRICING) -> substring k m ->
        exists k0 p0,
          In (k0, p0) PRICING /\ substring k0 m
          /\ (forall k', In k' (keys PRICING) -> substring k' m ->
                         (String.length k' <= String.length k0)%nat)
          /\ get_model_pricing m = Return (Some p0))
  /\ (forall m k,
        ~ In m (keys PRICING) ->
        (forall k', In k' (keys PRICING) -> ~ substring k' m) ->
        In k (keys PRICING) -> substring m k ->
        exists k0 p0,
          In (k0, p0) PRICING /\ substring m k0
          /\ (forall k', In k' (keys PRICING) -> substring m k' ->
                         (String.length k' <= String.length k0)%nat)
          /\ get_model_pricing m = Return (Some p0))
  /\ (forall m,
        ~ In m (keys PRICING) ->
        (forall k', In k' (keys PRICING) ->
                    ~ substring k' m /\ ~ substring m k') ->
        get_model_pricing m = Return None)
  /\ get_model_pricing "gpt-4o-mini-2024-07-18"
     = Return (assoc PRICING "gpt-4o-mini")
  /\ get_model_pricing "gpt-4o-mini-2024-07-18"
     <> Return (assoc PRICING "gpt-4o")
  /\ get_model_pricing "no-such-model-xyz" = Return None.
Proof.
  split; [|split; [|split; [|split; [|split; [|split]]]]].
  - intros k p H. apply get_model_pricing_exact.
    simpl in H.
    repeat (destruct H as [H|H]; [injection H as <- <-; reflexivity|]).
    contradiction.
  - intros m k Hm Hk Hc. apply assoc_None in Hm.
    apply str_contains_spec in Hc.
    destruct (find_exists (fun k => str_contains k m) _SORTED_MODELS k)
      as [k0 Hf]; [apply sorted_models_In, Hk | exact Hc |].
    destruct (get_model_pricing_inner m k0 Hm Hf) as [p0 [Hp0 Hget]].
    destruct (find_longest _ _ Hf) as [_ [Hc0 Hmax]].
    exists k0, p0.
    split; [apply assoc_In, Hp0|].
    split; [apply str_contains_spec, Hc0|].
    split; [|exact Hget].
    intros k' Hk' Hc'. apply Hmax; [exact Hk' | apply str_contains_spec, Hc'].
  - intros m k Hm Hnone Hk Hc. apply assoc_None in Hm.
    apply str_contains_spec in Hc.
    assert (Hf1 : find (fun k => str_contains k m) _SORTED_MODELS = None).
    { apply find_absent. intros x Hx. apply not_substring.
      apply Hnone, sorted_models_In, Hx. }
    destruct (find_exists (fun k => str_contains m k) _SORTED_MODELS k)
      as [k0 Hf2]; [apply sorted_models_In, Hk | exact Hc |].
    destruct (get_model_pricing_outer m k0 Hm Hf1 Hf2) as [p0 [Hp0 Hget]].
    destruct (find_longest _ _ Hf2) as [_ [Hc0 Hmax]].
    exists k0, p0.
    split; [apply assoc_In, Hp0|].
    split; [apply str_contains_spec, Hc0|].
    split; [|exact Hget].
    intros k' Hk' Hc'. apply Hmax; [exact Hk' | apply str_contains_spec, Hc'].
  - intros m Hm Hnone. apply assoc_None in Hm.
    apply get_model_pricing_absent; [exact Hm | |];
      apply find_absent; intros x Hx; apply sorted_models_In in Hx;
      apply not_substring; apply (Hnone x Hx).
  - reflexivity.
  - vm_compute. intros H. discriminate H.
  - reflexivity.
Qed.

(** The priority rule at work on a dated name: ["gpt-4o"] is a known
    identifier contained in it, and the longest such one is chosen. *)
Lemma C4_resolution_priority_witness :
  exists k0 p0,
    In (k0, p0) PRICING
    /\ substring k0 "gpt-4o-mini-2024-07-18"
    /\ (forall k', In k' (keys PRICING) ->
                   substring k' "gpt-4o-mini-2024-07-18" ->
                   (String.length k' <= String.length k0)%nat)
    /\ get_model_pricing "gpt-4o-mini-2024-07-18" = Return (Some p0).
Proof.
  apply (proj1 (proj2 C4_resolution_priority)
               "gpt-4o-mini-2024-07-18" "gpt-4o").
  - vm_compute. intuition discriminate.
  - vm_compute. tauto.
  - exists EmptyString, "-mini-2024-07-18". reflexivity.
Defined.

(** Below 2^53 the division by a million is the IEEE division of the two
    doubles and cannot raise. *)
Lemma int_truediv_million (a : Z) :
  Z.abs a < 2 ^ 53 ->
  int_truediv a 1000000 = Return (float_of_int a / 1000000)%float.
Proof.
  intros H. unfold int_truediv, fits_mantissa.
  apply Z.ltb_lt in H. rewrite H. reflexivity.
Qed.

Lemma calculate_cost_priced (m : string) (p : price) (i o : Z) :
  get_model_pricing m = Return (Some p) ->
  calculate_cost m i o
  = (x <- int_truediv i 1000000 ;;
     y <- int_truediv o 1000000 ;;
     Return (x * input p + y * output p)%float).
Proof.
  intros H. unfold calculate_cost. rewrite H. simpl.
  destruct (int_truediv i 1000000); reflexivity.
Qed.

Lemma calculate_cost_unpriced (m : string) (i o : Z) :
  get_model_pricing m = Return None ->
  calculate_cost m i o = Return 0%float.
Proof. intros H. unfold calculate_cost. rewrite H. reflexivity. Qed.

(** Token counts below 2^53 always yield a cost. *)
Lemma calculate_cost_returns (m : string) (i o : Z) :
  Z.abs i < 2 ^ 53 -> Z.abs o < 2 ^ 53 ->
  exists cost, calculate_cost m i o = Return cost.
Proof.
  intros Hi Ho.
  destruct (get_model_pricing_total m) as [H|[k [p [_ H]]]].
  - exists 0%float. apply calculate_cost_unpriced, H.
  - rewrite (calculate_cost_priced m p i o H).
    rewrite (int_truediv_million i Hi), (int_truediv_million o Ho).
    simpl. eexists. reflexivity.
Qed.

(** C5. The cost of a priced model is
    (input_tokens / 1,000,000 * input price)
    + (output_tokens / 1,000,000 * output price), in double precision; an
    unpriced model costs 0.0 and never fails; and the four sample values
    of the specification hold exactly. *)
Theorem C5_calculate_cost :
  (forall m p i o,
      get_model_pricing m = Return (Some p) ->
      calculate_cost m i o
      = (x <- int_truediv i 1000000 ;;
         y <- int_truediv o 1000000 ;;
         Return (x * input p + y * output p)%float))
  /\ (forall m p i o,
        get_model_pricing m = Return (Some p) ->
        Z.abs i < 2 ^ 53 -> Z.abs o < 2 ^ 53 ->
        calculate_cost m i o
        = Return (float_of_int i / 1000000 * input p
                  + float_of_int o / 1000000 * output p)%float)
  /\ (forall m i o,
        get_model_pricing m = Return None ->
        calculate_cost m i o = Return 0%float)
  /\ calculate_cost "gpt-4o" 1000000 1000000 = Return 12.5%float
  /\ calculate_cost "claude-sonnet-4" 500000 250000 = Return 5.25%float
  /\ (forall m, calculate_cost m 0 0 = Return 0%float)
  /\ calculate_cost "unknown-model" 100000 100000 = Return 0%float.
Proof.
  split; [exact calculate_cost_priced|].
  split.
  { intros m p i o H Hi Ho. rewrite (calculate_cost_priced m p i o H).
    rewrite (int_truediv_million i Hi), (int_truediv_million o Ho).
    reflexivity. }
  split; [exact calculate_cost_unpriced|].
  split; [reflexivity|]. split; [reflexivity|].
  split; [|reflexivity].
  intros m. destruct (get_model_pricing_total m) as [H|[k [p [Hin H]]]].
  - apply calculate_cost_unpriced, H.
  - rewrite (calculate_cost_priced m p 0 0 H).
    simpl in Hin.
    repeat (destruct Hin as [Hin|Hin]; [injection Hin as _ <-; reflexivity|]).
    contradiction.
Qed.

(** The formula on a priced model: 100,000 input and 100,000 output tokens
    of ["gpt-4o-mini"]. *)
Lemma C5_calculate_cost_witness :
  calculate_cost "gpt-4o-mini" 100000 100000
  = Return (float_of_int 100000 / 1000000 * 0.15
            + float_of_int 100000 / 1000000 * 0.60)%float.
Proof.
  apply (proj1 (proj2 C5_calculate_cost)
               "gpt-4o-mini" (mk_price 0.15 0.60) 100000 100000).
  - reflexivity.
  - reflexivity.
  - reflexivity.
Defined.

(** C10. The empty model name is priced: it is contained in every known
    identifier, so the reverse substring rule returns the entry of the
    longest known identifier. *)
Theorem C10_empty_name_is_priced :
  exists k p,
    In (k, p) PRICING
    /\ (forall k', In k' (keys PRICING) ->
                   (String.length k' <= String.length k)%nat)
    /\ (forall k', In k' (keys PRICING) -> substring EmptyString k')
    /\ get_model_pricing EmptyString = Return (Some p)
    /\ get_model_pricing EmptyString <> Return None.
Proof.
  exists "claude-3-5-sonnet-20241022", (mk_price 3.00 15.00).
  split; [left; reflexivity|].
  split.
  { intros k' H. simpl in H.
    repeat (destruct H as [H|H]; [subst k'; simpl; lia|]). contradiction. }
  split; [intros k' _; exists EmptyString, k'; reflexivity|].
  split; [reflexivity | discriminate].
Qed.

(** ** The descending order on REAL values

    [real_desc] is a total preorder on doubles: every two values are
    comparable, and a value that is not a number (NULL) comes last. *)

Definition sf_desc (x y : spec_float) : bool :=
  match SFcompare x y with
  | Some Gt | Some Eq => true
  | Some Lt => false
  | None => match y with S754_nan => true | _ => false end
  end.

Ltac fold_pos_compare :=
  repeat match goal with
    | |- context [PosDef.Pos.compare_cont Eq ?a ?b] =>
        change (PosDef.Pos.compare_cont Eq a b) with (Pos.compare a b)
    | H : context [PosDef.Pos.compare_cont Eq ?a ?b] |- _ =>
        change (PosDef.Pos.compare_cont Eq a b) with (Pos.compare a b) in H
    end.

Ltac case_compare :=
  repeat match goal with
    | H : context [(?a ?= ?b)%Z] |- _ =>
        destruct (Z.compare_spec a b); simpl in H
    | H : context [(?a ?= ?b)%positive] |- _ =>
        destruct (Pos.compare_spec a b); simpl in H
    | |- context [(?a ?= ?b)%Z] => destruct (Z.compare_spec a b); simpl
    | |- context [(?a ?= ?b)%positive] =>
        destruct (Pos.compare_spec a b); simpl
    end.

Lemma SFcompare_refl (x : spec_float) :
  SFcompare x x = match x with S754_nan => None | _ => Some Eq end.
Proof.
  destruct x as [s|s| |s m e]; simpl; try reflexivity.
  - destruct s; reflexivity.
  - fold_pos_compare. rewrite Z.compare_refl, Pos.compare_refl.
    destruct s; reflexivity.
Qed.

Lemma is_nan_spec (a : float) :
  is_nan a = match Prim2SF a with S754_nan => true | _ => false end.
Proof.
  unfold is_nan. rewrite eqb_spec. unfold SFeqb. rewrite SFcompare_refl.
  destruct (Prim2SF a); reflexivity.
Qed.

Lemma real_desc_spec (a b : float) :
  Store.real_desc a b = sf_desc (Prim2SF a) (Prim2SF b).
Proof.
  unfold Store.real_desc, sf_desc. rewrite compare_spec, is_nan_spec.
  destruct (SFcompare (Prim2SF a) (Prim2SF b)) as [[| |]|]; reflexivity.
Qed.

Lemma sf_desc_total (x y : spec_float) :
  sf_desc x y = false -> sf_desc y x = true.
Proof.
  unfold sf_desc.
  destruct x as [sx|sx| |sx mx ex], y as [sy|sy| |sy my ey]; simpl;
    try destruct sx; try destruct sy; simpl;
    try congruence; try reflexivity;
    fold_pos_compare; intros H; case_compare;
    try congruence; try reflexivity; try lia.
Qed.

Lemma sf_desc_trans (x y z : spec_float) :
  sf_desc x y = true -> sf_desc y z = true -> sf_desc x z = true.
Proof.
  unfold sf_desc.
  destruct x as [sx|sx| |sx mx ex], y as [sy|sy| |sy my ey],
           z as [sz|sz| |sz mz ez]; simpl;
    try destruct sx; try destruct sy; try destruct sz; simpl;
    try congruence; try reflexivity;
    fold_pos_compare; intros H1 H2; case_compare;
    try congruence; try reflexivity; try lia.
Qed.

Lemma real_desc_total (a b : float) :
  Store.real_desc a b = false -> Store.real_desc b a = true.
Proof. rewrite !real_desc_spec. apply sf_desc_total. Qed.

Lemma real_desc_trans (a b c : float) :
  Store.real_desc a b = true -> Store.real_desc b c = true ->
  Store.real_desc a c = true.
Proof. rewrite !real_desc_spec. apply sf_desc_trans. Qed.

(** [real_desc a b] says that [b] is no larger than [a], or is NULL. *)
Lemma sf_desc_leb (x y : spec_float) :
  sf_desc x y = true <->
  SFleb y x = true \/ y = S754_nan.
Proof.
  unfold sf_desc, SFleb.
  destruct x as [sx|sx| |sx mx ex], y as [sy|sy| |sy my ey]; simpl;
    try destruct sx; try destruct sy; simpl;
    try (intuition congruence);
    fold_pos_compare;
    rewrite (Z.compare_antisym ex ey), (Pos.compare_antisym mx my);
    destruct (ex ?= ey)%Z; simpl; try (intuition congruence);
    destruct (mx ?= my)%positive; simpl; intuition congruence.
Qed.

Lemma real_desc_leb (a b : float) :
  Store.real_desc a b = true <->
  (b <=? a)%float = true \/ is_nan b = true.
Proof.
  rewrite real_desc_spec, leb_spec, is_nan_spec, sf_desc_leb.
  destruct (Prim2SF b); intuition congruence.
Qed.

(** ** store.py: grouping *)

Lemma opt_eqb_eq (a b : option string) : Store.opt_eqb a b = true <-> a = b.
Proof.
  destruct a as [x|], b as [y|]; simpl; try (split; congruence).
  rewrite String.eqb_eq. split; congruence.
Qed.

Lemma pair_eqb_eq {A B : Type} (ea : A -> A -> bool) (eb : B -> B -> bool) :
  (forall x y, ea x y = true <-> x = y) ->
  (forall x y, eb x y = true <-> x = y) ->
  forall x y, Store.pair_eqb ea eb x y = true <-> x = y.
Proof.
  intros Ha Hb [x1 x2] [y1 y2]. unfold Store.pair_eqb. simpl.
  rewrite andb_true_iff, Ha, Hb. split.
  - intros [-> ->]. reflexivity.
  - intros H. injection H as -> ->. split; reflexivity.
Qed.

Lemma filter_filter {A : Type} (f g : A -> bool) (l : list A) :
  filter f (filter g l) = filter (fun x => g x && f x) l.
Proof.
  induction l as [|x l IH]; simpl; [reflexivity|].
  destruct (g x); simpl; [destruct (f x)|]; rewrite IH; reflexivity.
Qed.

Lemma sum_int_perm (l1 l2 : list Z) :
  Permutation l1 l2 -> Store.sum_int l1 = Store.sum_int l2.
Proof.
  induction 1; simpl; lia.
Qed.

Lemma sum_int_map_add {A : Type} (f h : A -> Z) (l : list A) :
  Store.sum_int (map (fun x => f x + h x) l)
  = Store.sum_int (map f l) + Store.sum_int (map h l).
Proof.
  induction l as [|x l IH]; simpl; [reflexivity|]. rewrite IH. lia.
Qed.

Lemma count_cons {A : Type} (x : A) (l : list A) :
  Store.count (x :: l) = 1 + Store.count l.
Proof. unfold Store.count. simpl List.length. lia. Qed.

Section Distinct.

Context {G : Type}.
Variable eqb : G -> G -> bool.
Hypothesis eqb_eq : forall x y, eqb x y = true <-> x = y.

Lemma eqb_refl_true (x : G) : eqb x x = true.
Proof. apply eqb_eq. reflexivity. Qed.

Lemma distinct_In (l : list G) (x : G) :
  In x (Store.distinct eqb l) <-> In x l.
Proof.
  induction l as [|g l IH]; simpl; [reflexivity|].
  rewrite filter_In, IH, negb_true_iff. split.
  - intros [H|[H _]]; [left | right]; exact H.
  - intros [H|H]; [left; exact H|].
    destruct (eqb x g) eqn:E.
    + left. symmetry. apply eqb_eq, E.
    + right. split; [exact H | reflexivity].
Qed.

Lemma distinct_NoDup (l : list G) : NoDup (Store.distinct eqb l).
Proof.
  induction l as [|g l IH]; simpl; constructor.
  - rewrite filter_In, negb_true_iff. intros [_ H].
    rewrite eqb_refl_true in H. discriminate H.
  - apply NoDup_filter, IH.
Qed.

(** Among distinct groups, a value belongs to exactly one. *)
Lemma one_group (x : G) (gs : list G) :
  NoDup gs -> In x gs ->
  Store.sum_int (map (fun g => if eqb x g then 1 else 0) gs) = 1.
Proof.
  induction 1 as [|g gs Hg Hnd IH]; simpl; [contradiction|].
  intros [->|Hx].
  - rewrite eqb_refl_true.
    assert (H0 : Store.sum_int (map (fun g => if eqb x g then 1 else 0) gs)
                 = 0).
    { clear IH Hnd. induction gs as [|h gs IHg]; simpl; [reflexivity|].
      destruct (eqb x h) eqn:E.
      - exfalso. apply Hg. left. symmetry. apply eqb_eq, E.
      - rewrite IHg; [reflexivity|]. intros H. apply Hg. right. exact H. }
    rewrite H0. reflexivity.
  - destruct (eqb x g) eqn:E.
    + exfalso. apply Hg. apply eqb_eq in E. subst g. exact Hx.
    + rewrite (IH Hx). reflexivity.
Qed.

(** Counting the rows of each of several distinct groups counts every row
    whose group is among them exactly once. *)
Lemma group_sizes {R : Type} (col : R -> G) (gs : list G) (rows : list R) :
  NoDup gs ->
  (forall r, In r rows -> In (col r) gs) ->
  Store.sum_int
    (map (fun g => Store.count (filter (fun r => eqb (col r) g) rows)) gs)
  = Store.count rows.
Proof.
  intros Hnd. induction rows as [|r rows IH]; intros Hin.
  - simpl. clear Hnd Hin. induction gs as [|g gs IHg]; simpl.
    + reflexivity.
    + rewrite IHg. reflexivity.
  - rewrite count_cons, <- IH by (intros r' Hr'; apply Hin; right; exact Hr').
    rewrite <- (one_group (col r) gs Hnd) by (apply Hin; left; reflexivity).
    rewrite <- sum_int_map_add. f_equal. apply map_ext. intros g. simpl.
    destruct (eqb (col r) g); [apply count_cons | lia].
Qed.

End Distinct.

(** ** store.py: the grouped aggregation queries *)

(** The records of the lookback window that fall in group [g]. *)
Definition members {G : Type} (eqb : G -> G -> bool) (col : Store.call -> G)
           (self : Store.SpendStore) (now days : Z) (g : G)
  : list Store.call :=
  filter (fun c => (now - days * 86400000000 <=? Store.timestamp c)
                   && eqb (col c) g)
         (Store.calls self).

(** Row [r] reports group [g]: its displayed key, the number of its
    records and the sums of their tokens and costs. *)
Definition reports {G K : Type} (sum : list float -> float)
           (display : G -> K) (group : G -> list Store.call)
           (r : Store.aggregate K) (g : G) : Prop :=
  Store.key r = display g
  /\ Store.agg_calls r = Z.of_nat (List.length (group g))
  /\ Store.agg_input_tokens r
     = fold_right Z.add 0 (map Store.input_tokens (group g))
  /\ Store.agg_output_tokens r
     = fold_right Z.add 0 (map Store.output_tokens (group g))
  /\ Store.agg_cost_usd r = sum (map Store.cost_usd (group g)).

(** Cost [a] is at least cost [b] (a missing cost counts as least). *)
Definition cost_ge (a b : float) : Prop :=
  (b <=? a)%float = true \/ is_nan b = true.

(** What an aggregation over the window of [days] days must return: one row
    per non-empty group of the window, every record of the window counted
    in the row of its group and no other record counted, rows in
    descending order of summed cost, the costliest group first. *)
Definition aggregation {G K : Type} (sum : list float -> float)
           (eqb : G -> G -> bool) (col : Store.call -> G) (display : G -> K)
           (self : Store.SpendStore) (now days : Z)
           (result : list (Store.aggregate K)) : Prop :=
  let group := members eqb col self now days in
  (forall r, In r result ->
             exists g, group g <> [] /\ reports sum display group r g)
  /\ (forall c, In c (Store.calls self) ->
                now - days * 86400000000 <= Store.timestamp c ->
                exists r, In r result /\ reports sum display group r (col c))
  /\ fold_right Z.add 0 (map Store.agg_calls result)
     = Z.of_nat
         (List.length
            (filter (fun c => now - days * 86400000000 <=? Store.timestamp c)
                    (Store.calls self)))
  /\ StronglySorted
       (fun a b => cost_ge (Store.agg_cost_usd a) (Store.agg_cost_usd b))
       result
  /\ (forall first rest, result = first :: rest ->
        forall r, In r result ->
                  cost_ge (Store.agg_cost_usd first) (Store.agg_cost_usd r)).

Lemma real_desc_refl (a : float) : Store.real_desc a a = true.
Proof.
  destruct (Store.real_desc a a) eqn:E; [reflexivity|].
  rewrite (real_desc_total a a E) in E. discriminate E.
Qed.

Lemma StronglySorted_impl {A : Type} (R S : A -> A -> Prop) (l : list A) :
  (forall x y, R x y -> S x y) -> StronglySorted R l -> StronglySorted S l.
Proof.
  intros H. induction 1 as [|x l Hs IH Hx]; constructor; [exact IH|].
  eapply Forall_impl; [|exact Hx]. intros y. apply H.
Qed.

Section Grouped.

Variable sum : list float -> float.
Context {G K : Type}.
Variable eqb : G -> G -> bool.
Hypothesis eqb_eq : forall x y, eqb x y = true <-> x = y.
Variable col : Store.call -> G.
Variable display : G -> K.

Let by_cost (a b : Store.aggregate K) : bool :=
  Store.real_desc (Store.agg_cost_usd a) (Store.agg_cost_usd b).

Lemma members_window (self : Store.SpendStore) (now days : Z) (g : G) :
  filter (fun c => eqb (col c) g)
         (filter (Store.since (Store._cutoff now days)) (Store.calls self))
  = members eqb col self now days g.
Proof. apply filter_filter. Qed.

Lemma summarise_reports (self : Store.SpendStore) (now days : Z) (g : G) :
  reports sum display (members eqb col self now days)
          (Store.summarise sum (display g)
             (filter (fun c => eqb (col c) g)
                (filter (Store.since (Store._cutoff now days))
                        (Store.calls self))))
          g.
Proof.
  rewrite members_window. unfold reports, Store.summarise; simpl.
  repeat split; reflexivity.
Qed.

Lemma grouped_In (self : Store.SpendStore) (now days : Z)
      (r : Store.aggregate K) :
  In r (Store.grouped sum eqb col display self (Store._cutoff now days)) <->
  exists g,
    In g (map col (filter (Store.since (Store._cutoff now days))
                          (Store.calls self)))
    /\ r = Store.summarise sum (display g)
             (filter (fun c => eqb (col c) g)
                (filter (Store.since (Store._cutoff now days))
                        (Store.calls self))).
Proof.
  unfold Store.grouped. rewrite sorted_by_In, in_map_iff. split.
  - intros [g [Hr Hg]]. exists g. rewrite (distinct_In eqb eqb_eq) in Hg.
    split; [exact Hg | symmetry; exact Hr].
  - intros [g [Hg Hr]]. exists g. rewrite (distinct_In eqb eqb_eq).
    split; [symmetry; exact Hr | exact Hg].
Qed.

Theorem grouped_aggregation (self : Store.SpendStore) (now days : Z) :
  aggregation sum eqb col display self now days
    (Store.grouped sum eqb col display self (Store._cutoff now days)).
Proof.
  unfold aggregation. repeat apply conj.
  - intros r Hr. apply grouped_In in Hr. destruct Hr as [g [Hg ->]].
    exists g. split; [|apply summarise_reports].
    apply in_map_iff in Hg. destruct Hg as [c [Hc Hin]].
    rewrite <- members_window. intros Hnil.
    assert (Hmem : In c (filter (fun c => eqb (col c) g)
                     (filter (Store.since (Store._cutoff now days))
                             (Store.calls self)))).
    { apply filter_In. split; [exact Hin | apply eqb_eq, Hc]. }
    rewrite Hnil in Hmem. exact Hmem.
  - intros c Hc Hw.
    exists (Store.summarise sum (display (col c))
              (filter (fun c' => eqb (col c') (col c))
                 (filter (Store.since (Store._cutoff now days))
                         (Store.calls self)))).
    split; [|apply summarise_reports].
    apply grouped_In. exists (col c). split; [|reflexivity].
    apply in_map. apply filter_In. split; [exact Hc|].
    apply Z.leb_le. exact Hw.
  - unfold Store.grouped.
    change (fold_right Z.add 0) with Store.sum_int.
    rewrite (sum_int_perm _ _
               (Permutation_map Store.agg_calls (sorted_by_perm _ _))).
    rewrite map_map. simpl.
    rewrite (group_sizes eqb eqb_eq col).
    + reflexivity.
    + apply distinct_NoDup, eqb_eq.
    + intros r Hr. apply (distinct_In eqb eqb_eq). apply in_map, Hr.
  - eapply StronglySorted_impl;
      [|apply (sorted_by_sorted by_cost)].
    + intros x y H. apply real_desc_leb, H.
    + intros x y. apply real_desc_total.
    + intros x y z. apply real_desc_trans.
  - intros first rest E r Hr. apply real_desc_leb.
    unfold Store.grouped in E, Hr. rewrite sorted_by_In in Hr.
    destruct (sorted_by_head by_cost
                (fun x y => real_desc_total _ _)
                (fun x y z => real_desc_trans _ _ _) _ first rest E r Hr)
      as [->|H].
    + apply real_desc_refl.
    + exact H.
Qed.

End Grouped.

Lemma reported_group_counts {G K : Type} (sum : list float -> float)
      (eqb : G -> G -> bool) (col : Store.call -> G) (display : G -> K)
      (self : Store.SpendStore) (now days : Z) (c : Store.call)
      (r : Store.aggregate K) :
  (forall x, eqb x x = true) ->
  In c (Store.calls self) ->
  now - days * 86400000000 <= Store.timestamp c ->
  reports sum display (members eqb col self now days) r (col c) ->
  Store.key r = display (col c) /\ 1 <= Store.agg_calls r.
Proof.
  intros Hrefl Hc Hw (Hkey & Hcalls & _). split; [exact Hkey|].
  rewrite Hcalls.
  assert (Hin : In c (members eqb col self now days (col c))).
  { apply filter_In. split; [exact Hc|].
    rewrite Hrefl, andb_true_r. apply Z.leb_le, Hw. }
  destruct (members eqb col self now days (col c)); [contradiction|].
  simpl List.length. lia.
Qed.

(** C8. Each grouped aggregation query ([get_by_file], [get_by_function],
    [get_by_label], [get_by_model]) covers exactly the records whose
    timestamp is at least [now - days] days, groups them by its key (the
    function query by the pair of function and file), reports per group the
    number of calls and the summed input tokens, output tokens and cost,
    lists the groups in descending order of summed cost with the costliest
    first, and keeps the records without a file, function or label, shown
    under ["(unknown)"] and ["(unlabeled)"]. *)
Theorem C8_grouped_queries (sum : list float -> float)
        (self : Store.SpendStore) (now days : Z) :
  aggregation sum Store.opt_eqb Store.file
    (fun g => match g with Some s => s | None => "(unknown)" end)
    self now days (Store.get_by_file sum self now days)
  /\ aggregation sum (Store.pair_eqb Store.opt_eqb Store.opt_eqb)
       (fun c => (Store.function c, Store.file c))
       (fun g => (match fst g with Some s => s | None => "(unknown)" end,
                  match snd g with Some s => s | None => "(unknown)" end))
       self now days (Store.get_by_function sum self now days)
  /\ aggregation sum Store.opt_eqb Store.label
       (fun g => match g with Some s => s | None => "(unlabeled)" end)
       self now days (Store.get_by_label sum self now days)
  /\ aggregation sum (Store.pair_eqb String.eqb String.eqb)
       (fun c => (Store.model c, Store.provider c)) (fun g => g)
       self now days (Store.get_by_model sum self now days)
  /\ (forall c, In c (Store.calls self) ->
                now - days * 86400000000 <= Store.timestamp c ->
                Store.file c = None ->
                exists r, In r (Store.get_by_file sum self now days)
                          /\ Store.key r = "(unknown)"
                          /\ 1 <= Store.agg_calls r)
  /\ (forall c, In c (Store.calls self) ->
                now - days * 86400000000 <= Store.timestamp c ->
                Store.function c = None -> Store.file c = None ->
                exists r, In r (Store.get_by_function sum self now days)
                          /\ Store.key r = ("(unknown)", "(unknown)")
                          /\ 1 <= Store.agg_calls r)
  /\ (forall c, In c (Store.calls self) ->
                now - days * 86400000000 <= Store.timestamp c ->
                Store.label c = None ->
                exists r, In r (Store.get_by_label sum self now days)
                          /\ Store.key r = "(unlabeled)"
                          /\ 1 <= Store.agg_calls r).
Proof.
  pose proof (grouped_aggregation sum Store.opt_eqb opt_eqb_eq Store.file
                (fun g => Store.coalesce g "(unknown)") self now days) as Hfile.
  pose proof (grouped_aggregation sum
                (Store.pair_eqb Store.opt_eqb Store.opt_eqb)
                (pair_eqb_eq _ _ opt_eqb_eq opt_eqb_eq)
                (fun c => (Store.function c, Store.file c))
                (fun g => (Store.coalesce (fst g) "(unknown)",
                           Store.coalesce (snd g) "(unknown)"))
                self now days) as Hfunction.
  pose proof (grouped_aggregation sum Store.opt_eqb opt_eqb_eq Store.label
                (fun g => Store.coalesce g "(unlabeled)") self now days)
    as Hlabel.
  pose proof (grouped_aggregation sum
                (Store.pair_eqb String.eqb String.eqb)
                (pair_eqb_eq _ _ String.eqb_eq String.eqb_eq)
                (fun c => (Store.model c, Store.provider c))
                (fun g => g) self now days) as Hmodel.
  split; [exact Hfile|]. split; [exact Hfunction|].
  split; [exact Hlabel|]. split; [exact Hmodel|].
  split; [|split].
  - intros c Hc Hw Hnone.
    destruct Hfile as (_ & Hcover & _).
    destruct (Hcover c Hc Hw) as [r [Hr Hrep]]. exists r.
    split; [exact Hr|].
    destruct (reported_group_counts _ _ _ _ _ _ _ c r
                (fun x => proj2 (opt_eqb_eq x x) eq_refl) Hc Hw Hrep)
      as [Hkey Hcalls].
    rewrite Hnone in Hkey. split; [exact Hkey | exact Hcalls].
  - intros c Hc Hw Hn1 Hn2.
    destruct Hfunction as (_ & Hcover & _).
    destruct (Hcover c Hc Hw) as [r [Hr Hrep]]. exists r.
    split; [exact Hr|].
    destruct (reported_group_counts _ _ _ _ _ _ _ c r
                (fun x => proj2 (pair_eqb_eq _ _ opt_eqb_eq opt_eqb_eq x x)
                                eq_refl) Hc Hw Hrep)
      as [Hkey Hcalls].
    simpl in Hkey. rewrite Hn1, Hn2 in Hkey.
    split; [exact Hkey | exact Hcalls].
  - intros c Hc Hw Hnone.
    destruct Hlabel as (_ & Hcover & _).
    destruct (Hcover c Hc Hw) as [r [Hr Hrep]]. exists r.
    split; [exact Hr|].
    destruct (reported_group_counts _ _ _ _ _ _ _ c r
                (fun x => proj2 (opt_eqb_eq x x) eq_refl) Hc Hw Hrep)
      as [Hkey Hcalls].
    rewrite Hnone in Hkey. split; [exact Hkey | exact Hcalls].
Qed.

(** ** store.py: totals, retention and export *)

Definition naive_sum (l : list float) : float :=
  fold_left PrimFloat.add l 0%float.

Lemma filter_partition_length {A : Type} (f : A -> bool) (l : list A) :
  Store.count l
  = Store.count (filter f l) + Store.count (filter (fun x => negb (f x)) l).
Proof.
  induction l as [|x l IH]; [reflexivity|].
  simpl filter. destruct (f x); simpl negb; cbv iota;
    rewrite !count_cons, IH; lia.
Qed.

Lemma get_total_empty (sum : list float -> float) (self : Store.SpendStore)
      (now days : Z) :
  Store.calls self = [] ->
  Store.get_total sum self now days = Store.mk_totals 0%float 0 0 0.
Proof. intros H. unfold Store.get_total. rewrite H. reflexivity. Qed.

(** ** store.py: what the database accepts *)

(** A row is accepted when both counts fit a signed 64-bit integer, the
    cost and the duration are numbers, and the counter of row identifiers
    is not exhausted. *)
Definition accepted (self : Store.SpendStore) (input_tokens output_tokens : Z)
           (cost_usd duration_ms : float) : Prop :=
  - 2 ^ 63 <= input_tokens < 2 ^ 63
  /\ - 2 ^ 63 <= output_tokens < 2 ^ 63
  /\ Store.last_rowid self < 2 ^ 63 - 1
  /\ is_nan cost_usd = false
  /\ is_nan duration_ms = false.

(** Why a row is refused, in the order in which the engine finds out. *)
Definition refused (self : Store.SpendStore) (input_tokens output_tokens : Z)
           (cost_usd duration_ms : float) (e : exn) : Prop :=
  let fit := - 2 ^ 63 <= input_tokens < 2 ^ 63
             /\ - 2 ^ 63 <= output_tokens < 2 ^ 63 in
  let room := Store.last_rowid self < 2 ^ 63 - 1 in
  (~ fit
   /\ e = OverflowError "Python int too large to convert to SQLite INTEGER")
  \/ (fit /\ ~ room
      /\ e = Store.OperationalError "database or disk is full")
  \/ (fit /\ room /\ is_nan cost_usd = true
      /\ e = Store.IntegrityError
               "NOT NULL constraint failed: calls.cost_usd")
  \/ (fit /\ room /\ is_nan cost_usd = false /\ is_nan duration_ms = true
      /\ e = Store.IntegrityError
               "NOT NULL constraint failed: calls.duration_ms").

Lemma bind_int_spec (n : Z) :
  (- 2 ^ 63 <= n < 2 ^ 63 /\ Store.bind_int n = Return n)
  \/ (~ - 2 ^ 63 <= n < 2 ^ 63
      /\ Store.bind_int n
         = Raise (OverflowError
                    "Python int too large to convert to SQLite INTEGER")).
Proof.
  unfold Store.bind_int, Store.INT64_MIN, Store.INT64_MAX.
  destruct (- 2 ^ 63 <=? n) eqn:E1; destruct (n <=? 2 ^ 63 - 1) eqn:E2;
    cbn [andb];
    try apply Z.leb_le in E1; try apply Z.leb_le in E2;
    try apply Z.leb_gt in E1; try apply Z.leb_gt in E2;
    [left | right | right | right]; (split; [lia | reflexivity]).
Qed.

Lemma new_rowid_spec (self : Store.SpendStore) :
  (Store.last_rowid self < 2 ^ 63 - 1
   /\ Store.new_rowid self = Return (Store.last_rowid self + 1))
  \/ (~ Store.last_rowid self < 2 ^ 63 - 1
      /\ Store.new_rowid self
         = Raise (Store.OperationalError "database or disk is full")).
Proof.
  unfold Store.new_rowid, Store.INT64_MAX.
  destruct (Store.last_rowid self <? 2 ^ 63 - 1) eqn:E;
    [apply Z.ltb_lt in E; left | apply Z.ltb_ge in E; right];
    (split; [lia | reflexivity]).
Qed.

(** The row an accepted insert writes. *)
Definition inserted (self : Store.SpendStore) (now : Z)
           (provider model : string) (label file function : option string)
           (input_tokens output_tokens : Z) (cost_usd duration_ms : float)
           (metadata_json : option string) : Store.call :=
  Store.mk_call (Store.last_rowid self + 1) now provider model label file
                function input_tokens output_tokens
                (Store.read_back cost_usd) (Store.read_back duration_ms)
                metadata_json.

(** What [INSERT] does, case by case. *)
Lemma insert_spec (self : Store.SpendStore) (now : Z)
      (provider model : string) (label file function : option string)
      (input_tokens output_tokens : Z) (cost_usd duration_ms : float)
      (metadata_json : option string) :
  (accepted self input_tokens output_tokens cost_usd duration_ms
   /\ Store.insert self now provider model label file function
                   input_tokens output_tokens cost_usd duration_ms
                   metadata_json
      = Return (Store.last_rowid self + 1,
                Store.mk_store
                  (Store.calls self ++
                   [inserted self now provider model label file function
                             input_tokens output_tokens cost_usd duration_ms
                             metadata_json])
                  (Store.last_rowid self + 1)))
  \/ (exists e,
        refused self input_tokens output_tokens cost_usd duration_ms e
        /\ Store.insert self now provider model label file function
                        input_tokens output_tokens cost_usd duration_ms
                        metadata_json
           = Raise e).
Proof.
  unfold Store.insert, accepted, refused, inserted. cbv zeta.
  destruct (bind_int_spec input_tokens) as [[Hi ->]|[Hi ->]]; cbn [Py.bind];
    [|right; eexists; split; [left; split; [tauto | reflexivity]
                             | reflexivity]].
  destruct (bind_int_spec output_tokens) as [[Ho ->]|[Ho ->]]; cbn [Py.bind];
    [|right; eexists; split; [left; split; [tauto | reflexivity]
                             | reflexivity]].
  destruct (new_rowid_spec self) as [[Hr ->]|[Hr ->]]; cbn [Py.bind];
    [|right; eexists; split; [right; left; repeat split; try tauto
                             | reflexivity]].
  unfold Store.bind_real.
  destruct (is_nan cost_usd) eqn:Ec; cbn [Store.not_null Py.bind];
    [right; eexists; split; [right; right; left; repeat split; tauto
                            | reflexivity]|].
  destruct (is_nan duration_ms) eqn:Ed; cbn [Store.not_null Py.bind];
    [right; eexists; split; [right; right; right; repeat split; tauto
                            | reflexivity]|].
  left. split; [repeat split; tauto | reflexivity].
Qed.

Lemma refused_not_accepted (self : Store.SpendStore)
      (input_tokens output_tokens : Z) (cost_usd duration_ms : float)
      (e : exn) :
  refused self input_tokens output_tokens cost_usd duration_ms e ->
  ~ accepted self input_tokens output_tokens cost_usd duration_ms.
Proof.
  unfold refused, accepted. cbv zeta.
  intros [H|[H|[H|H]]] (Hi & Ho & Hr & Hc & Hd).
  - destruct H as [H _]. apply H. split; assumption.
  - destruct H as (_ & H & _). apply H, Hr.
  - destruct H as (_ & _ & H & _). congruence.
  - destruct H as (_ & _ & _ & H & _). congruence.
Qed.

Lemma insert_accepted (self : Store.SpendStore) (now : Z)
      (provider model : string) (label file function : option string)
      (input_tokens output_tokens : Z) (cost_usd duration_ms : float)
      (metadata_json : option string) :
  accepted self input_tokens output_tokens cost_usd duration_ms ->
  Store.insert self now provider model label file function
               input_tokens output_tokens cost_usd duration_ms metadata_json
  = Return (Store.last_rowid self + 1,
            Store.mk_store
              (Store.calls self ++
               [inserted self now provider model label file function
                         input_tokens output_tokens cost_usd duration_ms
                         metadata_json])
              (Store.last_rowid self + 1)).
Proof.
  intros Ha.
  destruct (insert_spec self now provider model label file function
              input_tokens output_tokens cost_usd duration_ms metadata_json)
    as [[_ H]|[e [Hr _]]]; [exact H|].
  exfalso. exact (refused_not_accepted _ _ _ _ _ _ Hr Ha).
Qed.

Lemma insert_refused (self : Store.SpendStore) (now : Z)
      (provider model : string) (label file function : option string)
      (input_tokens output_tokens : Z) (cost_usd duration_ms : float)
      (metadata_json : option string) (e : exn) :
  Store.insert self now provider model label file function
               input_tokens output_tokens cost_usd duration_ms metadata_json
  = Raise e ->
  refused self input_tokens output_tokens cost_usd duration_ms e.
Proof.
  intros H.
  destruct (insert_spec self now provider model label file function
              input_tokens output_tokens cost_usd duration_ms metadata_json)
    as [[_ H']|[e' [Hr H']]]; rewrite H' in H; [discriminate H|].
  injection H as <-. exact Hr.
Qed.

Lemma insert_returned (self : Store.SpendStore) (now : Z)
      (provider model : string) (label file function : option string)
      (input_tokens output_tokens : Z) (cost_usd duration_ms : float)
      (metadata_json : option string) (rowid : Z)
      (logged : Store.SpendStore) :
  Store.insert self now provider model label file function
               input_tokens output_tokens cost_usd duration_ms metadata_json
  = Return (rowid, logged) ->
  accepted self input_tokens output_tokens cost_usd duration_ms
  /\ rowid = Store.last_rowid self + 1
  /\ logged
     = Store.mk_store
         (Store.calls self ++
          [inserted self now provider model label file function
                    input_tokens output_tokens cost_usd duration_ms
                    metadata_json])
         rowid.
Proof.
  intros H.
  destruct (insert_spec self now provider model label file function
              input_tokens output_tokens cost_usd duration_ms metadata_json)
    as [[Ha H']|[e' [_ H']]]; rewrite H' in H; [|discriminate H].
  injection H as <- <-. split; [exact Ha|]. split; reflexivity.
Qed.

(** A stored number is the number that was passed, up to the sign of
    zero. *)
Lemma read_back_equal (x : float) :
  is_nan x = false -> (Store.read_back x =? x)%float = true.
Proof.
  unfold Store.read_back, is_nan. intros H.
  destruct (x =? 0)%float eqn:E.
  - rewrite eqb_spec in E |- *.
    change (Prim2SF 0) with (S754_zero false) in *.
    destruct (Prim2SF x) as [[]|[]| |[] m e]; simpl in E;
      try discriminate E; reflexivity.
  - apply negb_false_iff, H.
Qed.

Lemma read_back_nonzero (x : float) :
  is_zero x = false -> Store.read_back x = x.
Proof.
  unfold Store.read_back, is_zero. change zero with 0%float.
  intros H. rewrite H. reflexivity.
Qed.

Lemma read_back_number (x : float) :
  is_nan x = false -> is_nan (Store.read_back x) = false.
Proof.
  unfold Store.read_back. intros H.
  destruct (x =? 0)%float; [reflexivity | exact H].
Qed.

Lemma log_call_no_metadata (self : Store.SpendStore) (now : Z)
      (provider model : string) (label file function : option string)
      (input_tokens output_tokens : Z) (cost_usd duration_ms : float) :
  accepted self input_tokens output_tokens cost_usd duration_ms ->
  Store.log_call self now provider model label file function
                 input_tokens output_tokens cost_usd duration_ms None
  = Return (Store.last_rowid self + 1,
            Store.mk_store
              (Store.calls self ++
               [inserted self now provider model label file function
                         input_tokens output_tokens cost_usd duration_ms
                         None])
              (Store.last_rowid self + 1)).
Proof.
  intros Ha. unfold Store.log_call. cbn [Py.bind].
  apply insert_accepted, Ha.
Qed.

(** C9. [clear] without a cutoff deletes every record, so that a later total
    reports zero calls; [clear] with a cutoff of [days] days deletes the
    records whose timestamp is strictly before [now - days] days and keeps
    all others, so that a record logged at most seven days before
    [clear(days=7)] survives; in both cases the number returned is the
    number of records removed.  The record of the last part is any record
    the database accepts. *)
Theorem C9_clear (sum : list float -> float) (self : Store.SpendStore)
        (now : Z) :
  (Store.calls (snd (Store.clear self now None)) = []
   /\ fst (Store.clear self now None)
      = Z.of_nat (List.length (Store.calls self))
   /\ forall now' days',
        Store.total_calls
          (Store.get_total sum (snd (Store.clear self now None)) now' days')
        = 0)
  /\ (forall days,
        let cutoff := now - days * 86400000000 in
        let after := snd (Store.clear self now (Some days)) in
        (forall c, In c (Store.calls after) <->
                   In c (Store.calls self) /\ ~ Store.timestamp c < cutoff)
        /\ Store.calls after
           = filter (fun c => negb (Store.timestamp c <? cutoff))
                    (Store.calls self)
        /\ fst (Store.clear self now (Some days))
           = Z.of_nat
               (List.length
                  (filter (fun c => Store.timestamp c <? cutoff)
                          (Store.calls self)))
        /\ fst (Store.clear self now (Some days))
           = Z.of_nat (List.length (Store.calls self))
             - Z.of_nat (List.length (Store.calls after)))
  /\ (forall provider model label file function input_tokens output_tokens
             cost_usd duration_ms now',
        now' - 7 * 86400000000 <= now ->
        accepted self input_tokens output_tokens cost_usd duration_ms ->
        exists rowid logged,
          Store.log_call self now provider model label file function
                         input_tokens output_tokens cost_usd duration_ms None
          = Return (rowid, logged)
          /\ In (Store.mk_call rowid now provider model label file function
                               input_tokens output_tokens
                               (Store.read_back cost_usd)
                               (Store.read_back duration_ms) None)
                (Store.calls (snd (Store.clear logged now' (Some 7))))
          /\ (Store.calls self = [] ->
              fst (Store.clear logged now' (Some 7)) = 0)).
Proof.
  split; [|split].
  - simpl. repeat split.
  - intros days cutoff after. subst cutoff after. simpl.
    unfold Store.before, Store._cutoff, Store.MICROSECONDS_PER_DAY.
    split; [|split; [reflexivity | split; [reflexivity|]]].
    + intros c. rewrite filter_In, negb_true_iff, Z.ltb_ge. split.
      * intros [H1 H2]. split; [exact H1 | lia].
      * intros [H1 H2]. split; [exact H1 | lia].
    + pose proof (filter_partition_length
                    (fun c => Store.timestamp c <? now - days * 86400000000)
                    (Store.calls self)) as H.
      unfold Store.count in *. lia.
  - intros provider model label file function input_tokens output_tokens
           cost_usd duration_ms now' Hnow Hacc.
    eexists. eexists. split; [apply log_call_no_metadata, Hacc|].
    unfold inserted.
    assert (Hkeep :
      negb (Store.before (Store._cutoff now' 7)
              (Store.mk_call (Store.last_rowid self + 1) now provider model
                 label file function input_tokens output_tokens
                 (Store.read_back cost_usd) (Store.read_back duration_ms)
                 None)) = true).
    { unfold Store.before, Store._cutoff, Store.MICROSECONDS_PER_DAY. simpl.
      apply negb_true_iff, Z.ltb_ge. lia. }
    split.
    + simpl. apply filter_In. split; [|exact Hkeep].
      apply in_or_app. right. left. reflexivity.
    + intros Hempty. simpl. rewrite Hempty. simpl.
      apply negb_true_iff in Hkeep. rewrite Hkeep. reflexivity.
Qed.

(** A record logged on an empty store and cleared with a seven-day cutoff one
    hour later: nothing is deleted. *)
Lemma C9_clear_witness :
  exists rowid logged,
    Store.log_call Store.empty 1700000000000000 "openai" "gpt-4o"
                   None None None 100 50 0.001 5 None
    = Return (rowid, logged)
    /\ In (Store.mk_call rowid 1700000000000000 "openai" "gpt-4o"
                         None None None 100 50 0.001 5 None)
          (Store.calls
             (snd (Store.clear logged 1700003600000000 (Some 7))))
    /\ fst (Store.clear logged 1700003600000000 (Some 7)) = 0.
Proof.
  destruct (proj2 (proj2 (C9_clear naive_sum Store.empty 1700000000000000))
              "openai" "gpt-4o" None None None 100 50 0.001%float 5%float
              1700003600000000 ltac:(lia)
              ltac:(unfold accepted; simpl; repeat split; lia))
    as (rowid & logged & Hlog & Hkept & Hnone).
  exists rowid, logged.
  split; [exact Hlog|]. split; [exact Hkept|]. apply Hnone. reflexivity.
Defined.

(** The whole table is inside the export window when no record is older
    than ten years. *)
Definition recent (self : Store.SpendStore) (now : Z) : Prop :=
  forall c, In c (Store.calls self) ->
            now - 3650 * 86400000000 <= Store.timestamp c.

Lemma filter_all {A : Type} (f : A -> bool) (l : list A) :
  (forall x, In x l -> f x = true) -> filter f l = l.
Proof.
  induction l as [|x l IH]; simpl; intros H; [reflexivity|].
  rewrite (H x (or_introl eq_refl)), IH; [reflexivity|].
  intros y Hy. apply H. right. exact Hy.
Qed.

Lemma get_all_calls_recent (self : Store.SpendStore) (now : Z) :
  recent self now ->
  Permutation (Store.get_all_calls self now Store.TEN_YEARS)
              (Store.calls self).
Proof.
  intros H. unfold Store.get_all_calls.
  rewrite (filter_all (Store.since (Store._cutoff now Store.TEN_YEARS))).
  - apply sorted_by_perm.
  - intros c Hc. apply Z.leb_le. apply (H c Hc).
Qed.

(** On a table without records older than ten years, the exports write
    every record: the JSON export one object per record, the CSV export the
    twelve column names followed by one line per record, or nothing at all
    for an empty table. *)
Lemma export_json_recent (self : Store.SpendStore) (now : Z) (path : string)
      (fs : Store.files) :
  recent self now ->
  exists objects,
    Store.export_json self now path fs
    = (Z.of_nat (List.length (Store.calls self)),
       (path, Store.Json objects) :: fs)
    /\ Permutation objects (map Store.row_dict (Store.calls self)).
Proof.
  intros H. pose proof (get_all_calls_recent self now H) as Hp.
  exists (map Store.row_dict (Store.get_all_calls self now Store.TEN_YEARS)).
  split; [|apply Permutation_map, Hp].
  unfold Store.export_json, Store.count.
  rewrite length_map, (Permutation_length Hp). reflexivity.
Qed.

Lemma export_csv_recent (self : Store.SpendStore) (now : Z) (path : string)
      (fs : Store.files) :
  recent self now ->
  Store.calls self <> [] ->
  exists data,
    Store.export_csv self now path fs
    = (Z.of_nat (List.length (Store.calls self)),
       (path,
        Store.Csv ["id"; "timestamp"; "provider"; "model"; "label"; "file";
                   "function"; "input_tokens"; "output_tokens"; "cost_usd";
                   "duration_ms"; "metadata_json"] data) :: fs)
    /\ List.length data = List.length (Store.calls self)
    /\ Permutation data
         (map (fun c => map snd (Store.row_dict c)) (Store.calls self)).
Proof.
  intros H Hne. pose proof (get_all_calls_recent self now H) as Hp.
  unfold Store.export_csv, Store.count.
  destruct (Store.get_all_calls self now Store.TEN_YEARS) as [|c rows] eqn:E.
  - apply Permutation_nil in Hp. congruence.
  - eexists. split; [|split].
    + simpl map at 1. cbv iota. rewrite length_map.
      rewrite (Permutation_length Hp). reflexivity.
    + rewrite !length_map. apply (Permutation_length Hp).
    + rewrite map_map. apply Permutation_map, Hp.
Qed.

Lemma export_csv_empty (now : Z) (path : string) (fs : Store.files)
      (self : Store.SpendStore) :
  Store.calls self = [] -> Store.export_csv self now path fs = (0, fs).
Proof.
  intros H. unfold Store.export_csv, Store.get_all_calls. rewrite H.
  reflexivity.
Qed.

(** A table holding one record logged at the epoch. *)
Definition old_store : Store.SpendStore :=
  Store.mk_store
    [Store.mk_call 1 0 "openai" "gpt-4o" (Some "test") (Some "f.py")
                   (Some "g") 100 50 0.001 5 None]
    1.

Lemma old_store_logged :
  Store.log_call Store.empty 0 "openai" "gpt-4o" (Some "test") (Some "f.py")
                 (Some "g") 100 50 0.001 5 None
  = Return (1, old_store).
Proof. reflexivity. Qed.

(** C7. The exports read the table through a ten-year window: a record
    logged 3651 days before the export is in the table and is written by
    neither export, each of which reports zero records written. *)
Theorem C7_export_skips_old_records :
  let now := 3651 * 86400000000 in
  List.length (Store.calls old_store) = 1%nat
  /\ Store.export_csv old_store now "export.csv" [] = (0, [])
  /\ Store.export_json old_store now "export.json" []
     = (0, [("export.json", Store.Json [])]).
Proof. repeat split. Qed.

(** ** store.py: metadata *)

Lemma json_dumps_object (k : string) (attrs : list (string * pyval)) :
  json_dumps (PyDict [(k, PyObj attrs)])
  = Raise (TypeError "Object of type SimpleNamespace is not JSON serializable").
Proof. reflexivity. Qed.





(** ** binary64 arithmetic on numbers that are not large

    The operations on doubles are specified by their counterparts on
    [spec_float].  What follows bounds the results of those: rounding a
    mantissa never yields NaN, and a result below [2 ^ 971] in magnitude is
    finite.  It serves to show that costs and elapsed times are numbers. *)


































(** ** tracker.py: the decorator *)

(** A failure of the wrapped callable leaves the wrapper at once: the
    exception and the world are those the callable left. *)
Lemma track_raise {A : Type} (model : string) (label provider : option string)
      (func : Tracker.callable A) (caller : Tracker.FrameInfo) (args : A)
      (w w1 : Tracker.World) (e : exn) :
  Tracker.__call__ func args w = (Raise e, w1) ->
  Tracker.track model label provider func caller args w = (Raise e, w1).
Proof. intros H. unfold Tracker.track. rewrite H. reflexivity. Qed.

(** A callable that fails as a provider SDK does on a refused request. *)
Definition failing_call : Tracker.callable unit :=
  Tracker.mk_callable "my_api_call"
    (fun _ w => (Raise (ValueError "something went wrong"), w)).

Definition fresh_world : Tracker.World :=
  Tracker.mk_world Store.empty 1700000000000000 1700000000.

Definition test_frame : Tracker.FrameInfo :=
  Tracker.mk_frame "test_tracker.py" "test_track".

(** C1. The wrapper propagates the failure of the wrapped callable
    unchanged, but it does not log: after the failing call the table is as
    empty as before, where one record with zero tokens and zero cost was
    expected. *)
Theorem C1_track_failure_not_logged :
  Tracker.track "gpt-4o" (Some "test-summary") None failing_call test_frame
                tt fresh_world
  = (Raise (ValueError "something went wrong"), fresh_world)
  /\ Store.calls (Tracker._store fresh_world) = [].
Proof. split; reflexivity. Qed.

(** The same callable under the scoped form is logged once, with zero
    tokens and zero cost. *)
Lemma spending_failure_logged :
  Tracker.spending "gpt-4o" (Some "test-summary") None test_frame
    (fun ctx w => let '(r, w') := Tracker.__call__ failing_call tt w in
                  (r, ctx, w'))
    fresh_world
  = (Raise (ValueError "something went wrong"),
     Tracker.set_store fresh_world
       (Store.mk_store
          [Store.mk_call 1 1700000000000000 "openai" "gpt-4o"
                         (Some "test-summary") (Some "test_tracker.py")
                         (Some "test_track") 0 0 0 0 None]
          1)).
Proof. reflexivity. Qed.

(** The decorator on a successful call: the response of an OpenAI-style
    call with a million tokens each way is returned unchanged and one
    record costing 12.50 is logged. *)
Definition openai_response (prompt_tokens completion_tokens : Z)
           (model : string) : pyval :=
  PyObj [("usage", PyObj [("prompt_tokens", PyInt prompt_tokens);
                          ("completion_tokens", PyInt completion_tokens)]);
         ("model", PyStr model)].

Example track_calculates_cost :
  Tracker.track "gpt-4o" None None
    (Tracker.mk_callable "my_api_call"
       (fun _ w => (Return (openai_response 1000000 1000000 "gpt-4o"), w)))
    test_frame tt fresh_world
  = (Return (openai_response 1000000 1000000 "gpt-4o"),
     Tracker.set_store fresh_world
       (Store.mk_store
          [Store.mk_call 1 1700000000000000 "openai" "gpt-4o"
                         (Some "my_api_call") (Some "test_tracker.py")
                         (Some "test_track") 1000000 1000000 12.5 0 None]
          1)).
Proof. reflexivity. Qed.

(** ** tracker.py: the context manager *)




(** A scope whose holder is given an absurd count on a priced model: the
    cost cannot be computed, the body's own failure is replaced and the
    table stays empty. *)
Lemma spending_overflow :
  Tracker.spending "gpt-4o" None None test_frame
    (fun _ w => (@Raise unit (ValueError "something went wrong"),
                 Tracker.SpendContext.mk (10 ^ 400) 0, w))
    fresh_world
  = (Raise (OverflowError "integer division result too large for a float"),
     fresh_world).
Proof. vm_compute. reflexivity. Qed.

(** C2, as the specification states it, fails: a scope on a priced model
    whose holder is set to a count of 401 digits and whose body then raises
    appends no record, and what escapes is not the failure of the body. *)
Lemma C2_counterexample :
  let body (_ : Tracker.SpendContext.t) (w : Tracker.World) :=
    (@Raise unit (ValueError "something went wrong"),
     Tracker.SpendContext.mk (10 ^ 400) 0, w) in
  let scoped :=
    Tracker.spending "gpt-4o" None None test_frame body fresh_world in
  fst scoped <> Raise (ValueError "something went wrong")
  /\ Store.calls (Tracker._store (snd scoped)) = []
  /\ ~ (exists record,
          Store.calls (Tracker._store (snd scoped))
          = (Store.calls (Tracker._store fresh_world) ++ [record])%list).
Proof.
  cbv zeta. rewrite spending_overflow. cbn [fst snd].
  split; [discriminate|]. split; [reflexivity|].
  intros [record H]. discriminate H.
Qed.




(** ** tracker.py: token extraction *)

(** The attributes a usage object exposes. *)
Definition fields_of (usage : pyval) : list (string * pyval) :=
  match usage with PyObj fields => fields | _ => [] end.

(** Every token field that is present holds an integer. *)
Definition integer_fields (fields : list (string * pyval)) : Prop :=
  forall name,
    In name ["prompt_tokens"; "completion_tokens";
             "input_tokens"; "output_tokens"] ->
    assoc fields name = None \/ exists n, assoc fields name = Some (PyInt n).

(** The integer held by a token field, if the field is present. *)
Definition field (fields : list (string * pyval)) (name : string)
  : option Z :=
  match assoc fields name with Some (PyInt n) => Some n | _ => None end.

(** The field-by-field fallback: the first count unless it is missing or
    zero, else the second count, else zero. *)
Definition pick (first second : option Z) : Z :=
  let otherwise := match second with Some m => m | None => 0 end in
  match first with
  | Some n => if n =? 0 then otherwise else n
  | None => otherwise
  end.

(** What the extraction yields on a usage object with integer fields: the
    first complete pair, in the order (prompt, completion) then
    (input, output); without a complete pair, the fallback. *)
Definition usage_object_tokens (fields : list (string * pyval)) : Z * Z :=
  match field fields "prompt_tokens", field fields "completion_tokens" with
  | Some p, Some c => (p, c)
  | _, _ =>
      match field fields "input_tokens", field fields "output_tokens" with
      | Some i, Some o => (i, o)
      | _, _ =>
          (pick (field fields "input_tokens") (field fields "prompt_tokens"),
           pick (field fields "output_tokens")
                (field fields "completion_tokens"))
      end
  end.

(** What it yields on a key-value usage with integer fields: the fallback
    alone. *)
Definition usage_dict_tokens (fields : list (string * pyval)) : Z * Z :=
  (pick (field fields "input_tokens") (field fields "prompt_tokens"),
   pick (field fields "output_tokens") (field fields "completion_tokens")).

Lemma getattr_fields (usage : pyval) (name : string) (default : pyval) :
  getattr usage name default
  = match assoc (fields_of usage) name with Some x => x | None => default end.
Proof. destruct usage; reflexivity. Qed.

Ltac token_case H name :=
  let Hn := fresh "Hfield" in
  assert (Hn := H name ltac:(simpl; tauto));
  destruct Hn as [Hn|[? Hn]]; rewrite Hn in *.

Ltac token_cases H :=
  token_case H constr:("prompt_tokens"%string);
  token_case H constr:("completion_tokens"%string);
  token_case H constr:("input_tokens"%string);
  token_case H constr:("output_tokens"%string).

Lemma extract_usage_object (attrs : list (string * pyval)) (usage : pyval) :
  assoc attrs "usage" = Some usage -> usage <> PyNone ->
  integer_fields (fields_of usage) ->
  Tracker._extract_tokens (PyObj attrs)
  = Return (usage_object_tokens (fields_of usage)).
Proof.
  intros Hu Hnone Hint.
  unfold Tracker._extract_tokens, usage_object_tokens, field.
  cbn [is_none getattr]. rewrite Hu.
  destruct (is_none usage) eqn:E; [destruct usage; simpl in E; congruence|].
  cbn [negb]. rewrite !getattr_fields.
  token_cases Hint; cbn; unfold py_or, truthy;
    repeat match goal with
      | |- context [?n =? 0] => destruct (n =? 0)
      end; reflexivity.
Qed.

Lemma extract_usage_dict (d fields : list (string * pyval)) :
  assoc d "usage" = Some (PyDict fields) ->
  integer_fields fields ->
  Tracker._extract_tokens (PyDict d) = Return (usage_dict_tokens fields).
Proof.
  intros Hu Hint.
  unfold Tracker._extract_tokens, usage_dict_tokens, field, dict_get.
  cbn [is_none getattr negb]. rewrite Hu.
  token_cases Hint; cbn; unfold py_or, truthy;
    repeat match goal with
      | |- context [?n =? 0] => destruct (n =? 0)
      end; reflexivity.
Qed.

Lemma extract_first_pair (attrs : list (string * pyval))
      (usage prompt completion : pyval) (p c : Z) :
  assoc attrs "usage" = Some usage -> usage <> PyNone ->
  getattr usage "prompt_tokens" PyNone = prompt -> prompt <> PyNone ->
  getattr usage "completion_tokens" PyNone = completion ->
  completion <> PyNone ->
  py_int prompt = Return p -> py_int completion = Return c ->
  Tracker._extract_tokens (PyObj attrs) = Return (p, c).
Proof.
  intros Hu Hnone Hp Hpn Hc Hcn Hpi Hci.
  unfold Tracker._extract_tokens. cbn [is_none getattr]. rewrite Hu.
  destruct (is_none usage) eqn:E; [destruct usage; simpl in E; congruence|].
  cbn [negb]. rewrite Hp, Hc.
  destruct prompt; try congruence; destruct completion; try congruence;
    cbn [is_none negb andb]; rewrite Hpi, Hci; reflexivity.
Qed.

Lemma extract_second_pair (attrs : list (string * pyval))
      (usage inp out : pyval) (i o : Z) :
  assoc attrs "usage" = Some usage -> usage <> PyNone ->
  getattr usage "prompt_tokens" PyNone = PyNone
  \/ getattr usage "completion_tokens" PyNone = PyNone ->
  getattr usage "input_tokens" PyNone = inp -> inp <> PyNone ->
  getattr usage "output_tokens" PyNone = out -> out <> PyNone ->
  py_int inp = Return i -> py_int out = Return o ->
  Tracker._extract_tokens (PyObj attrs) = Return (i, o).
Proof.
  intros Hu Hnone Hfirst Hi Hin Ho Hon Hii Hoi.
  unfold Tracker._extract_tokens. cbn [is_none getattr]. rewrite Hu.
  destruct (is_none usage) eqn:E; [destruct usage; simpl in E; congruence|].
  cbn [negb].
  assert (Hpair :
    negb (is_none (getattr usage "prompt_tokens" PyNone))
    && negb (is_none (getattr usage "completion_tokens" PyNone)) = false).
  { destruct Hfirst as [H|H]; rewrite H; cbn [is_none negb andb];
      [reflexivity | apply andb_false_r]. }
  rewrite Hpair, Hi, Ho.
  destruct inp; try congruence; destruct out; try congruence;
    cbn [is_none negb andb]; rewrite Hii, Hoi; reflexivity.
Qed.

Lemma extract_no_usage (response : pyval) :
  getattr response "usage" PyNone = PyNone ->
  (forall d, response <> PyDict d) ->
  Tracker._extract_tokens response = Return (0, 0).
Proof.
  intros Hu Hd. unfold Tracker._extract_tokens. rewrite Hu.
  cbn [is_none negb].
  destruct response; try reflexivity. exfalso. apply (Hd items). reflexivity.
Qed.

Lemma extract_dict_no_usage (d : list (string * pyval)) :
  assoc d "usage" = None
  \/ (exists v, assoc d "usage" = Some v /\ forall fields, v <> PyDict fields) ->
  Tracker._extract_tokens (PyDict d) = Return (0, 0).
Proof.
  intros H. unfold Tracker._extract_tokens, dict_get.
  cbn [is_none getattr negb].
  destruct H as [H|[v [H Hv]]]; rewrite H; [reflexivity|].
  destruct v; try reflexivity. exfalso. apply (Hv items). reflexivity.
Qed.

(** C6, as the specification states it, fails: a usage object that exposes
    [prompt_tokens] alone has no pair with both fields present, and the
    extraction returns (5, 0) where (0, 0) was promised. *)
Lemma C6_counterexample :
  let usage := [("prompt_tokens", PyInt 5)] in
  let response := PyObj [("usage", PyObj usage)] in
  ~ (has_key usage "prompt_tokens" = true
     /\ has_key usage "completion_tokens" = true)
  /\ ~ (has_key usage "input_tokens" = true
        /\ has_key usage "output_tokens" = true)
  /\ Tracker._extract_tokens response = Return (5, 0)
  /\ Tracker._extract_tokens response <> Return (0, 0).
Proof.
  cbv zeta. repeat split.
  - intros [_ H]. discriminate H.
  - intros [H _]. discriminate H.
  - discriminate.
Qed.

(** Two further departures.  The extraction fails when a field is present
    and holds [None]; and on a key-value usage holding both pairs it
    prefers (input, output). *)
Example extract_tokens_raises :
  Tracker._extract_tokens
    (PyObj [("usage", PyObj [("prompt_tokens", PyNone)])])
  = Raise (TypeError
             ("int() argument must be a string, a bytes-like object or a "
              ++ "real number, not 'NoneType'")).
Proof. reflexivity. Qed.

Example extract_tokens_dict_order :
  Tracker._extract_tokens
    (PyDict [("usage",
              PyDict [("prompt_tokens", PyInt 1);
                      ("completion_tokens", PyInt 2);
                      ("input_tokens", PyInt 3);
                      ("output_tokens", PyInt 4)])])
  = Return (3, 4).
Proof. reflexivity. Qed.

(** C6 (amended). The extraction returns (0, 0) for an absent response, for
    a response that exposes no usage object and is not a key-value
    structure, for a key-value structure whose ["usage"] entry is missing
    or is not a key-value structure, and for a usage that exposes none of
    the four token fields.  On a usage object it takes the pairs in order,
    (prompt_tokens, completion_tokens) then (input_tokens, output_tokens),
    and returns the integers of the first pair with both fields present;
    when no pair is complete it falls back field by field: input_tokens
    unless missing or zero, else prompt_tokens, else 0, and likewise
    output_tokens, completion_tokens, 0.  On a key-value usage that holds
    one of the two pairs only, it returns that pair.  It does not fail when
    every token field that is present holds an integer. *)
Theorem C6_extract_tokens :
  Tracker._extract_tokens PyNone = Return (0, 0)
  /\ (forall response,
        getattr response "usage" PyNone = PyNone ->
        (forall d, response <> PyDict d) ->
        Tracker._extract_tokens response = Return (0, 0))
  /\ (forall d,
        assoc d "usage" = None
        \/ (exists v, assoc d "usage" = Some v
                      /\ forall fields, v <> PyDict fields) ->
        Tracker._extract_tokens (PyDict d) = Return (0, 0))
  /\ (forall attrs usage prompt completion p c,
        assoc attrs "usage" = Some usage -> usage <> PyNone ->
        getattr usage "prompt_tokens" PyNone = prompt -> prompt <> PyNone ->
        getattr usage "completion_tokens" PyNone = completion ->
        completion <> PyNone ->
        py_int prompt = Return p -> py_int completion = Return c ->
        Tracker._extract_tokens (PyObj attrs) = Return (p, c))
  /\ (forall attrs usage inp out i o,
        assoc attrs "usage" = Some usage -> usage <> PyNone ->
        getattr usage "prompt_tokens" PyNone = PyNone
        \/ getattr usage "completion_tokens" PyNone = PyNone ->
        getattr usage "input_tokens" PyNone = inp -> inp <> PyNone ->
        getattr usage "output_tokens" PyNone = out -> out <> PyNone ->
        py_int inp = Return i -> py_int out = Return o ->
        Tracker._extract_tokens (PyObj attrs) = Return (i, o))
  /\ (forall attrs usage,
        assoc attrs "usage" = Some usage -> usage <> PyNone ->
        integer_fields (fields_of usage) ->
        Tracker._extract_tokens (PyObj attrs)
        = Return (usage_object_tokens (fields_of usage)))
  /\ (forall attrs usage,
        assoc attrs "usage" = Some usage -> usage <> PyNone ->
        (forall name, In name ["prompt_tokens"; "completion_tokens";
                               "input_tokens"; "output_tokens"] ->
                      assoc (fields_of usage) name = None) ->
        Tracker._extract_tokens (PyObj attrs) = Return (0, 0))
  /\ (forall d fields,
        assoc d "usage" = Some (PyDict fields) ->
        integer_fields fields ->
        exists tokens,
          Tracker._extract_tokens (PyDict d) = Return tokens
          /\ (forall p c,
                field fields "prompt_tokens" = Some p ->
                field fields "completion_tokens" = Some c ->
                field fields "input_tokens" = None ->
                field fields "output_tokens" = None ->
                tokens = (p, c))
          /\ (forall i o,
                field fields "input_tokens" = Some i ->
                field fields "output_tokens" = Some o ->
                field fields "prompt_tokens" = None ->
                field fields "completion_tokens" = None ->
                tokens = (i, o))
          /\ (field fields "prompt_tokens" = None ->
              field fields "completion_tokens" = None ->
              field fields "input_tokens" = None ->
              field fields "output_tokens" = None ->
              tokens = (0, 0))).
Proof.
  split; [reflexivity|].
  split; [exact extract_no_usage|].
  split; [exact extract_dict_no_usage|].
  split; [exact extract_first_pair|].
  split; [exact extract_second_pair|].
  split; [exact extract_usage_object|].
  split.
  { intros attrs usage Hu Hnone Habsent.
    rewrite (extract_usage_object attrs usage Hu Hnone)
      by (intros name Hname; left; apply Habsent, Hname).
    unfold usage_object_tokens, field.
    rewrite !Habsent by (simpl; tauto). reflexivity. }
  intros d fields Hu Hint. exists (usage_dict_tokens fields).
  split; [apply extract_usage_dict; assumption|].
  unfold usage_dict_tokens, pick.
  split; [|split].
  - intros p c -> -> -> ->. reflexivity.
  - intros i o -> -> -> ->.
    destruct (i =? 0) eqn:Ei; destruct (o =? 0) eqn:Eo;
      try apply Z.eqb_eq in Ei; try apply Z.eqb_eq in Eo; subst;
      reflexivity.
  - intros -> -> -> ->. reflexivity.
Qed.

(** An Anthropic-style response: the second pair is the first complete
    one. *)
Lemma C6_extract_tokens_witness :
  Tracker._extract_tokens
    (PyObj [("usage", PyObj [("input_tokens", PyInt 400);
                             ("output_tokens", PyInt 200)]);
            ("model", PyStr "claude-sonnet-4")])
  = Return (400, 200).
Proof.
  apply (proj1 (proj2 (proj2 (proj2 (proj2 C6_extract_tokens))))
               _ (PyObj [("input_tokens", PyInt 400);
                         ("output_tokens", PyInt 200)])
               (PyInt 400) (PyInt 200) 400 200).
  - reflexivity.
  - discriminate.
  - left. reflexivity.
  - reflexivity.
  - discriminate.
  - reflexivity.
  - discriminate.
  - reflexivity.
  - reflexivity.
Defined.

(** ** Scenarios of the test suite *)

Definition log_simple (self : Store.SpendStore) (file function : string)
           (input_tokens output_tokens : Z) (cost_usd duration_ms : float)
  : Store.SpendStore :=
  match Store.log_call self 1700000000000000 "openai" "gpt-4o" (Some "x")
                       (Some file) (Some function) input_tokens output_tokens
                       cost_usd duration_ms None with
  | Return (_, logged) => logged
  | Raise _ => self
  end.

(** Three calls from one file and one from another: the costlier file comes
    first, with its three calls summed. *)
Example aggregates_by_file :
  let s1 := log_simple Store.empty "myfile.py" "fn" 1000 500 0.01 50 in
  let s2 := log_simple s1 "myfile.py" "fn" 1000 500 0.01 50 in
  let s3 := log_simple s2 "myfile.py" "fn" 1000 500 0.01 50 in
  let s4 := log_simple s3 "other.py" "fn2" 500 200 0.005 30 in
  Store.get_by_file naive_sum s4 1700000001000000 1
  = [Store.mk_aggregate "myfile.py" 3 3000 1500 (0.01 + 0.01 + 0.01)%float;
     Store.mk_aggregate "other.py" 1 500 200 0.005%float].
Proof. reflexivity. Qed.

(** Records without a file are kept and share the ["(unknown)"] row. *)
Example unknown_file_is_kept :
  Store.get_by_file naive_sum
    (Store.mk_store
       [Store.mk_call 1 10 "openai" "gpt-4o" None None None 1 1 2 0 None;
        Store.mk_call 2 20 "openai" "gpt-4o" None (Some "a.py") None
                      1 1 5 0 None;
        Store.mk_call 3 30 "openai" "gpt-4o" None None None 1 1 1 0 None]
       3)
    40 1
  = [Store.mk_aggregate "a.py" 1 1 1 5%float;
     Store.mk_aggregate "(unknown)" 2 2 2 3%float].
Proof. reflexivity. Qed.

(** True division of integers: exact below 2^53, rounded once above, and
    an error outside the range of doubles. *)
Example int_truediv_third : int_truediv 1 3 = Return 0.33333333333333331%float.
Proof. reflexivity. Qed.

Example int_truediv_rounds_once :
  int_truediv (2 ^ 53 + 1) 1 = Return 9007199254740992%float.
Proof. reflexivity. Qed.

Example int_truediv_overflow :
  int_truediv (10 ^ 400) 1000000
  = Raise (OverflowError "integer division result too large for a float").
Proof. vm_compute. reflexivity. Qed.

Example calculate_cost_overflow :
  calculate_cost "gpt-4o" (10 ^ 400) 0
  = Raise (OverflowError "integer division result too large for a float").
Proof. vm_compute. reflexivity. Qed.

(** Responses of the two SDK shapes, as objects and as dictionaries. *)
Example extract_openai_object :
  Tracker._extract_tokens (openai_response 300 150 "gpt-4o")
  = Return (300, 150).
Proof. reflexivity. Qed.

Example extract_no_usage_attribute :
  Tracker._extract_tokens (PyObj []) = Return (0, 0).
Proof. reflexivity. Qed.

Example extract_dict_openai :
  Tracker._extract_tokens
    (PyDict [("usage", PyDict [("prompt_tokens", PyInt 50);
                               ("completion_tokens", PyInt 25)])])
  = Return (50, 25).
Proof. reflexivity. Qed.

Example extract_dict_anthropic :
  Tracker._extract_tokens
    (PyDict [("usage", PyDict [("input_tokens", PyInt 60);
                               ("output_tokens", PyInt 30)])])
  = Return (60, 30).
Proof. reflexivity. Qed.

Example extract_model_attribute :
  Tracker._extract_model (PyObj [("model", PyStr "gpt-4o-mini")])
  = Return (PyStr "gpt-4o-mini").
Proof. reflexivity. Qed.

Example extract_model_dict :
  Tracker._extract_model (PyDict [("model", PyStr "gemini-1.5-pro")])
  = Return (PyStr "gemini-1.5-pro").
Proof. reflexivity. Qed.

Example detect_provider_samples :
  map detect_provider
      ["claude-3-5-sonnet-20241022"; "gpt-4o"; "o1-mini"; "gemini-1.5-pro";
       "random-model"]
  = ["anthropic"; "openai"; "openai"; "google"; "unknown"].
Proof. reflexivity. Qed.

(* ================================================================== *)
(** * Further properties of the package *)
(* ================================================================== *)

(** ** pricing.py: which names are priced *)

Lemma string_length_app (a b : string) :
  String.length (a ++ b) = (String.length a + String.length b)%nat.
Proof. induction a as [|c a IH]; simpl; [reflexivity | rewrite IH; reflexivity]. Qed.

Lemma substring_length (a b : string) :
  substring a b -> (String.length a <= String.length b)%nat.
Proof.
  intros [pre [post ->]]. rewrite !string_length_app. lia.
Qed.

(** X1. Price resolution never raises, and a price it returns is the table
    entry of an identifier that equals the name, is contained in it, or
    contains it. *)
Theorem pricing_from_related_entry (m : string) :
  (forall e, get_model_pricing m <> Raise e)
  /\ (forall p, get_model_pricing m = Return (Some p) ->
                exists k, In (k, p) PRICING
                          /\ (k = m \/ substring k m \/ substring m k)).
Proof.
  destruct (assoc PRICING m) as [p0|] eqn:Hm.
  - rewrite (get_model_pricing_exact m p0 Hm). split; [discriminate|].
    intros p H. injection H as <-. exists m.
    split; [apply assoc_In, Hm | left; reflexivity].
  - destruct (find (fun k => str_contains k m) _SORTED_MODELS) as [k|] eqn:Hf1.
    + destruct (get_model_pricing_inner m k Hm Hf1) as [p0 [Hp0 Hget]].
      rewrite Hget. split; [discriminate|].
      intros p H. injection H as <-. exists k.
      split; [apply assoc_In, Hp0|]. right; left.
      apply str_contains_spec. apply (find_some _ _ Hf1).
    + destruct (find (fun k => str_contains m k) _SORTED_MODELS)
        as [k|] eqn:Hf2.
      * destruct (get_model_pricing_outer m k Hm Hf1 Hf2) as [p0 [Hp0 Hget]].
        rewrite Hget. split; [discriminate|].
        intros p H. injection H as <-. exists k.
        split; [apply assoc_In, Hp0|]. right; right.
        apply str_contains_spec. apply (find_some _ _ Hf2).
      * rewrite (get_model_pricing_absent m Hm Hf1 Hf2).
        split; discriminate.
Qed.

(** X2. A name is unpriced exactly when it is no known identifier, contains
    none and is contained in none. *)
Theorem unpriced_iff_unrelated (m : string) :
  get_model_pricing m = Return None <->
  ~ In m (keys PRICING)
  /\ (forall k, In k (keys PRICING) -> ~ substring k m /\ ~ substring m k).
Proof.
  split.
  - intros Hnone.
    assert (Hm : assoc PRICING m = None).
    { destruct (assoc PRICING m) as [p|] eqn:E; [|reflexivity].
      rewrite (get_model_pricing_exact m p E) in Hnone. discriminate Hnone. }
    assert (Hf1 : find (fun k => str_contains k m) _SORTED_MODELS = None).
    { destruct (find (fun k => str_contains k m) _SORTED_MODELS) as [k|] eqn:E;
        [|reflexivity].
      destruct (get_model_pricing_inner m k Hm E) as [p [_ H]].
      rewrite H in Hnone. discriminate Hnone. }
    assert (Hf2 : find (fun k => str_contains m k) _SORTED_MODELS = None).
    { destruct (find (fun k => str_contains m k) _SORTED_MODELS) as [k|] eqn:E;
        [|reflexivity].
      destruct (get_model_pricing_outer m k Hm Hf1 E) as [p [_ H]].
      rewrite H in Hnone. discriminate Hnone. }
    split; [apply assoc_None, Hm|].
    intros k Hk. apply sorted_models_In in Hk.
    split; apply not_substring.
    + apply (find_none _ _ Hf1 k Hk).
    + apply (find_none _ _ Hf2 k Hk).
  - intros [Hm Hnone]. apply assoc_None in Hm.
    apply get_model_pricing_absent; [exact Hm | |];
      apply find_absent; intros k Hk; apply sorted_models_In in Hk;
      apply not_substring; apply (Hnone k Hk).
Qed.

(** X3. A name built around a known identifier, with any text before and
    after it, is always priced, from an identifier at least as long as the
    one it was built around. *)
Theorem versioned_name_is_priced (k pre post : string) :
  In k (keys PRICING) ->
  exists k0 p0,
    In (k0, p0) PRICING
    /\ (String.length k <= String.length k0)%nat
    /\ get_model_pricing (pre ++ k ++ post) = Return (Some p0).
Proof.
  intros Hk. set (m := (pre ++ k ++ post)%string).
  assert (Hsub : substring k m) by (exists pre, post; reflexivity).
  destruct (assoc PRICING m) as [p0|] eqn:Hm.
  - exists m, p0. split; [apply assoc_In, Hm|].
    split; [apply substring_length, Hsub|].
    apply get_model_pricing_exact, Hm.
  - destruct (find_exists (fun k => str_contains k m) _SORTED_MODELS k)
      as [k0 Hf]; [apply sorted_models_In, Hk
                  | apply str_contains_spec, Hsub |].
    destruct (get_model_pricing_inner m k0 Hm Hf) as [p0 [Hp0 Hget]].
    destruct (find_longest _ _ Hf) as [_ [_ Hmax]].
    exists k0, p0. split; [apply assoc_In, Hp0|].
    split; [|exact Hget].
    apply Hmax; [exact Hk | apply str_contains_spec, Hsub].
Qed.

Lemma versioned_name_is_priced_witness :
  exists k0 p0,
    In (k0, p0) PRICING
    /\ (String.length "claude-sonnet-4" <= String.length k0)%nat
    /\ get_model_pricing "bedrock/claude-sonnet-4@20250514"
       = Return (Some p0).
Proof.
  apply (versioned_name_is_priced "claude-sonnet-4" "bedrock/" "@20250514").
  simpl. tauto.
Defined.

(** ** pricing.py: when the cost computation fails *)

Lemma int_truediv_million_raises (a : Z) (e : exn) :
  int_truediv a 1000000 = Raise e ->
  e = OverflowError "integer division result too large for a float"
  /\ 2 ^ 53 <= Z.abs a.
Proof.
  unfold int_truediv, fits_mantissa.
  change (1000000 =? 0) with false.
  change (Z.abs 1000000 <? 2 ^ 53) with true.
  rewrite andb_true_r. cbv iota.
  destruct (Z.abs a <? 2 ^ 53) eqn:E; [discriminate|].
  apply Z.ltb_ge in E.
  destruct (SFdiv prec emax (int_as_spec_float a)
                  (int_as_spec_float 1000000));
    intros H; try discriminate H.
  injection H as <-. split; [reflexivity | exact E].
Qed.

Lemma calculate_cost_raises (m : string) (i o : Z) (e : exn) :
  calculate_cost m i o = Raise e ->
  e = OverflowError "integer division result too large for a float"
  /\ (exists k p, In (k, p) PRICING /\ get_model_pricing m = Return (Some p))
  /\ (2 ^ 53 <= Z.abs i \/ 2 ^ 53 <= Z.abs o).
Proof.
  intros H.
  destruct (get_model_pricing_total m) as [Hnone|[k [p [Hin Hp]]]].
  - rewrite (calculate_cost_unpriced m i o Hnone) in H. discriminate H.
  - rewrite (calculate_cost_priced m p i o Hp) in H.
    destruct (int_truediv i 1000000) as [x|ex] eqn:Ei.
    + destruct (int_truediv o 1000000) as [y|ey] eqn:Eo;
        simpl in H; [discriminate H|].
      injection H as <-.
      destruct (int_truediv_million_raises o ey Eo) as [-> Ho].
      split; [reflexivity|]. split; [exists k, p; split; assumption|].
      right. exact Ho.
    + simpl in H. injection H as <-.
      destruct (int_truediv_million_raises i ex Ei) as [-> Hi].
      split; [reflexivity|]. split; [exists k, p; split; assumption|].
      left. exact Hi.
Qed.

(** X4. The cost computation can fail in one way only: with
    [OverflowError], on a priced model, when a token count is at least 2^53
    in magnitude.  It never fails on an unpriced model or on smaller
    counts. *)
Theorem calculate_cost_failure (m : string) (i o : Z) (e : exn) :
  calculate_cost m i o = Raise e ->
  e = OverflowError "integer division result too large for a float"
  /\ (exists k p, In (k, p) PRICING /\ get_model_pricing m = Return (Some p))
  /\ (2 ^ 53 <= Z.abs i \/ 2 ^ 53 <= Z.abs o).
Proof. apply calculate_cost_raises. Qed.

Lemma calculate_cost_failure_witness :
  calculate_cost "gpt-4o" (10 ^ 400) 0
  = Raise (OverflowError "integer division result too large for a float")
  /\ (2 ^ 53 <= Z.abs (10 ^ 400) \/ 2 ^ 53 <= Z.abs 0).
Proof.
  assert (H : calculate_cost "gpt-4o" (10 ^ 400) 0
              = Raise (OverflowError
                         "integer division result too large for a float"))
    by (vm_compute; reflexivity).
  split; [exact H|].
  apply (calculate_cost_failure "gpt-4o" (10 ^ 400) 0 _ H).
Defined.

(** ** pricing.py: provider detection *)

Lemma prefix_same_head (a b : ascii) (p q s : string) :
  String.prefix (String a p) s = true ->
  String.prefix (String b q) s = true -> a = b.
Proof.
  destruct s as [|c s]; simpl; [discriminate|].
  destruct (Ascii.ascii_dec a c) as [->|]; [|discriminate].
  destruct (Ascii.ascii_dec b c) as [->|]; [|discriminate].
  reflexivity.
Qed.

Lemma prefix_same_second (a a2 b b2 : ascii) (p q s : string) :
  String.prefix (String a (String a2 p)) s = true ->
  String.prefix (String b (String b2 q)) s = true -> a2 = b2.
Proof.
  destruct s as [|c s]; simpl; [discriminate|].
  destruct (Ascii.ascii_dec a c) as [->|]; [|discriminate].
  destruct (Ascii.ascii_dec b c) as [->|]; [|discriminate].
  apply prefix_same_head.
Qed.

Lemma lower_char_idempotent (c : ascii) :
  lower_char (lower_char c) = lower_char c.
Proof.
  destruct c as [[] [] [] [] [] [] [] []]; reflexivity.
Qed.

Lemma lower_idempotent (s : string) : lower (lower s) = lower s.
Proof.
  induction s as [|c s IH]; simpl; [reflexivity|].
  rewrite lower_char_idempotent, IH. reflexivity.
Qed.

(** X5. Provider detection is decided by the prefix of the lower-cased name
    alone: the tests exclude one another, so their order does not matter,
    and lower-casing the name beforehand changes nothing. *)
Theorem detect_provider_by_prefix (m : string) :
  (detect_provider m = "anthropic" <->
   startswith (lower m) "claude" = true)
  /\ (detect_provider m = "openai" <->
      startswith (lower m) "gpt-" = true
      \/ startswith (lower m) "o1" = true
      \/ startswith (lower m) "o3" = true)
  /\ (detect_provider m = "google" <->
      startswith (lower m) "gemini" = true)
  /\ (detect_provider m = "unknown" <->
      startswith (lower m) "claude" = false
      /\ startswith (lower m) "gpt-" = false
      /\ startswith (lower m) "o1" = false
      /\ startswith (lower m) "o3" = false
      /\ startswith (lower m) "gemini" = false)
  /\ detect_provider (lower m) = detect_provider m.
Proof.
  assert (Hhead : forall a b p q,
             startswith (lower m) (String a p) = true ->
             startswith (lower m) (String b q) = true -> a = b).
  { intros a b p q. apply prefix_same_head. }
  unfold detect_provider. rewrite lower_idempotent.
  destruct (startswith (lower m) "claude") eqn:Ec;
    destruct (startswith (lower m) "gpt-") eqn:Eg;
    destruct (startswith (lower m) "o1") eqn:E1;
    destruct (startswith (lower m) "o3") eqn:E3;
    destruct (startswith (lower m) "gemini") eqn:Em;
    try (pose proof (Hhead _ _ _ _ Ec Eg) as Hx; discriminate Hx);
    try (pose proof (Hhead _ _ _ _ Ec E1) as Hx; discriminate Hx);
    try (pose proof (Hhead _ _ _ _ Ec E3) as Hx; discriminate Hx);
    try (pose proof (Hhead _ _ _ _ Ec Em) as Hx; discriminate Hx);
    try (pose proof (prefix_same_second _ _ _ _ _ _ _ Eg Em) as Hx;
         discriminate Hx);
    try (pose proof (Hhead _ _ _ _ E1 Em) as Hx; discriminate Hx);
    try (pose proof (Hhead _ _ _ _ E3 Em) as Hx; discriminate Hx);
    simpl; repeat split; intros; try reflexivity; try discriminate;
    try tauto;
    repeat match goal with
      | H : _ /\ _ |- _ => destruct H
      | H : _ \/ _ |- _ => destruct H
      end; try discriminate; auto.
Qed.

(** ** store.py: row identifiers *)

(** The tables that can arise from a fresh database by logging calls and
    clearing. *)
Inductive reachable : Store.SpendStore -> Prop :=
| reachable_empty : reachable Store.empty
| reachable_log (self : Store.SpendStore) (now : Z)
    (provider model : string) (label file function : option string)
    (input_tokens output_tokens : Z) (cost_usd duration_ms : float)
    (metadata : option (list (string * pyval)))
    (rowid : Z) (logged : Store.SpendStore) :
    reachable self ->
    Store.log_call self now provider model label file function
                   input_tokens output_tokens cost_usd duration_ms metadata
    = Return (rowid, logged) ->
    reachable logged
| reachable_clear (self : Store.SpendStore) (now : Z) (days : option Z) :
    reachable self -> reachable (snd (Store.clear self now days)).

(** Identifiers grow along the table and stay within the counter. *)
Definition ids_increasing (self : Store.SpendStore) : Prop :=
  StronglySorted Z.lt (map Store.id (Store.calls self))
  /\ Forall (fun c => 0 < Store.id c <= Store.last_rowid self)
            (Store.calls self)
  /\ 0 <= Store.last_rowid self.

Lemma log_call_inv (self : Store.SpendStore) (now : Z)
      (provider model : string) (label file function : option string)
      (input_tokens output_tokens : Z) (cost_usd duration_ms : float)
      (metadata : option (list (string * pyval)))
      (rowid : Z) (logged : Store.SpendStore) :
  Store.log_call self now provider model label file function
                 input_tokens output_tokens cost_usd duration_ms metadata
  = Return (rowid, logged) ->
  exists metadata_json,
    rowid = Store.last_rowid self + 1
    /\ logged
       = Store.mk_store
           (Store.calls self ++
            [Store.mk_call rowid now provider model label file function
                           input_tokens output_tokens
                           (Store.read_back cost_usd)
                           (Store.read_back duration_ms)
                           metadata_json])
           rowid.
Proof.
  unfold Store.log_call.
  destruct (match metadata with
            | Some ((_ :: _) as d) =>
                s <- json_dumps (PyDict d) ;; Return (Some s)
            | _ => Return None
            end) as [mj|e]; cbn [Py.bind]; intros H; [|discriminate H].
  destruct (insert_returned _ _ _ _ _ _ _ _ _ _ _ _ _ _ H) as (_ & -> & ->).
  exists mj. split; reflexivity.
Qed.

Lemma StronglySorted_snoc {A : Type} (R : A -> A -> Prop) (l : list A)
      (x : A) :
  StronglySorted R l -> Forall (fun y => R y x) l ->
  StronglySorted R (l ++ [x]).
Proof.
  induction 1 as [|y l Hs IH Hy]; intros Hall; simpl.
  - constructor; constructor.
  - inversion Hall as [|? ? Hyx Hall']; subst.
    constructor; [apply IH, Hall'|].
    apply Forall_app. split; [exact Hy | constructor; [exact Hyx|constructor]].
Qed.

Lemma StronglySorted_map_filter {A B : Type} (R : B -> B -> Prop)
      (g : A -> B) (f : A -> bool) (l : list A) :
  StronglySorted R (map g l) -> StronglySorted R (map g (filter f l)).
Proof.
  induction l as [|x l IH]; simpl; intros H; [constructor|].
  inversion H as [|? ? Hs Hall]; subst.
  destruct (f x); simpl; [|apply IH, Hs].
  constructor; [apply IH, Hs|].
  rewrite Forall_forall in Hall |- *. intros y Hy. apply Hall.
  apply in_map_iff in Hy. destruct Hy as [z [<- Hz]].
  apply in_map. apply filter_In in Hz. apply Hz.
Qed.

Lemma ids_increasing_log (self : Store.SpendStore) (now : Z)
      (provider model : string) (label file function : option string)
      (input_tokens output_tokens : Z) (cost_usd duration_ms : float)
      (metadata : option (list (string * pyval)))
      (rowid : Z) (logged : Store.SpendStore) :
  ids_increasing self ->
  Store.log_call self now provider model label file function
                 input_tokens output_tokens cost_usd duration_ms metadata
  = Return (rowid, logged) ->
  ids_increasing logged.
Proof.
  intros (Hs & Hb & H0) Hlog.
  destruct (log_call_inv _ _ _ _ _ _ _ _ _ _ _ _ _ _ Hlog)
    as [mj [-> ->]].
  unfold ids_increasing. simpl. rewrite map_app. simpl.
  split; [|split; [|lia]].
  - apply StronglySorted_snoc; [exact Hs|].
    rewrite Forall_map. eapply Forall_impl; [|exact Hb].
    intros c Hc. simpl in Hc. lia.
  - apply Forall_app. split.
    + eapply Forall_impl; [|exact Hb]. intros c Hc. simpl in Hc. lia.
    + constructor; [simpl; lia | constructor].
Qed.

Lemma ids_increasing_clear (self : Store.SpendStore) (now : Z)
      (days : option Z) :
  ids_increasing self -> ids_increasing (snd (Store.clear self now days)).
Proof.
  intros (Hs & Hb & H0). unfold ids_increasing.
  destruct days as [days|]; simpl.
  - split; [apply StronglySorted_map_filter, Hs|].
    split; [|exact H0].
    rewrite Forall_forall in Hb |- *. intros c Hc. apply Hb.
    apply filter_In in Hc. apply Hc.
  - split; [constructor|]. split; [constructor | exact H0].
Qed.

Lemma reachable_ids (self : Store.SpendStore) :
  reachable self -> ids_increasing self.
Proof.
  induction 1 as [|self now provider model label file function
                    input_tokens output_tokens cost_usd duration_ms
                    metadata rowid logged _ IH Hlog
                  |self now days _ IH].
  - unfold ids_increasing. simpl.
    split; [constructor|]. split; [constructor | lia].
  - eapply ids_increasing_log; eassumption.
  - apply ids_increasing_clear, IH.
Qed.

(** X6. In every table that logging and clearing can produce, the row
    identifiers are positive, strictly increasing in insertion order (so no
    two rows share one) and never above the autoincrement counter. *)
Theorem reachable_ids_increasing (self : Store.SpendStore) :
  reachable self ->
  StronglySorted Z.lt (map Store.id (Store.calls self))
  /\ NoDup (map Store.id (Store.calls self))
  /\ Forall (fun c => 0 < Store.id c <= Store.last_rowid self)
            (Store.calls self).
Proof.
  intros Hr. destruct (reachable_ids self Hr) as (Hs & Hb & _).
  split; [exact Hs|]. split; [|exact Hb].
  clear Hb. induction Hs as [|x l Hs IH Hx]; constructor; [|exact IH].
  intros Hin. rewrite Forall_forall in Hx. specialize (Hx x Hin). lia.
Qed.

(** Two calls logged on a fresh database, the second a day later. *)
Definition two_calls : Store.SpendStore :=
  Store.mk_store
    [Store.mk_call 1 1700000000000000 "openai" "gpt-4o" (Some "a")
                   (Some "app.py") (Some "run") 2000 500 0.01 120 None;
     Store.mk_call 2 1700086400000000 "anthropic" "claude-sonnet-4"
                   (Some "b") (Some "app.py") (Some "classify") 2000 100
                   0.0075 200 None]
    2.

Lemma two_calls_reachable : reachable two_calls.
Proof.
  apply (reachable_log
           (Store.mk_store
              [Store.mk_call 1 1700000000000000 "openai" "gpt-4o" (Some "a")
                             (Some "app.py") (Some "run") 2000 500 0.01 120
                             None]
              1)
           1700086400000000 "anthropic" "claude-sonnet-4"
           (Some "b") (Some "app.py") (Some "classify") 2000 100
           0.0075%float 200%float None 2 two_calls);
    [|reflexivity].
  apply (reachable_log Store.empty 1700000000000000 "openai" "gpt-4o"
           (Some "a") (Some "app.py") (Some "run") 2000 500
           0.01%float 120%float None 1);
    [apply reachable_empty | reflexivity].
Qed.

Lemma reachable_ids_increasing_witness :
  StronglySorted Z.lt (map Store.id (Store.calls two_calls))
  /\ NoDup (map Store.id (Store.calls two_calls))
  /\ Forall (fun c => 0 < Store.id c <= Store.last_rowid two_calls)
            (Store.calls two_calls).
Proof. apply (reachable_ids_increasing two_calls two_calls_reachable). Defined.

(** X7. Identifiers are never handed out twice: whatever was cleared in
    between, a call logged later receives the counter plus one, which is
    above every identifier the table held before the clearing. *)
Theorem ids_never_reused (self : Store.SpendStore) (now now' : Z)
        (days : option Z) (provider model : string)
        (label file function : option string) (input_tokens output_tokens : Z)
        (cost_usd duration_ms : float)
        (metadata : option (list (string * pyval)))
        (rowid : Z) (logged : Store.SpendStore) :
  reachable self ->
  Store.log_call (snd (Store.clear self now days)) now' provider model label
                 file function input_tokens output_tokens cost_usd
                 duration_ms metadata
  = Return (rowid, logged) ->
  rowid = Store.last_rowid self + 1
  /\ Store.last_rowid logged = rowid
  /\ forall c, In c (Store.calls self) -> Store.id c < rowid.
Proof.
  intros Hr Hlog.
  destruct (reachable_ids self Hr) as (_ & Hb & _).
  destruct (log_call_inv _ _ _ _ _ _ _ _ _ _ _ _ _ _ Hlog)
    as [mj [Hid ->]].
  assert (Hlast : Store.last_rowid (snd (Store.clear self now days))
                  = Store.last_rowid self) by (destruct days; reflexivity).
  rewrite Hlast in Hid. split; [exact Hid|]. split; [reflexivity|].
  intros c Hc. rewrite Forall_forall in Hb. specialize (Hb c Hc). lia.
Qed.

(** After clearing everything, the next call on [two_calls] is row 3. *)
Lemma ids_never_reused_witness :
  exists logged,
    Store.log_call (snd (Store.clear two_calls 1700090000000000 None))
                   1700090000000000 "google" "gemini-1.5-pro" None None None
                   10 20 0.001 30 None
    = Return (3, logged)
    /\ Store.last_rowid logged = 3
    /\ forall c, In c (Store.calls two_calls) -> Store.id c < 3.
Proof.
  eexists. split; [reflexivity|].
  apply (ids_never_reused two_calls 1700090000000000 1700090000000000 None
           "google" "gemini-1.5-pro" None None None 10 20
           0.001%float 30%float None 3 _ two_calls_reachable eq_refl).
Defined.

(** ** store.py: totals *)

Lemma filter_app_one {A : Type} (f : A -> bool) (l : list A) (x : A) :
  filter f (l ++ [x]) = (filter f l ++ (if f x then [x] else []))%list.
Proof. rewrite filter_app. reflexivity. Qed.

Lemma sum_int_snoc (l : list Z) (x : Z) :
  Store.sum_int (l ++ [x]) = Store.sum_int l + x.
Proof. induction l as [|y l IH]; simpl; [lia | rewrite IH; lia]. Qed.

Lemma count_snoc {A : Type} (l : list A) (x : A) :
  Store.count (l ++ [x]) = Store.count l + 1.
Proof. unfold Store.count. rewrite length_app. simpl. lia. Qed.

(** X8. Logging a call moves the totals of a window by exactly that call:
    when the window reaches back to the moment of the call, the number of
    calls grows by one and the token totals by the call's counts; when the
    call is older than the window, the three totals do not change. *)
Theorem log_call_then_total (sum : list float -> float)
        (self : Store.SpendStore) (now : Z) (provider model : string)
        (label file function : option string) (input_tokens output_tokens : Z)
        (cost_usd duration_ms : float)
        (metadata : option (list (string * pyval)))
        (rowid : Z) (logged : Store.SpendStore) (now' days : Z) :
  Store.log_call self now provider model label file function
                 input_tokens output_tokens cost_usd duration_ms metadata
  = Return (rowid, logged) ->
  let before := Store.get_total sum self now' days in
  let after := Store.get_total sum logged now' days in
  (now' - days * 86400000000 <= now ->
   Store.total_calls after = Store.total_calls before + 1
   /\ Store.total_input after = Store.total_input before + input_tokens
   /\ Store.total_output after = Store.total_output before + output_tokens)
  /\ (now < now' - days * 86400000000 ->
      Store.total_calls after = Store.total_calls before
      /\ Store.total_input after = Store.total_input before
      /\ Store.total_output after = Store.total_output before).
Proof.
  intros Hlog before after. subst before after.
  destruct (log_call_inv _ _ _ _ _ _ _ _ _ _ _ _ _ _ Hlog)
    as [mj [-> ->]].
  unfold Store.get_total.
  cbn [Store.calls Store.total_calls Store.total_input Store.total_output].
  rewrite filter_app_one.
  change (Store.since (Store._cutoff now' days)
            (Store.mk_call (Store.last_rowid self + 1) now provider model
               label file function input_tokens output_tokens
               (Store.read_back cost_usd) (Store.read_back duration_ms) mj))
    with (now' - days * 86400000000 <=? now).
  split; intros Hw.
  - apply Z.leb_le in Hw. rewrite Hw.
    rewrite !map_app. cbn [map]. rewrite !sum_int_snoc, count_snoc.
    repeat split.
  - apply Z.leb_gt in Hw. rewrite Hw. rewrite app_nil_r. repeat split.
Qed.

(** One more call logged on [two_calls], inside a window of thirty days. *)
Lemma log_call_then_total_witness :
  let logged := log_simple two_calls "app.py" "run" 1000 500 0.01 10 in
  Store.total_calls (Store.get_total naive_sum logged 1700090000000000 30)
  = Store.total_calls
      (Store.get_total naive_sum two_calls 1700090000000000 30) + 1
  /\ Store.total_input (Store.get_total naive_sum logged 1700090000000000 30)
     = Store.total_input
         (Store.get_total naive_sum two_calls 1700090000000000 30) + 1000
  /\ Store.total_output
       (Store.get_total naive_sum logged 1700090000000000 30)
     = Store.total_output
         (Store.get_total naive_sum two_calls 1700090000000000 30) + 500.
Proof.
  apply (proj1 (log_call_then_total naive_sum two_calls 1700000000000000
                  "openai" "gpt-4o" (Some "x") (Some "app.py") (Some "run")
                  1000 500 0.01%float 10%float None 3 _
                  1700090000000000 30 eq_refl)).
  lia.
Defined.

(** ** store.py: a breakdown adds up to the total *)

Section Breakdown.

Variable sum : list float -> float.
Context {G K : Type}.
Variable eqb : G -> G -> bool.
Hypothesis eqb_eq : forall x y, eqb x y = true <-> x = y.
Variable col : Store.call -> G.
Variable display : G -> K.

Lemma one_group_weight (x : G) (w : Z) (gs : list G) :
  NoDup gs -> In x gs ->
  Store.sum_int (map (fun g => if eqb x g then w else 0) gs) = w.
Proof.
  induction 1 as [|g gs Hg Hnd IH]; simpl; [contradiction|].
  intros [->|Hx].
  - rewrite (eqb_refl_true eqb eqb_eq).
    assert (H0 : Store.sum_int (map (fun g => if eqb x g then w else 0) gs)
                 = 0).
    { clear IH Hnd. induction gs as [|h gs IHg]; simpl; [reflexivity|].
      destruct (eqb x h) eqn:E.
      - exfalso. apply Hg. left. symmetry. apply eqb_eq, E.
      - rewrite IHg; [reflexivity|]. intros H. apply Hg. right. exact H. }
    rewrite H0. lia.
  - destruct (eqb x g) eqn:E.
    + exfalso. apply Hg. apply eqb_eq in E. subst g. exact Hx.
    + rewrite (IH Hx). lia.
Qed.

(** Summing a quantity group by group sums it over all rows. *)
Lemma group_sums (f : Store.call -> Z) (gs : list G)
      (rows : list Store.call) :
  NoDup gs ->
  (forall r, In r rows -> In (col r) gs) ->
  Store.sum_int
    (map (fun g =>
            Store.sum_int (map f (filter (fun r => eqb (col r) g) rows)))
         gs)
  = Store.sum_int (map f rows).
Proof.
  intros Hnd. induction rows as [|r rows IH]; intros Hin.
  - simpl. clear Hnd Hin. induction gs as [|g gs IHg]; simpl.
    + reflexivity.
    + rewrite IHg. reflexivity.
  - cbn [map Store.sum_int fold_right].
    change (fold_right Z.add 0 (map f rows)) with (Store.sum_int (map f rows)).
    rewrite <- IH by (intros r' Hr'; apply Hin; right; exact Hr').
    rewrite <- (one_group_weight (col r) (f r) gs Hnd)
      by (apply Hin; left; reflexivity).
    rewrite <- sum_int_map_add. f_equal. apply map_ext. intros g. simpl.
    destruct (eqb (col r) g); simpl; lia.
Qed.

Lemma grouped_adds_up (self : Store.SpendStore) (now days : Z) :
  let rows := Store.grouped sum eqb col display self
                            (Store._cutoff now days) in
  let total := Store.get_total sum self now days in
  Store.sum_int (map Store.agg_calls rows) = Store.total_calls total
  /\ Store.sum_int (map Store.agg_input_tokens rows)
     = Store.total_input total
  /\ Store.sum_int (map Store.agg_output_tokens rows)
     = Store.total_output total.
Proof.
  cbv zeta. unfold Store.grouped, Store.get_total.
  cbn [Store.total_calls Store.total_input Store.total_output].
  set (window := filter (Store.since (Store._cutoff now days))
                        (Store.calls self)).
  assert (Hnd : NoDup (Store.distinct eqb (map col window)))
    by (apply distinct_NoDup, eqb_eq).
  assert (Hin : forall r, In r window ->
                          In (col r) (Store.distinct eqb (map col window))).
  { intros r Hr. apply (distinct_In eqb eqb_eq). apply in_map, Hr. }
  split; [|split].
  - rewrite (sum_int_perm _ _
               (Permutation_map Store.agg_calls (sorted_by_perm _ _))).
    rewrite map_map. simpl.
    apply (group_sizes eqb eqb_eq col); assumption.
  - rewrite (sum_int_perm _ _
               (Permutation_map Store.agg_input_tokens (sorted_by_perm _ _))).
    rewrite map_map. simpl.
    apply (group_sums Store.input_tokens); assumption.
  - rewrite (sum_int_perm _ _
               (Permutation_map Store.agg_output_tokens
                                (sorted_by_perm _ _))).
    rewrite map_map. simpl.
    apply (group_sums Store.output_tokens); assumption.
Qed.

End Breakdown.

(** The rows of a breakdown sum to the given totals. *)
Definition adds_up_to {K : Type} (total : Store.totals)
           (rows : list (Store.aggregate K)) : Prop :=
  fold_right Z.add 0 (map Store.agg_calls rows) = Store.total_calls total
  /\ fold_right Z.add 0 (map Store.agg_input_tokens rows)
     = Store.total_input total
  /\ fold_right Z.add 0 (map Store.agg_output_tokens rows)
     = Store.total_output total.

(** X9. Over one and the same window, every breakdown adds up to the
    totals: the calls, input tokens and output tokens of the rows of
    [get_by_file], [get_by_function], [get_by_label] and [get_by_model] sum
    to the figures of [get_total]. *)
Theorem breakdowns_add_up (sum : list float -> float)
        (self : Store.SpendStore) (now days : Z) :
  let total := Store.get_total sum self now days in
  adds_up_to total (Store.get_by_file sum self now days)
  /\ adds_up_to total (Store.get_by_function sum self now days)
  /\ adds_up_to total (Store.get_by_label sum self now days)
  /\ adds_up_to total (Store.get_by_model sum self now days).
Proof.
  cbv zeta. unfold adds_up_to. split; [|split; [|split]].
  - apply (grouped_adds_up sum Store.opt_eqb opt_eqb_eq).
  - apply (grouped_adds_up sum (Store.pair_eqb Store.opt_eqb Store.opt_eqb)
             (pair_eqb_eq _ _ opt_eqb_eq opt_eqb_eq)).
  - apply (grouped_adds_up sum Store.opt_eqb opt_eqb_eq).
  - apply (grouped_adds_up sum (Store.pair_eqb String.eqb String.eqb)
             (pair_eqb_eq _ _ String.eqb_eq String.eqb_eq)).
Qed.

(** ** store.py: the raw rows *)

Lemma newest_first_total (a b : Store.call) :
  (Store.timestamp b <=? Store.timestamp a) = false ->
  (Store.timestamp a <=? Store.timestamp b) = true.
Proof. rewrite Z.leb_gt, Z.leb_le. lia. Qed.

Lemma newest_first_trans (a b c : Store.call) :
  (Store.timestamp b <=? Store.timestamp a) = true ->
  (Store.timestamp c <=? Store.timestamp b) = true ->
  (Store.timestamp c <=? Store.timestamp a) = true.
Proof. rewrite !Z.leb_le. lia. Qed.

(** X10. [get_all_calls] returns the rows of the window and only those,
    each as often as it is in the table, newest first. *)
Theorem get_all_calls_newest_first (self : Store.SpendStore) (now days : Z) :
  let rows := Store.get_all_calls self now days in
  Permutation rows
    (filter (fun c => now - days * 86400000000 <=? Store.timestamp c)
            (Store.calls self))
  /\ (forall c, In c rows <->
                In c (Store.calls self)
                /\ now - days * 86400000000 <= Store.timestamp c)
  /\ StronglySorted
       (fun a b => Store.timestamp b <= Store.timestamp a) rows.
Proof.
  cbv zeta. unfold Store.get_all_calls. split; [|split].
  - apply sorted_by_perm.
  - intros c. rewrite sorted_by_In, filter_In.
    unfold Store.since, Store._cutoff, Store.MICROSECONDS_PER_DAY.
    rewrite Z.leb_le. reflexivity.
  - eapply StronglySorted_impl;
      [|apply (sorted_by_sorted
                 (fun a b => Store.timestamp b <=? Store.timestamp a))].
    + intros a b H. apply Z.leb_le, H.
    + intros a b. apply newest_first_total.
    + intros a b c. apply newest_first_trans.
Qed.

(** ** store.py: clearing *)

Lemma filter_filter_implied {A : Type} (f g : A -> bool) (l : list A) :
  (forall x, f x = true -> g x = true) ->
  filter f (filter g l) = filter f l.
Proof.
  intros H. induction l as [|x l IH]; simpl; [reflexivity|].
  destruct (g x) eqn:Eg; simpl.
  - destruct (f x); rewrite IH; reflexivity.
  - destruct (f x) eqn:Ef; [rewrite (H x Ef) in Eg; discriminate Eg|].
    exact IH.
Qed.

Lemma window_after_clear (self : Store.SpendStore) (now days days' : Z) :
  days' <= days ->
  filter (Store.since (Store._cutoff now days'))
         (Store.calls (snd (Store.clear self now (Some days))))
  = filter (Store.since (Store._cutoff now days')) (Store.calls self).
Proof.
  intros Hd. simpl. apply filter_filter_implied. intros c.
  unfold Store.since, Store.before, Store._cutoff,
    Store.MICROSECONDS_PER_DAY.
  rewrite Z.leb_le, negb_true_iff, Z.ltb_ge. lia.
Qed.

(** X11. Clearing the records older than [days] days changes no report
    over a window of at most [days] days taken at the same moment: the
    totals, the four breakdowns and the raw rows are what they were. *)
Theorem clear_keeps_recent_reports (sum : list float -> float)
        (self : Store.SpendStore) (now days days' : Z) :
  days' <= days ->
  let cleared := snd (Store.clear self now (Some days)) in
  Store.get_total sum cleared now days' = Store.get_total sum self now days'
  /\ Store.get_by_file sum cleared now days'
     = Store.get_by_file sum self now days'
  /\ Store.get_by_function sum cleared now days'
     = Store.get_by_function sum self now days'
  /\ Store.get_by_label sum cleared now days'
     = Store.get_by_label sum self now days'
  /\ Store.get_by_model sum cleared now days'
     = Store.get_by_model sum self now days'
  /\ Store.get_all_calls cleared now days'
     = Store.get_all_calls self now days'.
Proof.
  intros Hd cleared. subst cleared.
  pose proof (window_after_clear self now days days' Hd) as Hw.
  unfold Store.get_total, Store.get_by_file, Store.get_by_function,
    Store.get_by_label, Store.get_by_model, Store.get_all_calls,
    Store.grouped.
  rewrite Hw. repeat split.
Qed.

Lemma clear_keeps_recent_reports_witness :
  let cleared := snd (Store.clear two_calls 1700090000000000 (Some 1)) in
  Store.get_total naive_sum cleared 1700090000000000 1
  = Store.get_total naive_sum two_calls 1700090000000000 1
  /\ Store.get_by_file naive_sum cleared 1700090000000000 1
     = Store.get_by_file naive_sum two_calls 1700090000000000 1
  /\ Store.get_by_function naive_sum cleared 1700090000000000 1
     = Store.get_by_function naive_sum two_calls 1700090000000000 1
  /\ Store.get_by_label naive_sum cleared 1700090000000000 1
     = Store.get_by_label naive_sum two_calls 1700090000000000 1
  /\ Store.get_by_model naive_sum cleared 1700090000000000 1
     = Store.get_by_model naive_sum two_calls 1700090000000000 1
  /\ Store.get_all_calls cleared 1700090000000000 1
     = Store.get_all_calls two_calls 1700090000000000 1.
Proof.
  apply (clear_keeps_recent_reports naive_sum two_calls 1700090000000000 1 1).
  lia.
Defined.

(** X12. Clearing is idempotent: a second [clear] with the same cutoff at
    the same moment removes nothing and leaves the table as it is; and
    after a [clear] with a cutoff no remaining record is older than it. *)
Theorem clear_idempotent (self : Store.SpendStore) (now : Z)
        (days : option Z) :
  let once := snd (Store.clear self now days) in
  Store.clear once now days = (0, once)
  /\ (forall d c, days = Some d -> In c (Store.calls once) ->
                  now - d * 86400000000 <= Store.timestamp c).
Proof.
  cbv zeta. destruct days as [d|]; simpl.
  - set (keep := fun c => negb (Store.before (Store._cutoff now d) c)).
    assert (Hkeep : filter keep (filter keep (Store.calls self))
                    = filter keep (Store.calls self)).
    { apply filter_all. intros c Hc. apply filter_In in Hc. apply Hc. }
    assert (Hnone : filter (Store.before (Store._cutoff now d))
                           (filter keep (Store.calls self)) = []).
    { clear Hkeep.
      induction (Store.calls self) as [|c l IH]; simpl; [reflexivity|].
      unfold keep at 1. destruct (Store.before (Store._cutoff now d) c) eqn:E;
        simpl; [exact IH|]. rewrite E. exact IH. }
    rewrite Hkeep, Hnone. split; [reflexivity|].
    intros d' c Hd Hc. injection Hd as <-.
    apply filter_In in Hc. destruct Hc as [_ Hc]. unfold keep in Hc.
    apply negb_true_iff in Hc.
    unfold Store.before, Store._cutoff, Store.MICROSECONDS_PER_DAY in Hc.
    apply Z.ltb_ge in Hc. exact Hc.
  - split; [reflexivity|]. intros d c Hd. discriminate Hd.
Qed.

(** A [clear] of the records older than a day, repeated. *)
Example clear_twice :
  Store.clear (snd (Store.clear two_calls 1700090000000000 (Some 1)))
              1700090000000000 (Some 1)
  = (0, Store.mk_store
          [Store.mk_call 2 1700086400000000 "anthropic" "claude-sonnet-4"
                         (Some "b") (Some "app.py") (Some "classify") 2000 100
                         0.0075 200 None]
          2).
Proof. reflexivity. Qed.

(** ** store.py: what the exports write *)

Definition COLUMNS : list string :=
  ["id"; "timestamp"; "provider"; "model"; "label"; "file"; "function";
   "input_tokens"; "output_tokens"; "cost_usd"; "duration_ms";
   "metadata_json"].

(** X13. Both exports report the number of records that are at most 3650
    days old.  The CSV export writes no file at all when that number is
    zero; otherwise it writes the twelve column names and one line of
    twelve cells per record.  The JSON export always writes a file, with one
    object of the twelve fields per record. *)
Theorem exports_write_the_window (self : Store.SpendStore) (now : Z)
        (path : string) (fs : Store.files) :
  let n := Z.of_nat
             (List.length
                (filter (fun c => now - 3650 * 86400000000
                                  <=? Store.timestamp c)
                        (Store.calls self))) in
  fst (Store.export_csv self now path fs) = n
  /\ fst (Store.export_json self now path fs) = n
  /\ (n = 0 -> snd (Store.export_csv self now path fs) = fs)
  /\ (0 < n ->
      exists data,
        snd (Store.export_csv self now path fs)
        = (path, Store.Csv COLUMNS data) :: fs
        /\ Z.of_nat (List.length data) = n
        /\ Forall (fun cells => List.length cells = 12%nat) data)
  /\ (exists objects,
        snd (Store.export_json self now path fs)
        = (path, Store.Json objects) :: fs
        /\ Z.of_nat (List.length objects) = n
        /\ Forall (fun object => map fst object = COLUMNS) objects).
Proof.
  cbv zeta.
  assert (Hlen : List.length (Store.get_all_calls self now Store.TEN_YEARS)
                 = List.length
                     (filter (fun c => now - 3650 * 86400000000
                                       <=? Store.timestamp c)
                             (Store.calls self))).
  { unfold Store.get_all_calls. apply Permutation_length, sorted_by_perm. }
  rewrite <- Hlen. clear Hlen.
  unfold Store.export_csv, Store.export_json, Store.count.
  destruct (Store.get_all_calls self now Store.TEN_YEARS) as [|c rows].
  - simpl. repeat split.
    + intros H. lia.
    + exists []. repeat split. constructor.
  - cbn [map fst snd List.length]. rewrite ?length_map.
    split; [reflexivity|]. split; [reflexivity|].
    split; [lia|].
    split.
    + intros _. eexists. split; [reflexivity|].
      split; [cbn [List.length]; rewrite ?length_map; reflexivity|].
      constructor; [reflexivity|].
      apply Forall_forall. intros cells Hc.
      apply in_map_iff in Hc. destruct Hc as [d [<- Hd]].
      apply in_map_iff in Hd. destruct Hd as [c' [<- _]]. reflexivity.
    + eexists. split; [reflexivity|].
      split; [cbn [List.length]; rewrite ?length_map; reflexivity|].
      constructor; [reflexivity|].
      apply Forall_forall. intros object Ho.
      apply in_map_iff in Ho. destruct Ho as [c' [<- _]]. reflexivity.
Qed.

(** ** store.py: a logged call can be read back *)

Lemma log_call_accepted (self : Store.SpendStore) (now : Z)
      (provider model : string) (label file function : option string)
      (input_tokens output_tokens : Z) (cost_usd duration_ms : float)
      (metadata : option (list (string * pyval)))
      (rowid : Z) (logged : Store.SpendStore) :
  Store.log_call self now provider model label file function
                 input_tokens output_tokens cost_usd duration_ms metadata
  = Return (rowid, logged) ->
  accepted self input_tokens output_tokens cost_usd duration_ms.
Proof.
  unfold Store.log_call.
  destruct (match metadata with
            | Some ((_ :: _) as d) =>
                s <- json_dumps (PyDict d) ;; Return (Some s)
            | _ => Return None
            end) as [mj|e]; cbn [Py.bind]; intros H; [|discriminate H].
  apply (insert_returned _ _ _ _ _ _ _ _ _ _ _ _ _ _ H).
Qed.

(** X14. A call that was logged is read back by [get_all_calls] with the
    identifier that [log_call] returned and every field as it was passed,
    as long as the window reaches back to the moment of the call; the
    window then holds one row more than before.  The cost and the duration
    are read back as numbers equal to those passed; of a negative zero the
    sign is not kept. *)
Theorem logged_call_is_retrievable (self : Store.SpendStore) (now : Z)
        (provider model : string) (label file function : option string)
        (input_tokens output_tokens : Z) (cost_usd duration_ms : float)
        (metadata : option (list (string * pyval)))
        (rowid : Z) (logged : Store.SpendStore) (now' days : Z) :
  Store.log_call self now provider model label file function
                 input_tokens output_tokens cost_usd duration_ms metadata
  = Return (rowid, logged) ->
  now' - days * 86400000000 <= now ->
  (exists metadata_json cost_read duration_read,
      In (Store.mk_call rowid now provider model label file function
                        input_tokens output_tokens cost_read duration_read
                        metadata_json)
         (Store.get_all_calls logged now' days)
      /\ (cost_read =? cost_usd)%float = true
      /\ (duration_read =? duration_ms)%float = true
      /\ (is_zero cost_usd = false -> cost_read = cost_usd)
      /\ (is_zero duration_ms = false -> duration_read = duration_ms)
      /\ (metadata = None -> metadata_json = None)
      /\ (forall d text, metadata = Some d ->
                         json_dumps (PyDict d) = Return text -> d <> [] ->
                         metadata_json = Some text))
  /\ List.length (Store.get_all_calls logged now' days)
     = S (List.length (Store.get_all_calls self now' days)).
Proof.
  intros Hlog Hw.
  pose proof (log_call_accepted _ _ _ _ _ _ _ _ _ _ _ _ _ _ Hlog)
    as (_ & _ & _ & Hcost & Hduration).
  assert (Hmeta : exists metadata_json,
             logged
             = Store.mk_store
                 (Store.calls self ++
                  [Store.mk_call rowid now provider model label file function
                                 input_tokens output_tokens
                                 (Store.read_back cost_usd)
                                 (Store.read_back duration_ms)
                                 metadata_json])
                 rowid
             /\ (metadata = None -> metadata_json = None)
             /\ (forall d text, metadata = Some d ->
                                json_dumps (PyDict d) = Return text ->
                                d <> [] -> metadata_json = Some text)).
  { revert Hlog. unfold Store.log_call.
    destruct metadata as [[|kv d]|].
    - cbn [Py.bind]. intros H.
      destruct (insert_returned _ _ _ _ _ _ _ _ _ _ _ _ _ _ H)
        as (_ & -> & ->).
      exists None.
      split; [reflexivity|]. split; [reflexivity|].
      intros d text Hd _ Hne. injection Hd as <-. congruence.
    - destruct (json_dumps (PyDict (kv :: d))) as [text|e] eqn:E;
        cbn [Py.bind]; intros H; [|discriminate H].
      destruct (insert_returned _ _ _ _ _ _ _ _ _ _ _ _ _ _ H)
        as (_ & -> & ->).
      exists (Some text).
      split; [reflexivity|]. split; [discriminate|].
      intros d' text' Hd Ht _.
      assert (Hd' : d' = kv :: d) by (injection Hd; auto).
      rewrite Hd', E in Ht. injection Ht as <-. reflexivity.
    - cbn [Py.bind]. intros H.
      destruct (insert_returned _ _ _ _ _ _ _ _ _ _ _ _ _ _ H)
        as (_ & -> & ->).
      exists None.
      split; [reflexivity|]. split; [reflexivity|]. discriminate. }
  destruct Hmeta as [mj [-> [Hnone Hsome]]].
  assert (Hin : Store.since (Store._cutoff now' days)
                  (Store.mk_call rowid now provider model label file function
                     input_tokens output_tokens (Store.read_back cost_usd)
                     (Store.read_back duration_ms) mj)
                = true).
  { unfold Store.since, Store._cutoff, Store.MICROSECONDS_PER_DAY. simpl.
    apply Z.leb_le, Hw. }
  split.
  - exists mj, (Store.read_back cost_usd), (Store.read_back duration_ms).
    split; [|split; [|split; [|split; [|split; [|split]]]]];
      try assumption.
    + unfold Store.get_all_calls. apply sorted_by_In. apply filter_In.
      split; [|exact Hin]. simpl. apply in_or_app. right. left. reflexivity.
    + apply read_back_equal, Hcost.
    + apply read_back_equal, Hduration.
    + apply read_back_nonzero.
    + apply read_back_nonzero.
  - unfold Store.get_all_calls.
    rewrite !(Permutation_length (sorted_by_perm _ _)).
    cbn [Store.calls]. rewrite filter_app_one, Hin, length_app. simpl. lia.
Qed.

(** A third call on [two_calls], read back within a day. *)
Lemma logged_call_is_retrievable_witness :
  In (Store.mk_call 3 1700090000000000 "google" "gemini-1.5-pro"
                    (Some "summarise") None None 10 20 0.001 30 None)
     (Store.get_all_calls
        (Store.mk_store
           (Store.calls two_calls ++
            [Store.mk_call 3 1700090000000000 "google" "gemini-1.5-pro"
                           (Some "summarise") None None 10 20 0.001 30
                           None])
           3)
        1700093600000000 1).
Proof.
  destruct (logged_call_is_retrievable two_calls 1700090000000000 "google"
              "gemini-1.5-pro" (Some "summarise") None None 10 20
              0.001%float 30%float None 3 _ 1700093600000000 1
              eq_refl ltac:(lia))
    as [(metadata_json & cost_read & duration_read
         & Hin & _ & _ & Hcost & Hduration & Hnone & _) _].
  rewrite (Hnone eq_refl), (Hcost eq_refl), (Hduration eq_refl) in Hin.
  exact Hin.
Defined.

(** ** store.py: when a call cannot be logged *)

(** The value holds an attribute object somewhere. *)
Fixpoint holds_object (v : pyval) : bool :=
  match v with
  | PyObj _ => true
  | PyDict items => existsb (fun kv => holds_object (snd kv)) items
  | PyNone | PyBool _ | PyInt _ | PyStr _ => false
  end.

(** The value holds an integer of more than 4300 digits somewhere outside
    an attribute object. *)
Fixpoint holds_long_integer (v : pyval) : bool :=
  match v with
  | PyInt n => 10 ^ 4300 <=? Z.abs n
  | PyDict items => existsb (fun kv => holds_long_integer (snd kv)) items
  | PyNone | PyBool _ | PyStr _ | PyObj _ => false
  end.

Definition NOT_SERIALIZABLE : exn :=
  TypeError "Object of type SimpleNamespace is not JSON serializable".

Definition TOO_LONG : exn :=
  ValueError
    ("Exceeds the limit (4300 digits) for integer string conversion"
     ++ "; use sys.set_int_max_str_digits() to increase the limit").

(** What the encoder answers on a value. *)
Definition encoded (v : pyval) (r : outcome string) : Prop :=
  match r with
  | Return _ => holds_object v = false /\ holds_long_integer v = false
  | Raise e => (e = NOT_SERIALIZABLE /\ holds_object v = true)
               \/ (e = TOO_LONG /\ holds_long_integer v = true)
  end.

Lemma json_dumps_spec (v : pyval) : encoded v (json_dumps v).
Proof.
  revert v. fix IH 1. intros [ | b | n | s | items | attrs];
    try (split; reflexivity); [| |left; split; reflexivity].
  - cbn [json_dumps]. unfold int_to_str, MAX_STR_DIGITS.
    destruct (10 ^ 4300 <=? Z.abs n) eqn:E; cbn [encoded].
    + right. split; [reflexivity | exact E].
    + split; [reflexivity | exact E].
  - cbn [json_dumps].
    assert (Hitems :
      match
        (fix members (items : list (string * pyval))
           : outcome (list string) :=
           match items with
           | [] => Return []
           | (k, x) :: items' =>
               match json_dumps x with
               | Raise e => Raise e
               | Return sx =>
                   match members items' with
                   | Raise e => Raise e
                   | Return rest =>
                       Return ((json_str k ++ ": " ++ sx) :: rest)
                   end
               end
           end) items
      with
      | Return _ => encoded (PyDict items) (Return EmptyString)
      | Raise e => encoded (PyDict items) (Raise e)
      end).
    { revert items. fix IHl 1. intros [|[k x] items];
        [split; reflexivity|].
      cbn [encoded holds_object holds_long_integer existsb snd].
      specialize (IH x). specialize (IHl items).
      destruct (json_dumps x) as [sx|e]; cbn [encoded] in IH.
      - destruct IH as [-> ->]. cbn [orb].
        destruct ((fix members (items : list (string * pyval))
                     : outcome (list string) :=
                     match items with
                     | [] => Return []
                     | (k, x) :: items' =>
                         match json_dumps x with
                         | Raise e => Raise e
                         | Return sx =>
                             match members items' with
                             | Raise e => Raise e
                             | Return rest =>
                                 Return ((json_str k ++ ": " ++ sx) :: rest)
                             end
                         end
                     end) items) as [rest|e]; exact IHl.
      - destruct IH as [[-> ->]|[-> ->]]; [left | right];
          (split; [reflexivity|]); cbn [orb]; reflexivity. }
    destruct ((fix members (items : list (string * pyval))
                 : outcome (list string) :=
                 match items with
                 | [] => Return []
                 | (k, x) :: items' =>
                     match json_dumps x with
                     | Raise e => Raise e
                     | Return sx =>
                         match members items' with
                         | Raise e => Raise e
                         | Return rest =>
                             Return ((json_str k ++ ": " ++ sx) :: rest)
                         end
                     end
                 end) items) as [parts|e]; exact Hitems.
Qed.

(** The metadata that [log_call] can write: none, an empty map, or a map
    that holds neither an attribute object nor an integer of more than
    4300 digits. *)
Definition writable (metadata : option (list (string * pyval))) : Prop :=
  forall d, metadata = Some d ->
            holds_object (PyDict d) = false
            /\ holds_long_integer (PyDict d) = false.

(** X15. When [log_call] returns and when it raises.  The encoder fails
    exactly on a value that holds an attribute object or an integer of more
    than 4300 digits, with [TypeError] or [ValueError].  [log_call] returns
    exactly when its metadata can be written and the database accepts the
    row, and the identifier it returns is the counter plus one.  When it
    raises, it raises the failure of the encoder if the metadata cannot be
    written; otherwise [OverflowError] if a count does not fit 64 bits,
    else [OperationalError] if the counter is exhausted, else
    [IntegrityError] if the cost or the duration is NaN. *)
Theorem log_call_failures (self : Store.SpendStore) (now : Z)
        (provider model : string) (label file function : option string)
        (input_tokens output_tokens : Z) (cost_usd duration_ms : float)
        (metadata : option (list (string * pyval))) :
  let log := Store.log_call self now provider model label file function
                            input_tokens output_tokens cost_usd duration_ms
                            metadata in
  (forall v, (exists text, json_dumps v = Return text)
             <-> holds_object v = false /\ holds_long_integer v = false)
  /\ (forall v e, json_dumps v = Raise e ->
                  (e = NOT_SERIALIZABLE /\ holds_object v = true)
                  \/ (e = TOO_LONG /\ holds_long_integer v = true))
  /\ ((exists rowid logged, log = Return (rowid, logged))
      <-> writable metadata
          /\ accepted self input_tokens output_tokens cost_usd duration_ms)
  /\ (forall rowid logged, log = Return (rowid, logged) ->
                           rowid = Store.last_rowid self + 1)
  /\ (forall e, log = Raise e ->
                (~ writable metadata
                 /\ exists d, metadata = Some d
                              /\ json_dumps (PyDict d) = Raise e)
                \/ (writable metadata
                    /\ refused self input_tokens output_tokens cost_usd
                               duration_ms e)).
Proof.
  cbv zeta.
  assert (Hencode : forall v,
             (exists text, json_dumps v = Return text)
             <-> holds_object v = false /\ holds_long_integer v = false).
  { intros v. pose proof (json_dumps_spec v) as H.
    destruct (json_dumps v) as [text|e]; cbn [encoded] in H.
    - split; [intros _; exact H | intros _; exists text; reflexivity].
    - split.
      + intros [text Ht]. discriminate Ht.
      + intros [H1 H2]. destruct H as [[_ H]|[_ H]]; congruence. }
  (* the metadata column, or the failure of the encoder *)
  assert (Hmeta :
    match (match metadata with
           | Some ((_ :: _) as d) =>
               s <- json_dumps (PyDict d) ;; Return (Some s)
           | _ => Return None
           end) with
    | Return _ => writable metadata
    | Raise e => ~ writable metadata
                 /\ exists d, metadata = Some d
                              /\ json_dumps (PyDict d) = Raise e
    end).
  { destruct metadata as [[|kv d]|].
    - intros d Hd. injection Hd as <-. split; reflexivity.
    - pose proof (json_dumps_spec (PyDict (kv :: d))) as H.
      destruct (json_dumps (PyDict (kv :: d))) as [text|e] eqn:E;
        cbn [Py.bind encoded] in H |- *.
      + intros d' Hd. injection Hd as <-. exact H.
      + split; [|exists (kv :: d); split; [reflexivity | exact E]].
        intros Hw. destruct (Hw _ eq_refl) as [H1 H2].
        destruct H as [[_ H]|[_ H]]; congruence.
    - intros d Hd. discriminate Hd. }
  split; [exact Hencode|]. split; [|split; [|split]].
  - intros v e He. pose proof (json_dumps_spec v) as H.
    rewrite He in H. exact H.
  - unfold Store.log_call.
    destruct (match metadata with
              | Some ((_ :: _) as d) =>
                  s <- json_dumps (PyDict d) ;; Return (Some s)
              | _ => Return None
              end) as [mj|e]; cbn [Py.bind].
    + destruct (insert_spec self now provider model label file function
                  input_tokens output_tokens cost_usd duration_ms mj)
        as [[Ha ->]|[e [Hr ->]]].
      * split; [intros _; split; assumption|].
        intros _. eexists. eexists. reflexivity.
      * split; [intros (rowid & logged & H); discriminate H|].
        intros [_ Ha]. exfalso.
        exact (refused_not_accepted _ _ _ _ _ _ Hr Ha).
    + split; [intros (rowid & logged & H); discriminate H|].
      intros [Hw _]. destruct Hmeta as [Hno _]. contradiction.
  - intros rowid logged H.
    destruct (log_call_inv _ _ _ _ _ _ _ _ _ _ _ _ _ _ H) as [mj [-> _]].
    reflexivity.
  - intros e. unfold Store.log_call.
    destruct (match metadata with
              | Some ((_ :: _) as d) =>
                  s <- json_dumps (PyDict d) ;; Return (Some s)
              | _ => Return None
              end) as [mj|e']; cbn [Py.bind]; intros H.
    + right. split; [exact Hmeta|]. apply (insert_refused _ _ _ _ _ _ _ _ _ _ _ _ _ H).
    + left. injection H as <-. exact Hmeta.
Qed.

(** One case of each kind, on an empty table. *)
Example log_call_refusals :
  let log input_tokens cost_usd metadata :=
    Store.log_call Store.empty 0 "openai" "gpt-4o" None None None
                   input_tokens 50 cost_usd 5 metadata in
  log 100 0.001%float (Some [("client", PyObj [])]) = Raise NOT_SERIALIZABLE
  /\ log 100 0.001%float (Some [("seed", PyInt (10 ^ 4300))]) = Raise TOO_LONG
  /\ log (2 ^ 63) nan (Some [("seed", PyInt (10 ^ 4300 - 1))])
     = Raise (OverflowError
                "Python int too large to convert to SQLite INTEGER")
  /\ log 100 nan None
     = Raise (Store.IntegrityError
                "NOT NULL constraint failed: calls.cost_usd")
  /\ Store.log_call (Store.mk_store [] (2 ^ 63 - 1)) 0 "openai" "gpt-4o"
                    None None None 100 50 nan 5 None
     = Raise (Store.OperationalError "database or disk is full")
  /\ exists logged, log (2 ^ 63 - 1) (-0)%float None = Return (1, logged)
                    /\ map Store.cost_usd (Store.calls logged) = [0%float].
Proof.
  cbv zeta. repeat split; try (vm_compute; reflexivity).
  eexists. split; vm_compute; reflexivity.
Qed.

(** ** tracker.py: what the decorator does to a call *)







(** X17. The wrapper is all or nothing.  When the call fails, its failure
    is passed on and the world is as the call left it.  When the call
    returns, either its result is returned and the table has exactly one
    row more, or the instrumentation itself raises: then the result is
    lost and nothing has been logged. *)
Theorem track_all_or_nothing {A : Type} (model : string)
        (label provider : option string) (func : Tracker.callable A)
        (caller : Tracker.FrameInfo) (args : A) (w : Tracker.World) :
  let called := Tracker.__call__ func args w in
  let tracked := Tracker.track model label provider func caller args w in
  match fst called with
  | Raise e => tracked = (Raise e, snd called)
  | Return result =>
      (fst tracked = Return result
       /\ Tracker.utcnow (snd tracked) = Tracker.utcnow (snd called)
       /\ Tracker.time (snd tracked) = Tracker.time (snd called)
       /\ exists record,
            Store.calls (Tracker._store (snd tracked))
            = (Store.calls (Tracker._store (snd called)) ++ [record])%list
            /\ Store.id record
               = Store.last_rowid (Tracker._store (snd called)) + 1)
      \/ (exists e, tracked = (Raise e, snd called))
  end.
Proof.
  cbv zeta. unfold Tracker.track.
  destruct (Tracker.__call__ func args w) as [[result|e] w1];
    cbn [fst snd]; [|reflexivity].
  match goal with
  | |- context [match ?logged with Return _ => _ | Raise _ => _ end] =>
      destruct logged as [[rowid store']|e] eqn:Hlogged
  end; [|right; exists e; reflexivity].
  left. cbn [fst snd Tracker.set_store Tracker._store Tracker.utcnow
             Tracker.time].
  split; [reflexivity|]. split; [reflexivity|]. split; [reflexivity|].
  revert Hlogged.
  destruct (Tracker._extract_tokens result) as [[i o]|e]; cbn [Py.bind];
    [|discriminate].
  destruct (Tracker._extract_model result) as [extracted|e]; cbn [Py.bind];
    [|discriminate].
  match goal with
  | |- context [Py.bind ?m _] => destruct m as [detected|e]
  end; cbn [Py.bind]; [|discriminate].
  match goal with
  | |- context [Py.bind ?m _] => destruct m as [name|e]
  end; cbn [Py.bind]; [|discriminate].
  destruct (calculate_cost name i o) as [cost|e]; cbn [Py.bind];
    [|discriminate].
  intros H.
  destruct (log_call_inv _ _ _ _ _ _ _ _ _ _ _ _ _ _ H) as [mj [-> ->]].
  eexists. split; reflexivity.
Qed.

(** The instrumentation masks a result: the usage of the response exposes
    [prompt_tokens] holding [None]. *)
Example track_masks_result :
  Tracker.track "gpt-4o" None None
    (Tracker.mk_callable "my_api_call"
       (fun _ w =>
          (Return (PyObj [("usage", PyObj [("prompt_tokens", PyNone)])]),
           w)))
    test_frame tt fresh_world
  = (Raise (TypeError
              ("int() argument must be a string, a bytes-like object or a "
               ++ "real number, not 'NoneType'")),
     fresh_world).
Proof. reflexivity. Qed.

(** ** tracker.py: what the context manager does to a scope *)


(** A scope on an unpriced model whose holder is given a count that does
    not fit 64 bits: the cost is 0.0, the database refuses the record, the
    body's own failure is replaced and the table stays empty. *)
Example spending_refused :
  Tracker.spending "my-model" None None test_frame
    (fun _ w => (@Raise unit (ValueError "something went wrong"),
                 Tracker.SpendContext.mk (2 ^ 63) 0, w))
    fresh_world
  = (Raise (OverflowError
              "Python int too large to convert to SQLite INTEGER"),
     fresh_world).
Proof. vm_compute. reflexivity. Qed.

(* ================================================================== *)
(** * reporter.py and cli.py: the summary panel *)
(* ================================================================== *)

Module Reporter.

(** [format(n, ",")]: the decimal digits in groups of three, counted from
    the right. *)
Fixpoint group3 (l : list ascii) : list ascii :=
  match l with
  | a :: b :: c :: rest =>
      match rest with
      | [] => l
      | _ :: _ => a :: b :: c :: ","%char :: group3 rest
      end
  | _ => l
  end.

Definition format_thousands (n : Z) : string :=
  let sign := if n <? 0 then "-" else EmptyString in
  let digits := list_ascii_of_string (str_of_int (Z.abs n)) in
  (sign ++ string_of_list_ascii (rev (group3 (rev digits))))%string.

(** [n / d] rounded to the nearest integer, ties to even, for [0 <= n] and
    [0 < d]. *)
Definition round_half_even (n d : Z) : Z :=
  let q := n / d in
  let r := n mod d in
  if 2 * r <? d then q
  else if d <? 2 * r then q + 1
  else if Z.even q then q else q + 1.

(** The value [m * 2^e] in ten-thousandths, correctly rounded. *)
Definition ten_thousandths (m : positive) (e : Z) : Z :=
  if 0 <=? e then Z.pos m * 2 ^ e * 10000
  else round_half_even (Z.pos m * 10000) (2 ^ (- e)).

Definition digit_char (d : Z) : ascii := ascii_of_N (48 + Z.to_N d).

Definition four_digits (n : Z) : string :=
  String (digit_char (n / 1000 mod 10))
    (String (digit_char (n / 100 mod 10))
       (String (digit_char (n / 10 mod 10))
          (String (digit_char (n mod 10)) EmptyString))).

(** [format(x, ".4f")]: the exact value of the double rounded to four
    decimals, ties to even. *)
Definition format_4f (x : float) : string :=
  match Prim2SF x with
  | S754_nan => "nan"
  | S754_infinity s => if s then "-inf" else "inf"
  | S754_zero s => if s then "-0.0000" else "0.0000"
  | S754_finite s m e =>
      let q := ten_thousandths m e in
      let sign := if s then "-" else EmptyString in
      let whole := str_of_int (q / 10000) in
      let decimals := four_digits (q mod 10000) in
      (sign ++ whole ++ "." ++ decimals)%string
  end.

Definition _cost_str (cost : float) : string :=
  ("$" ++ format_4f cost)%string.

(** A [rich.panel.Panel] as it is handed to the console. *)
Record Panel : Type := mk_panel {
  renderable : string;
  title : string;
  border_style : string;
  expand : bool
}.

Definition newline : string := String (ascii_of_N 10) EmptyString.

Definition report_summary (total : Store.totals) (top_file top_model : string)
           (days : Z) : Panel :=
  let cost := Store.total_cost total in
  let calls := Store.total_calls total in
  let inp := Store.total_input total in
  let out := Store.total_output total in
  let lines :=
    [ "[bold green]Total Spend:[/bold green]   [yellow]$"
        ++ format_4f cost ++ "[/yellow]";
      "[bold]Total Calls:[/bold]   " ++ format_thousands calls;
      "[bold]Input Tokens:[/bold]  " ++ format_thousands inp;
      "[bold]Output Tokens:[/bold] " ++ format_thousands out;
      EmptyString;
      "[bold]Top File:[/bold]      [cyan]" ++ top_file ++ "[/cyan]";
      "[bold]Top Model:[/bold]     [magenta]" ++ top_model ++ "[/magenta]"
    ]%string in
  mk_panel (String.concat newline lines)
           ("LLM Spend Summary (last " ++ str_of_int days ++ " days)")%string
           "green" false.

End Reporter.

Module Cli.

(** [llm-spend summary --days N]: the panel printed for the module-level
    store at the time [now]. *)
Definition summary (sql_sum_real : list float -> float)
           (_store : Store.SpendStore) (now : Store.instant) (days : Z)
  : Reporter.Panel :=
  let total := Store.get_total sql_sum_real _store now days in
  let files := Store.get_by_file sql_sum_real _store now days in
  let models := Store.get_by_model sql_sum_real _store now days in
  let top_file :=
    match files with first :: _ => Store.key first | [] => "(none)" end in
  let top_model :=
    match models with
    | first :: _ => fst (Store.key first)
    | [] => "(none)"
    end in
  Reporter.report_summary total top_file top_model days.

End Cli.

Example format_thousands_samples :
  map Reporter.format_thousands [0; 123; 1000; 1234567; -1234; -999]
  = ["0"; "123"; "1,000"; "1,234,567"; "-1,234"; "-999"].
Proof. reflexivity. Qed.

Example format_4f_samples :
  map Reporter.format_4f
      [12.5; 0.0075; 0.00005; 0.00015; 0.00025; 0.000025; 0.03125;
       0.09375; 1e22; -0.00001; 0; infinity; nan]%float
  = ["12.5000"; "0.0075"; "0.0001"; "0.0001"; "0.0003"; "0.0000"; "0.0312";
     "0.0938"; "10000000000000000000000.0000"; "-0.0000"; "0.0000"; "inf";
     "nan"].
Proof. vm_compute. reflexivity. Qed.

(** ** cli.py: the top consumers of the summary *)

Lemma grouped_empty_window {G K : Type} (sum : list float -> float)
      (eqb : G -> G -> bool) (col : Store.call -> G) (display : G -> K)
      (self : Store.SpendStore) (cutoff : Z) :
  filter (Store.since cutoff) (Store.calls self) = [] ->
  Store.grouped sum eqb col display self cutoff = [].
Proof. intros H. unfold Store.grouped. rewrite H. reflexivity. Qed.

Lemma top_of_aggregation {G K : Type} (sum : list float -> float)
      (eqb : G -> G -> bool) (col : Store.call -> G) (display : G -> K)
      (self : Store.SpendStore) (now days : Z)
      (rows : list (Store.aggregate K)) (c : Store.call) :
  aggregation sum eqb col display self now days rows ->
  In c (Store.calls self) ->
  now - days * 86400000000 <= Store.timestamp c ->
  exists first rest,
    rows = first :: rest
    /\ forall r, In r rows ->
                 cost_ge (Store.agg_cost_usd first) (Store.agg_cost_usd r).
Proof.
  intros (_ & Hcover & _ & _ & Hhead) Hc Hw.
  destruct (Hcover c Hc Hw) as [r [Hr _]].
  destruct rows as [|first rest]; [contradiction|].
  exists first, rest. split; [reflexivity|].
  apply (Hhead first rest eq_refl).
Qed.

(** X19. The summary names the top consumers of the window: ["(none)"] for
    both when the window holds no record; otherwise a file whose summed
    cost no other file exceeds and a model whose summed cost no other
    model exceeds, next to the totals of the same window. *)
Theorem summary_top_consumers (sum : list float -> float)
        (self : Store.SpendStore) (now days : Z) :
  let window :=
    filter (fun c => now - days * 86400000000 <=? Store.timestamp c)
           (Store.calls self) in
  let files := Store.get_by_file sum self now days in
  let models := Store.get_by_model sum self now days in
  exists top_file top_model,
    Cli.summary sum self now days
    = Reporter.report_summary (Store.get_total sum self now days)
                              top_file top_model days
    /\ (window = [] -> top_file = "(none)" /\ top_model = "(none)")
    /\ (window <> [] ->
        (exists r, In r files /\ top_file = Store.key r
                   /\ forall r', In r' files ->
                                 cost_ge (Store.agg_cost_usd r)
                                         (Store.agg_cost_usd r'))
        /\ (exists r, In r models /\ top_model = fst (Store.key r)
                      /\ forall r', In r' models ->
                                    cost_ge (Store.agg_cost_usd r)
                                            (Store.agg_cost_usd r'))).
Proof.
  cbv zeta. unfold Cli.summary.
  eexists. eexists. split; [reflexivity|]. split.
  - intros Hempty.
    unfold Store.get_by_file, Store.get_by_model.
    rewrite !grouped_empty_window by exact Hempty. split; reflexivity.
  - intros Hne.
    destruct (filter (fun c => now - days * 86400000000 <=? Store.timestamp c)
                     (Store.calls self)) as [|c window] eqn:E;
      [congruence|].
    assert (Hc : In c (Store.calls self)
                 /\ now - days * 86400000000 <= Store.timestamp c).
    { assert (Hin : In c (c :: window)) by (left; reflexivity).
      rewrite <- E in Hin. apply filter_In in Hin.
      destruct Hin as [Hin Hw]. split; [exact Hin | apply Z.leb_le, Hw]. }
    destruct Hc as [Hc Hw]. split.
    + destruct (top_of_aggregation sum _ _ _ self now days _ c
                  (grouped_aggregation sum Store.opt_eqb opt_eqb_eq
                     Store.file (fun g => Store.coalesce g "(unknown)")
                     self now days) Hc Hw)
        as [first [rest [Hrows Hmax]]].
      unfold Store.get_by_file. rewrite Hrows in *.
      exists first. split; [left; reflexivity|].
      split; [reflexivity | exact Hmax].
    + destruct (top_of_aggregation sum _ _ _ self now days _ c
                  (grouped_aggregation sum
                     (Store.pair_eqb String.eqb String.eqb)
                     (pair_eqb_eq _ _ String.eqb_eq String.eqb_eq)
                     (fun c => (Store.model c, Store.provider c))
                     (fun g => g) self now days) Hc Hw)
        as [first [rest [Hrows Hmax]]].
      unfold Store.get_by_model. rewrite Hrows in *.
      exists first. split; [left; reflexivity|].
      split; [reflexivity | exact Hmax].
Qed.

(** The summary of [two_calls] over thirty days. *)
Example summary_two_calls :
  Reporter.renderable
    (Cli.summary naive_sum two_calls 1700090000000000 30)
  = String.concat Reporter.newline
      ["[bold green]Total Spend:[/bold green]   [yellow]$0.0175[/yellow]";
       "[bold]Total Calls:[/bold]   2";
       "[bold]Input Tokens:[/bold]  4,000";
       "[bold]Output Tokens:[/bold] 600";
       EmptyString;
       "[bold]Top File:[/bold]      [cyan]app.py[/cyan]";
       "[bold]Top Model:[/bold]     [magenta]gpt-4o[/magenta]"].
Proof. vm_compute. reflexivity. Qed.

(** ** store.py: the empty window *)

Lemma grouped_nil_iff {G K : Type} (sum : list float -> float)
      (eqb : G -> G -> bool) (col : Store.call -> G) (display : G -> K)
      (self : Store.SpendStore) (cutoff : Z) :
  Store.grouped sum eqb col display self cutoff = [] <->
  filter (Store.since cutoff) (Store.calls self) = [].
Proof.
  split; [|apply grouped_empty_window].
  unfold Store.grouped. intros H.
  destruct (filter (Store.since cutoff) (Store.calls self)) as [|c rows];
    [reflexivity|].
  apply (f_equal (@List.length _)) in H.
  rewrite (Permutation_length (sorted_by_perm _ _)), length_map in H.
  simpl in H. discriminate H.
Qed.

(** X20. A window without records gives zero totals, never a missing
    value, and empty breakdowns; and a breakdown is empty only then: as
    soon as one record is in the window, each of the four breakdowns has a
    row.  The total cost is a number in every case. *)
Theorem empty_window_reports (sum : list float -> float)
        (self : Store.SpendStore) (now days : Z) :
  let window :=
    filter (fun c => now - days * 86400000000 <=? Store.timestamp c)
           (Store.calls self) in
  (window = [] ->
   Store.get_total sum self now days = Store.mk_totals 0 0 0 0
   /\ Store.get_all_calls self now days = [])
  /\ (Store.get_by_file sum self now days = [] <-> window = [])
  /\ (Store.get_by_function sum self now days = [] <-> window = [])
  /\ (Store.get_by_label sum self now days = [] <-> window = [])
  /\ (Store.get_by_model sum self now days = [] <-> window = [])
  /\ is_nan (Store.total_cost (Store.get_total sum self now days)) = false.
Proof.
  cbv zeta.
  split; [|split; [|split; [|split; [|split]]]];
    try apply grouped_nil_iff.
  - intros H. unfold Store.get_total, Store.get_all_calls.
    change (filter (Store.since (Store._cutoff now days)) (Store.calls self))
      with (filter (fun c => now - days * 86400000000 <=? Store.timestamp c)
                   (Store.calls self)).
    rewrite H. split; reflexivity.
  - unfold Store.get_total. cbn [Store.total_cost].
    destruct (filter (Store.since (Store._cutoff now days))
                     (Store.calls self)); [reflexivity|].
    unfold Store.coalesce_real.
    destruct (is_nan (sum (map Store.cost_usd (c :: l)))) eqn:E;
      [reflexivity | exact E].
Qed.
